(** * SpaceTraders agent: the decision engine, embedded in Rocq

    A shallow embedding of the contract model ([models/contract.py]), the
    ship and agent models ([models/ship.py], [models/agent_data.py]) and of
    the state handlers of the agent ([states/assess_situation.py],
    [states/negotiate_contract.py], [states/acquire_resources.py],
    [states/accept_contract.py]), the loop of [agent.py] and the system
    symbols of the two API clients, followed by the properties of the
    specification that concern them and by further properties of the code.

    Conventions of the embedding:
    - a Python [int] is a [Z];
    - a Python [float] is a rational number ([Q]): true division, float
      multiplication and [time.time()] are exact, so results are compared
      with [==] where they are floats;
    - a [datetime] is an instant counted in microseconds ([Z]) that carries
      a time zone or not: [datetime.now()] carries none, a timestamp of the
      API that ends in Z or in an offset carries one, and comparing or
      subtracting one of each kind raises [TypeError]; a [timedelta] is a
      number of microseconds;
    - a JSON object of the remote API is a record whose fields are the keys
      the code reads, each optional when the code reads it with a default;
      a key read with a list default is a list (absent and empty agree);
      a key whose value is only tested for truth is [None] when it is
      absent or empty;
    - the strategy configuration, a [dict] with string keys, is a
      [gmap string pyval];
    - the readings of the clock and the answers of the API client are
      inputs of the handlers: [datetime.now()] is read once while an answer
      is parsed, for the terms that name no deadline, and the readings that
      follow in the same run are taken as one instant; a handler runs on
      the context and leaves the context it changed, the durations it
      slept, in order, and the state it returns;
    - the loop that pages through the waypoints of a system is bounded by
      a number of iterations, [fuel];
    - logging is not modelled, except for what is computed or read for a
      log line and can raise. *)

From Stdlib Require Import ZArith QArith Qminmax Lqa Lia List Bool Ascii String SpecFloat.
From stdpp Require Import gmap strings.
Import ListNotations.
Local Open Scope Z_scope.

(** ** Python primitives *)

Module Py.

(** [a / b] on two ints. *)
Definition truediv (a b : Z) : Q := (inject_Z a / inject_Z b)%Q.

(** [int(x)] on a float: truncation toward zero. *)
Definition int (x : Q) : Z := Z.quot (Qnum x) (Z.pos (Qden x)).

(** [a < b] on floats. *)
Definition lt (a b : Q) : bool := negb (Qle_bool b a).

(** [min(a, b)]: the first argument unless the second is smaller. *)
Definition min (a b : Q) : Q := if lt b a then b else a.

(** [sum(xs)] on ints. *)
Definition sum (xs : list Z) : Z := fold_left Z.add xs 0.

(** [max(xs, default=0)] on ints. *)
Definition max_default0 (xs : list Z) : Z :=
  match xs with
  | [] => 0
  | x :: rest => fold_left Z.max rest x
  end.

(** [all(xs)]. *)
Definition all (xs : list bool) : bool := forallb (fun b => b) xs.

(** A value of the strategy configuration: the kinds the code stores or
    reads there. *)
Inductive pyval :=
| VInt (z : Z)
| VFloat (q : Q)
| VBool (b : bool).

(** The number a value stands for in arithmetic ([True] is 1). *)
Definition num (v : pyval) : Q :=
  match v with
  | VInt z => inject_Z z
  | VFloat q => q
  | VBool b => if b then 1%Q else 0%Q
  end.

(** Truth value of a value: zero and [False] are falsy. *)
Definition truthy (v : pyval) : bool :=
  match v with
  | VInt z => negb (z =? 0)
  | VFloat q => negb (Qeq_bool q 0)
  | VBool b => b
  end.

(** Exceptions the modelled code can meet. *)
Inductive exn :=
| KeyError (key : string)
| TypeError
| AttributeError
| ApiError.

(** Outcome of a call: a value, an exception, or no outcome within the
    number of loop iterations granted ([OutOfFuel] is not an exception and
    no handler catches it). *)
Inductive result (A : Type) :=
| Ok (a : A)
| Raise (e : exn)
| OutOfFuel.
Arguments Ok {A} a.
Arguments Raise {A} e.
Arguments OutOfFuel {A}.

Definition bind {A B} (k : A -> result B) (r : result A) : result B :=
  match r with
  | Ok a => k a
  | Raise e => Raise e
  | OutOfFuel => OutOfFuel
  end.

(** [try: r except Exception: h]. *)
Definition catch {A} (r : result A) (h : exn -> result A) : result A :=
  match r with
  | Raise e => h e
  | _ => r
  end.

(** [[x for x in xs if p x]], where [p] may raise. *)
Fixpoint filter {A} (p : A -> result bool) (xs : list A) : result (list A) :=
  match xs with
  | [] => Ok []
  | x :: rest =>
      bind (fun keep : bool =>
              bind (fun kept => Ok (if keep then x :: kept else kept))
                   (filter p rest))
           (p x)
  end.

(** [[f x for x in xs]], where [f] may raise. *)
Fixpoint map {A B} (f : A -> result B) (xs : list A) : result (list B) :=
  match xs with
  | [] => Ok []
  | x :: rest =>
      bind (fun y => bind (fun ys => Ok (y :: ys)) (map f rest)) (f x)
  end.

End Py.

#[global] Instance result_ret : MRet Py.result := @Py.Ok.
#[global] Instance result_bind : MBind Py.result := @Py.bind.

(** A [datetime]: an instant in microseconds, and whether it carries a time
    zone. The instant of a datetime without a time zone is read on the local
    clock, the instant of one with a time zone is universal time. *)
Record datetime := {
  timestamp : Z;
  aware : bool
}.

(** The [datetime] that [datetime.now()] returns when the local clock reads
    [now]. *)
Definition naive (now : Z) : datetime := {| timestamp := now; aware := false |}.

(** The [datetime] that [datetime.now(timezone.utc)] returns at the universal
    time [now]. *)
Definition utc (now : Z) : datetime := {| timestamp := now; aware := true |}.

(** [a > b] on datetimes. *)
Definition datetime_gt (a b : datetime) : Py.result bool :=
  if Bool.eqb (aware a) (aware b)
  then Py.Ok (timestamp b <? timestamp a)
  else Py.Raise Py.TypeError.

(** [a - b] on datetimes, a timedelta in microseconds. *)
Definition datetime_sub (a b : datetime) : Py.result Z :=
  if Bool.eqb (aware a) (aware b)
  then Py.Ok (timestamp a - timestamp b)
  else Py.Raise Py.TypeError.

(** [timedelta.total_seconds()]. *)
Definition total_seconds (delta : Z) : Q := Py.truediv delta 1000000.

(** ** models/state_enums.py *)

Inductive AgentState :=
| INITIALIZE
| ASSESS_SITUATION
| NEGOTIATE_CONTRACT
| ACCEPT_CONTRACT
| PLAN_FULFILLMENT
| ACQUIRE_RESOURCES
| EXECUTE_CONTRACT
| DELIVER_GOODS
| COMPLETE_CONTRACT
| EVALUATE_PERFORMANCE
| ERROR_RECOVERY.

(** ** JSON objects of the remote API *)

Module Json.

Record delivery := {
  tradeSymbol : option string;
  destinationSymbol : option string;
  unitsRequired : option Z;
  unitsFulfilled : option Z
}.

Record payment := {
  onAccepted : option Z;
  onFulfilled : option Z
}.

(** [deadline] is the datetime the ISO string denotes, [None] when the
    string is absent or empty. *)
Record terms := {
  terms_deadline : option datetime;
  terms_payment : option payment;
  deliver : list delivery
}.

Record contract := {
  id : option string;
  factionSymbol : option string;
  type : option string;
  contract_terms : option terms;
  contract_accepted : option bool;
  contract_fulfilled : option bool;
  contract_expiration : option datetime
}.

Record agent := {
  accountId : option string;
  agent_symbol : option string;
  agent_headquarters : option string;
  agent_credits : option Z;
  startingFaction : option string;
  shipCount : option Z
}.

Record cargo_item := {
  item_symbol : option string;
  item_name : option string;
  item_description : option string;
  item_units : option Z
}.

Record cargo := {
  cargo_capacity : option Z;
  cargo_units : option Z;
  cargo_inventory : list cargo_item
}.

Record nav := {
  systemSymbol : option string;
  waypointSymbol : option string;
  nav_status : option string;
  flightMode : option string
}.

Record fuel := {
  fuel_current : option Z;
  fuel_capacity : option Z
}.

Record ship := {
  ship_symbol : option string;
  ship_nav : option nav;
  ship_cargo : option cargo;
  ship_fuel : option fuel
}.

Record trait := { trait_symbol : option string }.

Record waypoint := {
  waypoint_symbol : option string;
  traits : list trait
}.

(** One offer of a shipyard, the [ship_info] of the purchase code. *)
Record ship_offer := {
  offer_type : option string;
  purchasePrice : option Z;
  offer_cargo : option cargo
}.

Record shipyard := { ships : list ship_offer }.

(** The [data] of a purchase answer. *)
Record purchase := {
  purchase_ship : option ship;
  purchase_agent : option agent
}.

End Json.

(** [d.get(key, default)]. *)
Definition get {A} (field : option A) (dflt : A) : A := default dflt field.

(** ** models/contract.py *)

Inductive ContractType := PROCUREMENT | TRANSPORT | SHUTTLE.

(** [t.value], the name the API uses. *)
Definition ContractType_value (t : ContractType) : string :=
  match t with
  | PROCUREMENT => "PROCUREMENT"
  | TRANSPORT => "TRANSPORT"
  | SHUTTLE => "SHUTTLE"
  end.

Inductive ContractStatus := AVAILABLE | ACCEPTED | FULFILLED | FAILED.

Module ContractDelivery.

Record t := {
  trade_symbol : string;
  destination_symbol : string;
  units_required : Z;
  units_fulfilled : Z
}.

Definition is_completed (d : t) : bool :=
  units_required d <=? units_fulfilled d.

Definition remaining_units (d : t) : Z :=
  Z.max 0 (units_required d - units_fulfilled d).

Definition from_api_response (data : Json.delivery) : t :=
  {| trade_symbol := get (Json.tradeSymbol data) EmptyString;
     destination_symbol := get (Json.destinationSymbol data) EmptyString;
     units_required := get (Json.unitsRequired data) 0;
     units_fulfilled := get (Json.unitsFulfilled data) 0 |}.

End ContractDelivery.

Module ContractTerms.

Record t := {
  deadline : datetime;
  payment_on_accepted : Z;
  payment_on_fulfilled : Z;
  deliveries : list ContractDelivery.t
}.

Definition total_payment (self : t) : Z :=
  payment_on_accepted self + payment_on_fulfilled self.

(** [now] is the reading of the local clock. *)
Definition is_expired (now : Z) (self : t) : Py.result bool :=
  datetime_gt (naive now) (deadline self).

(** [now] is the reading of the local clock while the answer is parsed:
    terms that name no deadline are due at that instant, which a later
    reading of the clock finds past. *)
Definition from_api_response (now : Z) (data : Json.terms) : t :=
  {| deadline := get (Json.terms_deadline data) (naive now);
     payment_on_accepted :=
       match Json.terms_payment data with
       | Some p => get (Json.onAccepted p) 0
       | None => 0
       end;
     payment_on_fulfilled :=
       match Json.terms_payment data with
       | Some p => get (Json.onFulfilled p) 0
       | None => 0
       end;
     deliveries := map ContractDelivery.from_api_response (Json.deliver data) |}.

End ContractTerms.

Module Contract.

Record t := {
  contract_id : string;
  faction_symbol : string;
  contract_type : ContractType;
  terms : ContractTerms.t;
  accepted : bool;
  fulfilled : bool;
  expiration : option datetime
}.

Definition is_expired (now : Z) (self : t) : Py.result bool :=
  match expiration self with
  | Some e => datetime_gt (naive now) e
  | None => ContractTerms.is_expired now (terms self)
  end.

Definition status (now : Z) (self : t) : Py.result ContractStatus :=
  if fulfilled self then Py.Ok FULFILLED
  else if accepted self then Py.Ok ACCEPTED
  else
    is_expired now self ≫= λ expired : bool,
    if expired then Py.Ok FAILED else Py.Ok AVAILABLE.

Definition all_deliveries_completed (self : t) : bool :=
  Py.all (map ContractDelivery.is_completed (ContractTerms.deliveries (terms self))).

(** Sum of the units still to deliver, the [total_units_needed] of
    [calculate_profitability_score]. *)
Definition total_units_needed (self : t) : Z :=
  Py.sum (map ContractDelivery.remaining_units (ContractTerms.deliveries (terms self))).

Definition calculate_profitability_score
    (now : Z) (self : t) (cargo_capacity estimated_costs : Z) : Py.result Q :=
  is_expired now self ≫= λ expired : bool,
  if expired then Py.Ok (-1000)%Q
  else
    if cargo_capacity <? total_units_needed self then Py.Ok (-500)%Q
    else
      let profit := ContractTerms.total_payment (terms self) - estimated_costs in
      if profit <=? 0 then Py.Ok (-100)%Q
      else
        let profit_per_unit :=
          Py.truediv profit (Z.max 1 (total_units_needed self)) in
        let profit_margin :=
          Py.truediv profit (Z.max 1 (ContractTerms.total_payment (terms self))) in
        delta ← datetime_sub (ContractTerms.deadline (terms self)) (naive now);
        let time_remaining := total_seconds delta in
        let time_factor := Py.min 1%Q (time_remaining / 86400)%Q in
        Py.Ok (profit_per_unit * profit_margin * time_factor * 100)%Q.

(** [ContractType(s)], falling back to PROCUREMENT on an unknown name. *)
Definition parse_type (s : string) : ContractType :=
  if String.eqb s "PROCUREMENT" then PROCUREMENT
  else if String.eqb s "TRANSPORT" then TRANSPORT
  else if String.eqb s "SHUTTLE" then SHUTTLE
  else PROCUREMENT.

Definition empty_terms : Json.terms :=
  {| Json.terms_deadline := None; Json.terms_payment := None; Json.deliver := [] |}.

Definition from_api_response (now : Z) (data : Json.contract) : t :=
  {| contract_id := get (Json.id data) EmptyString;
     faction_symbol := get (Json.factionSymbol data) EmptyString;
     contract_type := parse_type (get (Json.type data) "PROCUREMENT");
     terms := ContractTerms.from_api_response now (get (Json.contract_terms data) empty_terms);
     accepted := get (Json.contract_accepted data) false;
     fulfilled := get (Json.contract_fulfilled data) false;
     expiration := Json.contract_expiration data |}.

End Contract.

(** ** models/ship.py

    The fields of a ship that hold raw JSON ([registration], [crew],
    [frame], [reactor], [engine], [modules], [mounts]) are read by no
    decision and left out. *)

Inductive ShipNavStatus := IN_TRANSIT | IN_ORBIT | DOCKED.

(** [status.value], the name the API uses. *)
Definition ShipNavStatus_value (status : ShipNavStatus) : string :=
  match status with
  | IN_TRANSIT => "IN_TRANSIT"
  | IN_ORBIT => "IN_ORBIT"
  | DOCKED => "DOCKED"
  end.

Module ShipCargoItem.

Record t := {
  symbol : string;
  name : string;
  description : string;
  units : Z
}.

Definition from_api_response (data : Json.cargo_item) : t :=
  {| symbol := get (Json.item_symbol data) EmptyString;
     name := get (Json.item_name data) EmptyString;
     description := get (Json.item_description data) EmptyString;
     units := get (Json.item_units data) 0 |}.

End ShipCargoItem.

Module ShipCargo.

Record t := {
  capacity : Z;
  units : Z;
  inventory : list ShipCargoItem.t
}.

Definition available_space (self : t) : Z := capacity self - units self.

Definition from_api_response (data : Json.cargo) : t :=
  {| capacity := get (Json.cargo_capacity data) 0;
     units := get (Json.cargo_units data) 0;
     inventory := map ShipCargoItem.from_api_response (Json.cargo_inventory data) |}.

Definition is_full (self : t) : bool := capacity self <=? units self.

(** The units of the first entry of the inventory with that symbol, 0 when
    there is none. *)
Fixpoint quantity_in (inventory : list ShipCargoItem.t) (symbol : string) : Z :=
  match inventory with
  | [] => 0
  | item :: rest =>
      if String.eqb (ShipCargoItem.symbol item) symbol
      then ShipCargoItem.units item
      else quantity_in rest symbol
  end.

Definition get_item_quantity (self : t) (symbol : string) : Z :=
  quantity_in (inventory self) symbol.

Definition has_item (self : t) (symbol : string) (quantity : Z) : bool :=
  quantity <=? get_item_quantity self symbol.

Definition empty : Json.cargo :=
  {| Json.cargo_capacity := None; Json.cargo_units := None; Json.cargo_inventory := [] |}.

End ShipCargo.

Module ShipNav.

Record t := {
  system_symbol : string;
  waypoint_symbol : string;
  status : ShipNavStatus;
  flight_mode : string
}.

Definition is_in_transit (self : t) : bool :=
  match status self with IN_TRANSIT => true | _ => false end.

Definition is_docked (self : t) : bool :=
  match status self with DOCKED => true | _ => false end.

Definition is_in_orbit (self : t) : bool :=
  match status self with IN_ORBIT => true | _ => false end.

(** [ShipNavStatus(s)], falling back to IN_ORBIT on an unknown name. *)
Definition parse_status (s : string) : ShipNavStatus :=
  if String.eqb s "IN_TRANSIT" then IN_TRANSIT
  else if String.eqb s "IN_ORBIT" then IN_ORBIT
  else if String.eqb s "DOCKED" then DOCKED
  else IN_ORBIT.

Definition from_api_response (data : Json.nav) : t :=
  {| system_symbol := get (Json.systemSymbol data) EmptyString;
     waypoint_symbol := get (Json.waypointSymbol data) EmptyString;
     status := parse_status (get (Json.nav_status data) "IN_ORBIT");
     flight_mode := get (Json.flightMode data) "CRUISE" |}.

Definition empty : Json.nav :=
  {| Json.systemSymbol := None; Json.waypointSymbol := None;
     Json.nav_status := None; Json.flightMode := None |}.

End ShipNav.

Module ShipFuel.

Record t := {
  current : Z;
  capacity : Z
}.

Definition percentage (self : t) : Q :=
  if capacity self =? 0 then 0%Q
  else (Py.truediv (current self) (capacity self) * 100)%Q.

Definition is_full (self : t) : bool := capacity self <=? current self.

(** Less than 25 percent of the tank. *)
Definition needs_refuel (self : t) : bool := Py.lt (percentage self) 25%Q.

Definition from_api_response (data : Json.fuel) : t :=
  {| current := get (Json.fuel_current data) 0;
     capacity := get (Json.fuel_capacity data) 0 |}.

Definition empty : Json.fuel :=
  {| Json.fuel_current := None; Json.fuel_capacity := None |}.

End ShipFuel.

Module Ship.

Record t := {
  symbol : string;
  nav : ShipNav.t;
  cargo : ShipCargo.t;
  fuel : ShipFuel.t
}.

Definition cargo_capacity (self : t) : Z := ShipCargo.capacity (cargo self).

Definition get_available_cargo_space (self : t) : Z :=
  ShipCargo.available_space (cargo self).

(** Docked or in orbit. *)
Definition is_at_waypoint (self : t) : bool :=
  match ShipNav.status (nav self) with
  | DOCKED | IN_ORBIT => true
  | IN_TRANSIT => false
  end.

Definition can_carry_cargo (self : t) (units : Z) : bool :=
  units <=? get_available_cargo_space self.

(** The ship holds the largest delivery that remains of the contract. *)
Definition is_suitable_for_contract (self : t) (contract : Contract.t) : bool :=
  let max_delivery :=
    Py.max_default0
      (map ContractDelivery.remaining_units
           (ContractTerms.deliveries (Contract.terms contract))) in
  max_delivery <=? cargo_capacity self.

Definition from_api_response (data : Json.ship) : t :=
  {| symbol := get (Json.ship_symbol data) EmptyString;
     nav := ShipNav.from_api_response (get (Json.ship_nav data) ShipNav.empty);
     cargo := ShipCargo.from_api_response (get (Json.ship_cargo data) ShipCargo.empty);
     fuel := ShipFuel.from_api_response (get (Json.ship_fuel data) ShipFuel.empty) |}.

End Ship.

(** ** models/agent_data.py *)

Module AgentData.

Record t := {
  account_id : string;
  symbol : string;
  headquarters : string;
  credits : Z;
  starting_faction : string;
  ship_count : Z
}.

Definition from_api_response (data : Json.agent) : t :=
  {| account_id := get (Json.accountId data) EmptyString;
     symbol := get (Json.agent_symbol data) EmptyString;
     headquarters := get (Json.agent_headquarters data) EmptyString;
     credits := get (Json.agent_credits data) 0;
     starting_faction := get (Json.startingFaction data) EmptyString;
     ship_count := get (Json.shipCount data) 0 |}.

End AgentData.

Module PerformanceMetrics.

Record t := {
  contracts_completed : Z;
  total_credits_earned : Z;
  total_execution_time : Q;
  errors_encountered : Z;
  contracts_failed : Z;
  average_contract_completion_time : Q;
  last_contract_profit : Z
}.

(** The metrics of a new context: every field at its default. *)
Definition initial : t :=
  {| contracts_completed := 0;
     total_credits_earned := 0;
     total_execution_time := 0;
     errors_encountered := 0;
     contracts_failed := 0;
     average_contract_completion_time := 0;
     last_contract_profit := 0 |}.

(** Contracts completed per hour. *)
Definition calculate_efficiency (self : t) : Q :=
  if Py.lt 0%Q (total_execution_time self)
  then (inject_Z (contracts_completed self) / (total_execution_time self / 3600))%Q
  else 0%Q.

(** What [log_contract_completion] leaves: the metrics updated, or, when
    the division by the new count of contracts raises ZeroDivisionError,
    the metrics with the three fields already written. *)
Inductive logged :=
| Updated (metrics : t)
| ZeroDivisionError (metrics : t).

Definition log_contract_completion (self : t) (profit : Z) (completion_time : Q)
    : logged :=
  let self :=
    {| contracts_completed := contracts_completed self + 1;
       total_credits_earned := total_credits_earned self + profit;
       total_execution_time := total_execution_time self;
       errors_encountered := errors_encountered self;
       contracts_failed := contracts_failed self;
       average_contract_completion_time := average_contract_completion_time self;
       last_contract_profit := profit |} in
  let total_time :=
    (average_contract_completion_time self
     * inject_Z (contracts_completed self - 1) + completion_time)%Q in
  if contracts_completed self =? 0 then ZeroDivisionError self
  else
    Updated
      {| contracts_completed := contracts_completed self;
         total_credits_earned := total_credits_earned self;
         total_execution_time := total_execution_time self;
         errors_encountered := errors_encountered self;
         contracts_failed := contracts_failed self;
         average_contract_completion_time :=
           (total_time / inject_Z (contracts_completed self))%Q;
         last_contract_profit := last_contract_profit self |}.

End PerformanceMetrics.

Module AgentContext.

(** The shared context. The API client and the logger it also carries
    are inputs of the handlers here. *)
Record t := {
  agent_data : option AgentData.t;
  current_contract : option Contract.t;
  ships : list Ship.t;
  performance_metrics : PerformanceMetrics.t;
  strategy_config : gmap string Py.pyval
}.

Definition set_agent_data (a : option AgentData.t) (self : t) : t :=
  {| agent_data := a;
     current_contract := current_contract self;
     ships := ships self;
     performance_metrics := performance_metrics self;
     strategy_config := strategy_config self |}.

Definition set_current_contract (c : option Contract.t) (self : t) : t :=
  {| agent_data := agent_data self;
     current_contract := c;
     ships := ships self;
     performance_metrics := performance_metrics self;
     strategy_config := strategy_config self |}.

Definition set_ships (l : list Ship.t) (self : t) : t :=
  {| agent_data := agent_data self;
     current_contract := current_contract self;
     ships := l;
     performance_metrics := performance_metrics self;
     strategy_config := strategy_config self |}.

Definition set_strategy_config (m : gmap string Py.pyval) (self : t) : t :=
  {| agent_data := agent_data self;
     current_contract := current_contract self;
     ships := ships self;
     performance_metrics := performance_metrics self;
     strategy_config := m |}.

(** [update_agent_data(api_response)]: the answer is given by its [data],
    [None] when the key is absent. *)
Definition update_agent_data (data : option Json.agent) (self : t) : t :=
  match data with
  | Some d => set_agent_data (Some (AgentData.from_api_response d)) self
  | None => self
  end.

(** Raises [KeyError] when the reserve is not configured. *)
Definition has_sufficient_credits (self : t) (amount : Z) : Py.result bool :=
  match agent_data self with
  | None => Py.Ok false
  | Some a =>
      match strategy_config self !! "safety_credit_reserve" with
      | None => Py.Raise (Py.KeyError "safety_credit_reserve")
      | Some reserve =>
          let available := (inject_Z (AgentData.credits a) - Py.num reserve)%Q in
          Py.Ok (Qle_bool (inject_Z amount) available)
      end
  end.

Definition get_total_cargo_capacity (self : t) : Z :=
  Py.sum (map Ship.cargo_capacity (ships self)).

Definition get_available_cargo_space (self : t) : Z :=
  Py.sum (map Ship.get_available_cargo_space (ships self)).

End AgentContext.

(** ** api/client.py: the collaborator, by its answers *)

Module Api.

(** What a call of the client comes back with: the answer of the API, or an
    exception. *)
Inductive answer (A : Type) :=
| Answer (a : A)
| Failure (e : Py.exn).
Arguments Answer {A} a.
Arguments Failure {A} e.

Definition call {A} (x : answer A) : Py.result A :=
  match x with
  | Answer a => Py.Ok a
  | Failure e => Py.Raise e
  end.

(** The answer of [get_system_waypoints]: its [data] and the [total] of
    its [meta]. *)
Record waypoints_response := {
  data : list Json.waypoint;
  meta_total : option Z
}.

Record client := {
  (** the [data] of the answers *)
  get_my_agent : answer (option Json.agent);
  get_my_ships : answer (list Json.ship);
  get_my_contracts : answer (list Json.contract);
  extract_system_from_waypoint : string -> string;
  (** system, page, limit *)
  get_system_waypoints : string -> Z -> Z -> answer waypoints_response;
  (** system, waypoint; an answer without [data] is an empty shipyard *)
  get_shipyard : string -> option string -> answer Json.shipyard;
  (** ship type, waypoint; [None] for an answer that is empty or has no
      [data] *)
  purchase_ship : option string -> option string -> answer (option Json.purchase);
  orbit_ship : string -> answer unit;
  (** ship, waypoint; whether the answer is non-empty *)
  navigate_ship : string -> option string -> answer bool;
  refuel_ship : string -> answer unit
}.

End Api.

(** The clocks the handlers read. A handler parses the answer of the API
    before it reads the local clock for anything else: [datetime_parsed] is
    the reading of [datetime.now()] while the answer is parsed, the
    deadline of the terms that name none, and [datetime_now] is its reading
    afterwards. *)
Record Clock := {
  datetime_parsed : Z;   (* datetime.now(), while an answer is parsed *)
  datetime_now : Z;      (* datetime.now(), on the local clock, afterwards *)
  datetime_now_utc : Z;  (* datetime.now(timezone.utc) *)
  time_time : Q          (* time.time(), in seconds *)
}.

(** ** The handler monad: a context that is mutated, sleeps, exceptions *)

Record World := {
  context : AgentContext.t;
  slept : list Z
}.

Definition M (A : Type) : Type := World -> Py.result A * World.

#[global] Instance M_ret : MRet M := fun A a w => (Py.Ok a, w).

#[global] Instance M_bind : MBind M := fun A B k m w =>
  match m w with
  | (Py.Ok a, w') => k a w'
  | (Py.Raise e, w') => (Py.Raise e, w')
  | (Py.OutOfFuel, w') => (Py.OutOfFuel, w')
  end.

Definition get_context : M AgentContext.t := fun w => (Py.Ok (context w), w).

Definition modify_context (f : AgentContext.t -> AgentContext.t) : M unit :=
  fun w => (Py.Ok tt, {| context := f (context w); slept := slept w |}).

(** [time.sleep(seconds)]. *)
Definition sleep (seconds : Z) : M unit :=
  fun w => (Py.Ok tt, {| context := context w; slept := slept w ++ [seconds] |}).

Definition lift {A} (r : Py.result A) : M A := fun w => (r, w).

Definition raise {A} (e : Py.exn) : M A := lift (Py.Raise e).

(** [try: body except Exception as e: handler e]; what the body did to the
    context before it raised stays done. *)
Definition try_except {A} (body : M A) (handler : Py.exn -> M A) : M A :=
  fun w =>
    match body w with
    | (Py.Raise e, w') => handler e w'
    | other => other
    end.

(** Run a handler on a context. *)
Definition run {A} (m : M A) (ctx : AgentContext.t) : Py.result A * World :=
  m {| context := ctx; slept := [] |}.

(** ** states/assess_situation.py *)

Module AssessSituationState.
Section Handler.

Variable api : Api.client.
Variable clock : Clock.

Definition _update_agent_data : M unit :=
  try_except
    (response ← lift (Api.call (Api.get_my_agent api));
     modify_context (AgentContext.update_agent_data response))
    (fun e => raise e).

Definition _update_ships : M unit :=
  try_except
    (ships_data ← lift (Api.call (Api.get_my_ships api));
     modify_context (AgentContext.set_ships (map Ship.from_api_response ships_data)))
    (fun e => raise e).

(** [contract.accepted and not contract.fulfilled and not contract.is_expired]. *)
Definition is_active (c : Contract.t) : Py.result bool :=
  if Contract.accepted c
  then
    if negb (Contract.fulfilled c)
    then Contract.is_expired (datetime_now clock) c ≫= λ expired, Py.Ok (negb expired)
    else Py.Ok false
  else Py.Ok false.

(** [not contract.accepted and not contract.is_expired], the test of the
    contracts that are counted for the log. *)
Definition is_open (c : Contract.t) : Py.result bool :=
  if negb (Contract.accepted c)
  then Contract.is_expired (datetime_now clock) c ≫= λ expired, Py.Ok (negb expired)
  else Py.Ok false.

Definition _update_contracts : M unit :=
  try_except
    (contracts_data ← lift (Api.call (Api.get_my_contracts api));
     let contracts :=
       map (Contract.from_api_response (datetime_parsed clock)) contracts_data in
     active_contracts ← lift (Py.filter is_active contracts);
     match active_contracts with
     | first :: _ => modify_context (AgentContext.set_current_contract (Some first))
     | [] => modify_context (AgentContext.set_current_contract None)
     end;;
     available_contracts ← lift (Py.filter is_open contracts);
     mret tt)
    (fun e => raise e).

Definition _determine_next_action : M AgentState :=
  ctx ← get_context;
  match AgentContext.ships ctx with
  | [] => mret ERROR_RECOVERY
  | _ :: _ =>
      match AgentContext.current_contract ctx with
      | Some contract =>
          if Contract.all_deliveries_completed contract
          then mret COMPLETE_CONTRACT
          else mret EXECUTE_CONTRACT
      | None => mret NEGOTIATE_CONTRACT
      end
  end.

Definition execute : M AgentState :=
  try_except
    (_update_agent_data;;
     _update_ships;;
     _update_contracts;;
     _determine_next_action)
    (fun e => mret ERROR_RECOVERY).

End Handler.

(** The dictionary [_assess_ship_readiness] returns. *)
Record assessment := {
  ready_ships : list string;
  ships_needing_fuel : list string;
  ships_in_transit : list string;
  total_cargo_capacity : Z;
  available_cargo_space : Z
}.

(** Body of the loop of [_assess_ship_readiness]. *)
Definition assess_ship (a : assessment) (ship : Ship.t) : assessment :=
  let total := total_cargo_capacity a + Ship.cargo_capacity ship in
  let available := available_cargo_space a + Ship.get_available_cargo_space ship in
  if ShipNav.is_in_transit (Ship.nav ship)
  then {| ready_ships := ready_ships a;
          ships_needing_fuel := ships_needing_fuel a;
          ships_in_transit := ships_in_transit a ++ [Ship.symbol ship];
          total_cargo_capacity := total;
          available_cargo_space := available |}
  else if ShipFuel.needs_refuel (Ship.fuel ship)
  then {| ready_ships := ready_ships a;
          ships_needing_fuel := ships_needing_fuel a ++ [Ship.symbol ship];
          ships_in_transit := ships_in_transit a;
          total_cargo_capacity := total;
          available_cargo_space := available |}
  else {| ready_ships := ready_ships a ++ [Ship.symbol ship];
          ships_needing_fuel := ships_needing_fuel a;
          ships_in_transit := ships_in_transit a;
          total_cargo_capacity := total;
          available_cargo_space := available |}.

Definition _assess_ship_readiness (ctx : AgentContext.t) : assessment :=
  fold_left assess_ship (AgentContext.ships ctx)
            {| ready_ships := [];
               ships_needing_fuel := [];
               ships_in_transit := [];
               total_cargo_capacity := 0;
               available_cargo_space := 0 |}.

End AssessSituationState.

(** ** states/negotiate_contract.py *)

Module NegotiateContractState.

(** The counters of [_analyze_filtering_reasons]. *)
Record issues := {
  capacity_issues : Z;
  credit_issues : Z;
  ship_size_issues : Z
}.

Section Handler.

Variable api : Api.client.
Variable clock : Clock.

(** [not contract.accepted and not contract.fulfilled and not
    contract.is_expired]. *)
Definition is_available (c : Contract.t) : Py.result bool :=
  if negb (Contract.accepted c)
  then
    if negb (Contract.fulfilled c)
    then Contract.is_expired (datetime_now clock) c ≫= λ expired, Py.Ok (negb expired)
    else Py.Ok false
  else Py.Ok false.

Definition _get_available_contracts : M (list Contract.t) :=
  try_except
    (contracts_data ← lift (Api.call (Api.get_my_contracts api));
     let all_contracts :=
       map (Contract.from_api_response (datetime_parsed clock)) contracts_data in
     lift (Py.filter is_available all_contracts))
    (fun e => raise e).

(** Sum of [units_required] over the deliveries. *)
Definition units_required_total (c : Contract.t) : Z :=
  Py.sum (map ContractDelivery.units_required
              (ContractTerms.deliveries (Contract.terms c))).

Definition max_delivery_size (c : Contract.t) : Z :=
  Py.max_default0 (map ContractDelivery.units_required
                       (ContractTerms.deliveries (Contract.terms c))).

Definition largest_ship_capacity (ctx : AgentContext.t) : Z :=
  Py.max_default0 (map Ship.cargo_capacity (AgentContext.ships ctx)).

Definition _estimate_contract_cost (c : Contract.t) : Z :=
  let total_units := units_required_total c in
  let estimated_goods_cost := total_units * 100 in
  let estimated_fuel_cost :=
    Py.int (inject_Z (ContractTerms.total_payment (Contract.terms c)) * 0.1)%Q in
  estimated_goods_cost + estimated_fuel_cost.

(** The loop of [_filter_contracts_by_capabilities]; [suitable_contracts]
    is the list built so far. *)
Fixpoint filter_loop (ctx : AgentContext.t) (total_cargo_capacity : Z)
    (suitable_contracts : list Contract.t) (contracts : list Contract.t)
    : Py.result (list Contract.t) :=
  match contracts with
  | [] => Py.Ok suitable_contracts
  | contract :: rest =>
      let total_units_needed := units_required_total contract in
      if total_cargo_capacity <? total_units_needed
      then filter_loop ctx total_cargo_capacity suitable_contracts rest
      else
        let estimated_cost := _estimate_contract_cost contract in
        sufficient ← AgentContext.has_sufficient_credits ctx estimated_cost;
        if negb sufficient
        then filter_loop ctx total_cargo_capacity suitable_contracts rest
        else
          if (largest_ship_capacity ctx <? max_delivery_size contract)
             && (total_cargo_capacity <? total_units_needed)
          then filter_loop ctx total_cargo_capacity suitable_contracts rest
          else filter_loop ctx total_cargo_capacity
                           (suitable_contracts ++ [contract]) rest
  end.

Definition _filter_contracts_by_capabilities (ctx : AgentContext.t)
    (contracts : list Contract.t) : Py.result (list Contract.t) :=
  match AgentContext.ships ctx with
  | [] => Py.Ok []
  | _ :: _ =>
      filter_loop ctx (AgentContext.get_total_cargo_capacity ctx) [] contracts
  end.

(** One round of the counting loop of [_analyze_filtering_reasons]. *)
Definition count_issues (ctx : AgentContext.t) (total_cargo_capacity : Z)
    (n : issues) (contract : Contract.t) : Py.result issues :=
  let total_units_needed := units_required_total contract in
  let estimated_cost := _estimate_contract_cost contract in
  let capacity_issues' :=
    if total_cargo_capacity <? total_units_needed
    then capacity_issues n + 1 else capacity_issues n in
  sufficient ← AgentContext.has_sufficient_credits ctx estimated_cost;
  let credit_issues' :=
    if negb sufficient then credit_issues n + 1 else credit_issues n in
  let ship_size_issues' :=
    if (largest_ship_capacity ctx <? max_delivery_size contract)
       && (total_cargo_capacity <? total_units_needed)
    then ship_size_issues n + 1 else ship_size_issues n in
  Py.Ok {| capacity_issues := capacity_issues';
           credit_issues := credit_issues';
           ship_size_issues := ship_size_issues' |}.

Fixpoint count_loop (ctx : AgentContext.t) (total_cargo_capacity : Z)
    (n : issues) (contracts : list Contract.t) : Py.result issues :=
  match contracts with
  | [] => Py.Ok n
  | contract :: rest =>
      n' ← count_issues ctx total_cargo_capacity n contract;
      count_loop ctx total_cargo_capacity n' rest
  end.

(** The agent has more than the rough cost of a ship. *)
Definition can_afford_ship (ctx : AgentContext.t) : bool :=
  match AgentContext.agent_data ctx with
  | Some a => 50000 <? AgentData.credits a
  | None => false
  end.

(** No failed acquisition on record, or the last attempt is more than an
    hour old. *)
Definition cooldown_over (ctx : AgentContext.t) : bool :=
  let last_attempt :=
    get (AgentContext.strategy_config ctx !! "last_acquire_attempt") (Py.VInt 0) in
  let acquire_failed :=
    get (AgentContext.strategy_config ctx !! "acquire_failed") (Py.VBool false) in
  negb (Py.truthy acquire_failed)
  || Py.lt 3600%Q (time_time clock - Py.num last_attempt)%Q.

Definition _analyze_filtering_reasons (ctx : AgentContext.t)
    (contracts : list Contract.t) : Py.result AgentState :=
  match contracts with
  | [] => Py.Ok NEGOTIATE_CONTRACT
  | _ :: _ =>
      n ← count_loop ctx (AgentContext.get_total_cargo_capacity ctx)
            {| capacity_issues := 0; credit_issues := 0; ship_size_issues := 0 |}
            contracts;
      if (0 <? capacity_issues n) || (0 <? ship_size_issues n)
      then
        if can_afford_ship ctx
        then
          if cooldown_over ctx
          then Py.Ok ACQUIRE_RESOURCES
          else Py.Ok NEGOTIATE_CONTRACT
        else Py.Ok NEGOTIATE_CONTRACT
      else Py.Ok NEGOTIATE_CONTRACT
  end.

(** An entry of [contract_scores]: contract, score, estimated cost. *)
Definition scored : Type := Contract.t * Q * Z.

Definition score_of (x : scored) : Q := snd (fst x).

(** Stable insertion for a sort by score, highest first: [x] goes before
    the first entry whose score is not above its own. *)
Fixpoint insert_by_score (x : scored) (l : list scored) : list scored :=
  match l with
  | [] => [x]
  | y :: rest =>
      if Py.lt (score_of x) (score_of y)
      then y :: insert_by_score x rest
      else x :: l
  end.

(** [l.sort(key=score, reverse=True)]. *)
Definition sort_by_score (l : list scored) : list scored :=
  fold_right insert_by_score [] l.

Definition _select_best_contract (ctx : AgentContext.t)
    (contracts : list Contract.t) : Py.result (option Contract.t) :=
  match contracts with
  | [] => Py.Ok None
  | _ :: _ =>
      let cargo_capacity := AgentContext.get_total_cargo_capacity ctx in
      contract_scores ←
        Py.map (fun contract =>
                  let estimated_cost := _estimate_contract_cost contract in
                  score ← Contract.calculate_profitability_score
                            (datetime_now clock) contract cargo_capacity estimated_cost;
                  Py.Ok (contract, score, estimated_cost))
               contracts;
      match sort_by_score contract_scores with
      | (best_contract, best_score, _) :: _ =>
          if Py.lt 0%Q best_score then Py.Ok (Some best_contract) else Py.Ok None
      | [] => Py.Ok None
      end
  end.

(** What [_log_contract_details] computes for the log: the time that
    remains to the deadline, read on the universal clock. *)
Definition _log_contract_details (contract : Contract.t) : Py.result unit :=
  time_remaining ← datetime_sub (ContractTerms.deadline (Contract.terms contract))
                                 (utc (datetime_now_utc clock));
  Py.Ok tt.

Definition execute : M AgentState :=
  try_except
    (available_contracts ← _get_available_contracts;
     match available_contracts with
     | [] => sleep 10;; mret NEGOTIATE_CONTRACT
     | _ :: _ =>
         ctx ← get_context;
         suitable_contracts ←
           lift (_filter_contracts_by_capabilities ctx available_contracts);
         match suitable_contracts with
         | [] =>
             next_action ← lift (_analyze_filtering_reasons ctx available_contracts);
             match next_action with
             | ACQUIRE_RESOURCES => mret ACQUIRE_RESOURCES
             | _ => sleep 30;; mret NEGOTIATE_CONTRACT
             end
         | _ :: _ =>
             best ← lift (_select_best_contract ctx suitable_contracts);
             match best with
             | Some best_contract =>
                 modify_context
                   (AgentContext.set_current_contract (Some best_contract));;
                 lift (_log_contract_details best_contract);;
                 mret ACCEPT_CONTRACT
             | None => sleep 10;; mret NEGOTIATE_CONTRACT
             end
         end
     end)
    (fun e => mret ERROR_RECOVERY).

End Handler.
End NegotiateContractState.

(** ** states/acquire_resources.py *)

Module AcquireResourcesState.

(** The dictionary [_analyze_resource_needs] returns. *)
Record resource_needs := {
  need_resources : bool;
  need_cargo_capacity : bool;
  need_fuel : bool;
  min_cargo_needed : Z;
  current_capacity : Z;
  target_capacity : Z;
  ships_needing_fuel : list Ship.t
}.

(** An entry of the list [_find_shipyards] returns. *)
Record shipyard := {
  waypoint_symbol : option string;
  system_symbol : string;
  shipyard_data : Json.shipyard
}.

(** The variables of the selection loop: [best_ship] with its
    [best_shipyard], set together, and [best_value]. *)
Record best := {
  best_ship : option (Json.ship_offer * shipyard);
  best_value : Q
}.

(** [for x in xs: body x]. *)
Fixpoint for_each {A} (body : A -> M unit) (xs : list A) : M unit :=
  match xs with
  | [] => mret tt
  | x :: rest => body x;; for_each body rest
  end.

Section Handler.

Variable api : Api.client.
Variable clock : Clock.

(** Iterations granted to the paging loop of [_find_shipyards]. *)
Variable fuel : nat.

Definition _analyze_resource_needs (ctx : AgentContext.t) : resource_needs :=
  let current_capacity := AgentContext.get_total_cargo_capacity ctx in
  let ships_needing_fuel :=
    List.filter (fun ship => ShipFuel.needs_refuel (Ship.fuel ship))
                (AgentContext.ships ctx) in
  let target_capacity := Z.max 60 (current_capacity + 20) in
  let needs :=
    {| need_resources := false;
       need_cargo_capacity := false;
       need_fuel := 0 <? Z.of_nat (length ships_needing_fuel);
       min_cargo_needed := 0;
       current_capacity := current_capacity;
       target_capacity := target_capacity;
       ships_needing_fuel := ships_needing_fuel |} in
  let needs :=
    if current_capacity <? target_capacity
    then {| need_resources := true;
            need_cargo_capacity := true;
            need_fuel := need_fuel needs;
            min_cargo_needed := target_capacity - current_capacity;
            current_capacity := current_capacity;
            target_capacity := target_capacity;
            ships_needing_fuel := ships_needing_fuel |}
    else needs in
  match ships_needing_fuel with
  | [] => needs
  | _ :: _ =>
      {| need_resources := true;
         need_cargo_capacity := need_cargo_capacity needs;
         need_fuel := need_fuel needs;
         min_cargo_needed := min_cargo_needed needs;
         current_capacity := current_capacity;
         target_capacity := target_capacity;
         ships_needing_fuel := ships_needing_fuel |}
  end.

(** The [while True] loop that pages through the waypoints of a system, 20
    to a page. *)
Fixpoint fetch_waypoints (n : nat) (system : string) (page : Z)
    (all_waypoints : list Json.waypoint) : Py.result (list Json.waypoint) :=
  match n with
  | O => Py.OutOfFuel
  | S n' =>
      response ← Api.call (Api.get_system_waypoints api system page 20);
      match Api.data response with
      | [] => Py.Ok all_waypoints
      | waypoints =>
          let all_waypoints := all_waypoints ++ waypoints in
          let total := get (Api.meta_total response) 0 in
          let total_pages := total / 20 + (if 0 <? total mod 20 then 1 else 0) in
          if (total_pages <=? page) || (Z.of_nat (length waypoints) <? 20)
          then Py.Ok all_waypoints
          else fetch_waypoints n' system (page + 1) all_waypoints
      end
  end.

Definition has_shipyard (waypoint : Json.waypoint) : bool :=
  existsb (fun trait =>
             match Json.trait_symbol trait with
             | Some s => String.eqb s "SHIPYARD"
             | None => false
             end)
          (Json.traits waypoint).

(** The loop over the waypoints: a shipyard whose details cannot be
    fetched is skipped. *)
Fixpoint collect_shipyards (system : string) (shipyards : list shipyard)
    (waypoints : list Json.waypoint) : Py.result (list shipyard) :=
  match waypoints with
  | [] => Py.Ok shipyards
  | waypoint :: rest =>
      if has_shipyard waypoint
      then
        found ← Py.catch
          (shipyard_data ← Api.call (Api.get_shipyard api system (Json.waypoint_symbol waypoint));
           Py.Ok [ {| waypoint_symbol := Json.waypoint_symbol waypoint;
                      system_symbol := system;
                      shipyard_data := shipyard_data |} ])
          (fun e => Py.Ok []);
        collect_shipyards system (shipyards ++ found) rest
      else collect_shipyards system shipyards rest
  end.

Definition _find_shipyards (ctx : AgentContext.t) : Py.result (list shipyard) :=
  Py.catch
    (match AgentContext.agent_data ctx with
     | Some agent =>
         let headquarters := AgentData.headquarters agent in
         let system := Api.extract_system_from_waypoint api headquarters in
         all_waypoints ← fetch_waypoints fuel system 1 [];
         collect_shipyards system [] all_waypoints
     | None => Py.Ok []
     end)
    (fun e => Py.Ok []).

(** Price of an offer, [ship_info.get('purchasePrice', 0)]. *)
Definition offer_price (ship_info : Json.ship_offer) : Z :=
  get (Json.purchasePrice ship_info) 0.

(** Cargo capacity of an offer, read from its cargo specification. *)
Definition offer_capacity (ship_info : Json.ship_offer) : Z :=
  get (Json.cargo_capacity (get (Json.offer_cargo ship_info) ShipCargo.empty)) 0.

(** Cargo capacity per credit, the [value] of the selection loop. *)
Definition offer_value (ship_info : Json.ship_offer) : Q :=
  Py.truediv (offer_capacity ship_info) (Z.max (offer_price ship_info) 1).

(** Body of the inner loop of [_purchase_cargo_ship]. *)
Definition consider_offer (purchasable_credits : Q) (min_cargo_needed : Z)
    (sy : shipyard) (b : best) (ship_info : Json.ship_offer) : best :=
  let price := offer_price ship_info in
  if Py.lt purchasable_credits (inject_Z price) then b
  else
    let cargo_capacity := offer_capacity ship_info in
    if cargo_capacity <=? 0 then b
    else if cargo_capacity <? min_cargo_needed then b
    else
      let value := offer_value ship_info in
      if Py.lt (best_value b) value
      then {| best_ship := Some (ship_info, sy); best_value := value |}
      else b.

(** Body of the outer loop. *)
Definition consider_shipyard (purchasable_credits : Q) (min_cargo_needed : Z)
    (b : best) (sy : shipyard) : best :=
  fold_left (consider_offer purchasable_credits min_cargo_needed sy)
            (Json.ships (shipyard_data sy)) b.

(** The two nested loops of [_purchase_cargo_ship]. *)
Definition select_ship (purchasable_credits : Q) (min_cargo_needed : Z)
    (shipyards : list shipyard) : best :=
  fold_left (consider_shipyard purchasable_credits min_cargo_needed) shipyards
            {| best_ship := None; best_value := 0%Q |}.

Definition at_waypoint (wp : option string) (ship : Ship.t) : bool :=
  match wp with
  | Some w => String.eqb (ShipNav.waypoint_symbol (Ship.nav ship)) w
  | None => false
  end.

Definition _get_ship_at_waypoint (ctx : AgentContext.t) (wp : option string)
    : option Ship.t :=
  List.find (at_waypoint wp) (AgentContext.ships ctx).

Definition can_move (ship : Ship.t) : bool :=
  negb (ShipNav.is_in_transit (Ship.nav ship))
  && negb (ShipFuel.current (Ship.fuel ship) <=? 0).

(** Sends the first ship that is not in transit and has fuel; the fleet of
    the context is not touched. *)
Definition _move_ship_to_waypoint (ctx : AgentContext.t) (wp : option string)
    : Py.result bool :=
  match List.find can_move (AgentContext.ships ctx) with
  | None => Py.Ok false
  | Some best_ship =>
      Py.catch
        ((if ShipNav.is_docked (Ship.nav best_ship)
          then Api.call (Api.orbit_ship api (Ship.symbol best_ship))
          else Py.Ok tt);;
         response ← Api.call (Api.navigate_ship api (Ship.symbol best_ship) wp);
         Py.Ok response)
        (fun e => Py.Ok false)
  end.

(** The purchase call and what follows it in [_execute_ship_purchase]. *)
Definition purchase_and_record (ship_info : Json.ship_offer) (wp : option string)
    : M bool :=
  response ← lift (Api.call (Api.purchase_ship api (Json.offer_type ship_info) wp));
  match response with
  | Some data =>
      match Json.purchase_ship data with
      | Some ship_data =>
          modify_context (fun ctx =>
            AgentContext.set_ships
              (AgentContext.ships ctx ++ [Ship.from_api_response ship_data]) ctx)
      | None => mret tt
      end;;
      match Json.purchase_agent data with
      | Some agent_data =>
          (* [old_credits = self.context.agent_data.credits] *)
          ctx ← get_context;
          match AgentContext.agent_data ctx with
          | Some _ => modify_context (AgentContext.update_agent_data (Some agent_data))
          | None => raise Py.AttributeError
          end
      | None => mret tt
      end;;
      mret true
  | None => mret false
  end.

Definition _execute_ship_purchase (ship_info : Json.ship_offer) (sy : shipyard)
    : M bool :=
  let wp := waypoint_symbol sy in
  try_except
    (ctx ← get_context;
     match _get_ship_at_waypoint ctx wp with
     | Some _ => purchase_and_record ship_info wp
     | None =>
         success ← lift (_move_ship_to_waypoint ctx wp);
         if negb success then mret false
         else
           ctx ← get_context;
           match _get_ship_at_waypoint ctx wp with
           | Some _ => purchase_and_record ship_info wp
           | None => mret false
           end
     end)
    (fun e => mret false).

Definition _purchase_cargo_ship (shipyards : list shipyard) (min_cargo_needed : Z)
    : M bool :=
  ctx ← get_context;
  match AgentContext.agent_data ctx with
  | None => mret false
  | Some agent =>
      let available_credits := AgentData.credits agent in
      let safety_reserve :=
        get (AgentContext.strategy_config ctx !! "safety_credit_reserve")
            (Py.VInt 10000) in
      let purchasable_credits :=
        (inject_Z available_credits - Py.num safety_reserve)%Q in
      match best_ship (select_ship purchasable_credits min_cargo_needed shipyards) with
      | None => mret false
      | Some (ship_info, sy) => _execute_ship_purchase ship_info sy
      end
  end.

Definition _ensure_ships_fueled : M unit :=
  ctx ← get_context;
  for_each
    (fun ship =>
       if ShipFuel.needs_refuel (Ship.fuel ship) && ShipNav.is_docked (Ship.nav ship)
       then lift (Py.catch (Api.call (Api.refuel_ship api (Ship.symbol ship)))
                           (fun e => Py.Ok tt))
       else mret tt)
    (AgentContext.ships ctx).

Definition _refresh_ship_data : M unit :=
  try_except
    (ships_data ← lift (Api.call (Api.get_my_ships api));
     modify_context (AgentContext.set_ships (map Ship.from_api_response ships_data)))
    (fun e => mret tt).

(** The two entries a failed search for a shipyard leaves in the strategy
    configuration. *)
Definition mark_acquire_failed (ctx : AgentContext.t) : AgentContext.t :=
  AgentContext.set_strategy_config
    (<["acquire_failed" := Py.VBool true]>
       (<["last_acquire_attempt" := Py.VFloat (time_time clock)]>
          (AgentContext.strategy_config ctx)))
    ctx.

Definition has_stock (sy : shipyard) : bool :=
  0 <? Z.of_nat (length (Json.ships (shipyard_data sy))).

(** Steps 2 to 5 of [execute]: what follows the test of [need_resources]. *)
Definition acquire (needs : resource_needs) : M AgentState :=
  ctx ← get_context;
  shipyards ← lift (_find_shipyards ctx);
  match shipyards with
  | [] =>
      modify_context mark_acquire_failed;;
      sleep 60;;
      mret NEGOTIATE_CONTRACT
  | _ :: _ =>
      match List.filter has_stock shipyards with
      | [] =>
          modify_context mark_acquire_failed;;
          sleep 300;;
          mret NEGOTIATE_CONTRACT
      | shipyards_with_ships =>
          success ←
            (if need_cargo_capacity needs
             then _purchase_cargo_ship shipyards_with_ships (min_cargo_needed needs)
             else mret true);
          if negb success
          then sleep 30;; mret NEGOTIATE_CONTRACT
          else
            _ensure_ships_fueled;;
            _refresh_ship_data;;
            mret NEGOTIATE_CONTRACT
      end
  end.

Definition execute : M AgentState :=
  try_except
    (ctx ← get_context;
     let resource_needs := _analyze_resource_needs ctx in
     if negb (need_resources resource_needs)
     then mret NEGOTIATE_CONTRACT
     else acquire resource_needs)
    (fun e => mret ERROR_RECOVERY).

End Handler.
End AcquireResourcesState.

(** ** states/accept_contract.py *)

Module AcceptContractState.

(** The [data] of an answer to the acceptance of a contract. The handler
    subscripts the keys [contract] and [agent]: each is absent ([None]),
    present and empty ([Some None]), or present with a value. *)
Record acceptance := {
  acceptance_contract : option (option Json.contract);
  acceptance_agent : option (option Json.agent)
}.

(** What the handler works on: the context, and beside it the entry
    [successful_contract_types] of the strategy configuration, the one
    entry that holds a list ([None] while the key is absent). *)
Record memory := {
  context : AgentContext.t;
  successful_contract_types : option (list string)
}.

Definition set_context (ctx : AgentContext.t) (m : memory) : memory :=
  {| context := ctx; successful_contract_types := successful_contract_types m |}.

Section Handler.

(** [api_client.accept_contract(contract_id)]: its [data], [None] when
    the answer is empty or has no [data]. *)
Variable accept_contract : string -> Api.answer (option acceptance).
Variable clock : Clock.

(** [d[key]]. *)
Definition subscript {A} (key : string) (field : option A) : Py.result A :=
  match field with
  | Some a => Py.Ok a
  | None => Py.Raise (Py.KeyError key)
  end.

(** [_accept_contract(contract)]. The contract is the object the context
    holds as its current contract: the contract as the call leaves it is
    returned with the answer and the context. *)
Definition _accept_contract (contract : Contract.t) (ctx : AgentContext.t)
    : bool * Contract.t * AgentContext.t :=
  match
    (response ← Api.call (accept_contract (Contract.contract_id contract));
     match response with
     | Some data =>
         contract_data ← subscript "contract" (acceptance_contract data);
         agent_data ← subscript "agent" (acceptance_agent data);
         let contract :=
           match contract_data with
           | Some c =>
               {| Contract.contract_id := Contract.contract_id contract;
                  Contract.faction_symbol := Contract.faction_symbol contract;
                  Contract.contract_type := Contract.contract_type contract;
                  Contract.terms := Contract.terms contract;
                  Contract.accepted := get (Json.contract_accepted c) false;
                  Contract.fulfilled := get (Json.contract_fulfilled c) false;
                  Contract.expiration := Contract.expiration contract |}
           | None => contract
           end in
         let ctx :=
           match agent_data with
           | Some a => AgentContext.update_agent_data (Some a) ctx
           | None => ctx
           end in
         Py.Ok (Contract.accepted contract, contract, ctx)
     | None => Py.Ok (false, contract, ctx)
     end)
  with
  | Py.Ok outcome => outcome
  | _ => (false, contract, ctx)
  end.

(** [contract.accepted = True]. *)
Definition mark_accepted (contract : Contract.t) : Contract.t :=
  {| Contract.contract_id := Contract.contract_id contract;
     Contract.faction_symbol := Contract.faction_symbol contract;
     Contract.contract_type := Contract.contract_type contract;
     Contract.terms := Contract.terms contract;
     Contract.accepted := true;
     Contract.fulfilled := Contract.fulfilled contract;
     Contract.expiration := Contract.expiration contract |}.

(** The type of the current contract joins the successful types unless it
    is among them. *)
Definition _record_contract_acceptance (m : memory) : memory :=
  match AgentContext.current_contract (context m) with
  | Some contract =>
      let contract_type := ContractType_value (Contract.contract_type contract) in
      let successful_types := get (successful_contract_types m) [] in
      if existsb (String.eqb contract_type) successful_types
      then m
      else {| context := context m;
              successful_contract_types := Some (successful_types ++ [contract_type]) |}
  | None => m
  end.

(** What [_log_acceptance_details] computes for the log: the time that
    remains to the deadline, read on the universal clock. *)
Definition _log_acceptance_details (contract : Contract.t) : Py.result unit :=
  time_remaining ← datetime_sub (ContractTerms.deadline (Contract.terms contract))
                                 (utc (datetime_now_utc clock));
  Py.Ok tt.

(** The next state and the memory the handler leaves. *)
Definition execute (m : memory) : AgentState * memory :=
  match AgentContext.current_contract (context m) with
  | None => (NEGOTIATE_CONTRACT, m)
  | Some contract =>
      if Contract.accepted contract then (PLAN_FULFILLMENT, m)
      else
        let '(success, contract, ctx) := _accept_contract contract (context m) in
        if success
        then
          let contract := mark_accepted contract in
          let m :=
            _record_contract_acceptance
              (set_context (AgentContext.set_current_contract (Some contract) ctx) m) in
          match _log_acceptance_details contract with
          | Py.Ok _ => (PLAN_FULFILLMENT, m)
          | _ => (ERROR_RECOVERY, m)
          end
        else
          (NEGOTIATE_CONTRACT,
           set_context (AgentContext.set_current_contract None ctx) m)
  end.

End Handler.
End AcceptContractState.

(** ** api/client.py and SpaceTraderClient.py: the system of a waypoint *)

(** [s.split(sep)] for a separator of one character. A string is a
    sequence of bytes here; the separator the code uses, the hyphen, is one
    byte in UTF-8 and part of no longer character. *)
Fixpoint split (sep : Ascii.ascii) (s : string) : list string :=
  match s with
  | EmptyString => [EmptyString]
  | String c rest =>
      if Ascii.eqb c sep then EmptyString :: split sep rest
      else
        match split sep rest with
        | part :: parts => String c part :: parts
        | [] => [String c EmptyString]
        end
  end.

(** [sep.join(parts)]. *)
Fixpoint join (sep : string) (parts : list string) : string :=
  match parts with
  | [] => EmptyString
  | [part] => part
  | part :: rest => part ++ sep ++ join sep rest
  end.

Module SpaceTradersAPIClient.

(** X1-DF55-20250Z gives X1-DF55. *)
Definition extract_system_from_waypoint (waypoint_symbol : string) : string :=
  match split "-"%char waypoint_symbol with
  | part0 :: part1 :: _ => part0 ++ "-" ++ part1
  | _ => waypoint_symbol
  end.

End SpaceTradersAPIClient.

Module SpaceTraderClient.

(** The system symbol [get_waypoint_info] puts in the path of its request. *)
Definition system_symbol (waypoint_symbol : string) : string :=
  join "-" (firstn 2 (split "-"%char waypoint_symbol)).

End SpaceTraderClient.

(** ** agent.py *)

Module SpaceTradersAgent.

(** The fields of the agent the loop reads or writes; [slept] lists the
    durations of the calls of [time.sleep], in order. *)
Record t := {
  current_state : AgentState;
  contracts_completed : Z;
  total_credits_earned : Z;
  errors_encountered : Z;
  running : bool;
  slept : list Z
}.

(** The agent [__init__] builds. *)
Definition initial : t :=
  {| current_state := INITIALIZE;
     contracts_completed := 0;
     total_credits_earned := 0;
     errors_encountered := 0;
     running := true;
     slept := [] |}.

Definition state_complete_contract (self : t) : AgentState * t :=
  (EVALUATE_PERFORMANCE,
   {| current_state := current_state self;
      contracts_completed := contracts_completed self + 1;
      total_credits_earned := total_credits_earned self;
      errors_encountered := errors_encountered self;
      running := running self;
      slept := slept self |}).

Definition state_error_recovery (self : t) : AgentState * t :=
  (ASSESS_SITUATION,
   {| current_state := current_state self;
      contracts_completed := contracts_completed self;
      total_credits_earned := total_credits_earned self;
      errors_encountered := errors_encountered self;
      running := running self;
      slept := slept self ++ [5] |}).

(** The handler of the current state, run. *)
Definition execute_current_state (self : t) : AgentState * t :=
  match current_state self with
  | INITIALIZE => (ASSESS_SITUATION, self)
  | ASSESS_SITUATION => (NEGOTIATE_CONTRACT, self)
  | NEGOTIATE_CONTRACT => (ACCEPT_CONTRACT, self)
  | ACCEPT_CONTRACT => (PLAN_FULFILLMENT, self)
  | PLAN_FULFILLMENT => (EXECUTE_CONTRACT, self)
  | ACQUIRE_RESOURCES => (EXECUTE_CONTRACT, self)
  | EXECUTE_CONTRACT => (DELIVER_GOODS, self)
  | DELIVER_GOODS => (COMPLETE_CONTRACT, self)
  | COMPLETE_CONTRACT => state_complete_contract self
  | EVALUATE_PERFORMANCE => (ASSESS_SITUATION, self)
  | ERROR_RECOVERY => state_error_recovery self
  end.

#[global] Instance AgentState_eq_dec : EqDecision AgentState.
Proof. solve_decision. Defined.

(** One round of the loop of [run], when nothing interrupts it. *)
Definition round (self : t) : t :=
  let '(next_state, self) := execute_current_state self in
  {| current_state :=
       if negb (bool_decide (next_state = current_state self))
       then next_state
       else current_state self;
     contracts_completed := contracts_completed self;
     total_credits_earned := total_credits_earned self;
     errors_encountered := errors_encountered self;
     running := running self;
     slept := slept self ++ [1] |}.

(** The first [n] rounds of the loop. *)
Definition rounds (n : nat) (self : t) : t := Nat.iter n round self.

End SpaceTradersAgent.

(** * The specification's wording, and sample inputs *)

(** ** Contracts *)

(** The datetime that decides expiry: the expiration when the contract has
    one, the deadline of its terms otherwise. *)
Definition expiry_datetime (c : Contract.t) : datetime :=
  match Contract.expiration c with
  | Some e => e
  | None => ContractTerms.deadline (Contract.terms c)
  end.

(** The status as the specification words it: a contract that is neither
    fulfilled nor accepted is FAILED when it is past its deadline. *)
Definition status_by_deadline (now : Z) (c : Contract.t) : ContractStatus :=
  if Contract.fulfilled c then FULFILLED
  else if Contract.accepted c then ACCEPTED
  else if timestamp (ContractTerms.deadline (Contract.terms c)) <? now then FAILED
  else AVAILABLE.

(** Seconds from [now] to the deadline of the terms. *)
Definition seconds_to_deadline (now : Z) (c : Contract.t) : Q :=
  (inject_Z (timestamp (ContractTerms.deadline (Contract.terms c)) - now) / 1000000)%Q.

(** The score as the specification words it, from the quantities it names. *)
Definition score_spec (expired : bool)
    (total_units_needed cargo_capacity total_payment estimated_cost : Z)
    (seconds_to_deadline : Q) : Q :=
  if expired then (-1000)%Q
  else if cargo_capacity <? total_units_needed then (-500)%Q
  else if total_payment - estimated_cost <=? 0 then (-100)%Q
  else
    let profit := inject_Z (total_payment - estimated_cost) in
    ((profit / inject_Z (Z.max 1 total_units_needed))
     * (profit / inject_Z (Z.max 1 total_payment))
     * Qmin 1 (seconds_to_deadline / 86400)
     * 100)%Q.

(** One day, in microseconds. *)
Definition day : Z := 86400 * 1000000.

Definition delivery_of (required fulfilled_so_far : Z) : ContractDelivery.t :=
  {| ContractDelivery.trade_symbol := "IRON_ORE";
     ContractDelivery.destination_symbol := "X1-DF55-A1";
     ContractDelivery.units_required := required;
     ContractDelivery.units_fulfilled := fulfilled_so_far |}.

(** An offered contract paying [on_accepted] and [on_fulfilled] for the
    given deliveries. *)
Definition offer (deadline : datetime) (expiration : option datetime)
    (on_accepted on_fulfilled : Z) (deliveries : list ContractDelivery.t)
    : Contract.t :=
  {| Contract.contract_id := "contract-1";
     Contract.faction_symbol := "COSMIC";
     Contract.contract_type := PROCUREMENT;
     Contract.terms :=
       {| ContractTerms.deadline := deadline;
          ContractTerms.payment_on_accepted := on_accepted;
          ContractTerms.payment_on_fulfilled := on_fulfilled;
          ContractTerms.deliveries := deliveries |};
     Contract.accepted := false;
     Contract.fulfilled := false;
     Contract.expiration := expiration |}.

(** Scenario B, read at instant 0: 1000 on acceptance, 4000 on fulfilment,
    one delivery of 50 units, none fulfilled, deadline two days out. *)
Definition scenario_B : Contract.t :=
  offer (naive (2 * day)) None 1000 4000 [delivery_of 50 0].

(** The contract of scenario B with a delivery of 150 units of which 100
    are fulfilled. *)
Definition partly_delivered_offer : Contract.t :=
  offer (naive (2 * day)) None 1000 4000 [delivery_of 150 100].

(** An offer whose time to accept ran out at instant 1000 while the
    deadline of its terms is instant 2000. *)
Definition lapsed_offer : Contract.t :=
  offer (naive 2000) (Some (naive 1000)) 1000 4000 [delivery_of 50 0].

(** The contract of scenario B with its deadline one day before instant 0
    and an expiration one day after it. *)
Definition overdue_offer : Contract.t :=
  offer (naive (- day)) (Some (naive day)) 1000 4000 [delivery_of 50 0].

(** ** Sample fleets, contexts and API answers *)

(** A docked ship with a full tank of 100. *)
Definition ship_at (symbol waypoint : string) (capacity : Z) : Ship.t :=
  {| Ship.symbol := symbol;
     Ship.nav :=
       {| ShipNav.system_symbol := "X1-DF55";
          ShipNav.waypoint_symbol := waypoint;
          ShipNav.status := DOCKED;
          ShipNav.flight_mode := "CRUISE" |};
     Ship.cargo :=
       {| ShipCargo.capacity := capacity;
          ShipCargo.units := 0;
          ShipCargo.inventory := [] |};
     Ship.fuel := {| ShipFuel.current := 100; ShipFuel.capacity := 100 |} |}.

(** The same ship as the API describes it. *)
Definition json_ship_at (symbol waypoint : string) (capacity : Z) : Json.ship :=
  {| Json.ship_symbol := Some symbol;
     Json.ship_nav :=
       Some {| Json.systemSymbol := Some "X1-DF55";
               Json.waypointSymbol := Some waypoint;
               Json.nav_status := Some "DOCKED";
               Json.flightMode := Some "CRUISE" |};
     Json.ship_cargo :=
       Some {| Json.cargo_capacity := Some capacity;
               Json.cargo_units := Some 0;
               Json.cargo_inventory := [] |};
     Json.ship_fuel :=
       Some {| Json.fuel_current := Some 100; Json.fuel_capacity := Some 100 |} |}.

(** A contract as the API describes it, due at [deadline], paying
    [on_accepted] and [on_fulfilled] for one delivery. *)
Definition json_contract (accepted : bool) (deadline : datetime)
    (on_accepted on_fulfilled required fulfilled_so_far : Z) : Json.contract :=
  {| Json.id := Some "contract-1";
     Json.factionSymbol := Some "COSMIC";
     Json.type := Some "PROCUREMENT";
     Json.contract_terms :=
       Some {| Json.terms_deadline := Some deadline;
               Json.terms_payment :=
                 Some {| Json.onAccepted := Some on_accepted;
                         Json.onFulfilled := Some on_fulfilled |};
               Json.deliver :=
                 [ {| Json.tradeSymbol := Some "IRON_ORE";
                      Json.destinationSymbol := Some "X1-DF55-A1";
                      Json.unitsRequired := Some required;
                      Json.unitsFulfilled := Some fulfilled_so_far |} ] |};
     Json.contract_accepted := Some accepted;
     Json.contract_fulfilled := Some false;
     Json.contract_expiration := None |}.

Definition json_agent (credits : Z) : Json.agent :=
  {| Json.accountId := Some "account-1";
     Json.agent_symbol := Some "TRADER";
     Json.agent_headquarters := Some "X1-DF55-A1";
     Json.agent_credits := Some credits;
     Json.startingFaction := Some "COSMIC";
     Json.shipCount := Some 1 |}.

(** The entries of the default strategy configuration that hold numbers. *)
Definition default_strategy_config : gmap string Py.pyval :=
  <["min_profit_margin" := Py.VFloat 0.1]>
    (<["max_contract_duration" := Py.VInt 3600]>
       (<["safety_credit_reserve" := Py.VInt 10000]>
          (<["max_ships" := Py.VInt 5]> ∅))).

Definition no_metrics : PerformanceMetrics.t :=
  {| PerformanceMetrics.contracts_completed := 0;
     PerformanceMetrics.total_credits_earned := 0;
     PerformanceMetrics.total_execution_time := 0;
     PerformanceMetrics.errors_encountered := 0;
     PerformanceMetrics.contracts_failed := 0;
     PerformanceMetrics.average_contract_completion_time := 0;
     PerformanceMetrics.last_contract_profit := 0 |}.

(** A context with the default configuration, no current contract, the
    given credits and the given fleet. *)
Definition context_with (credits : Z) (fleet : list Ship.t) : AgentContext.t :=
  {| AgentContext.agent_data :=
       Some (AgentData.from_api_response (json_agent credits));
     AgentContext.current_contract := None;
     AgentContext.ships := fleet;
     AgentContext.performance_metrics := no_metrics;
     AgentContext.strategy_config := default_strategy_config |}.

(** An API that answers every call: the agent, the fleet and the contracts
    given, one page of waypoints, the same shipyard at every waypoint, and
    the same answer to every purchase. *)
Definition answering_api (agent : Json.agent) (fleet : list Json.ship)
    (contracts : list Json.contract) (waypoints : list Json.waypoint)
    (yard : Json.shipyard) (purchase : option Json.purchase) : Api.client :=
  {| Api.get_my_agent := Api.Answer (Some agent);
     Api.get_my_ships := Api.Answer fleet;
     Api.get_my_contracts := Api.Answer contracts;
     Api.extract_system_from_waypoint := fun _ => "X1-DF55";
     Api.get_system_waypoints := fun _ page _ =>
       Api.Answer {| Api.data := if page =? 1 then waypoints else [];
                Api.meta_total := Some (Z.of_nat (length waypoints)) |};
     Api.get_shipyard := fun _ _ => Api.Answer yard;
     Api.purchase_ship := fun _ _ => Api.Answer purchase;
     Api.orbit_ship := fun _ => Api.Answer tt;
     Api.navigate_ship := fun _ _ => Api.Answer true;
     Api.refuel_ship := fun _ => Api.Answer tt |}.

Definition no_yard : Json.shipyard := {| Json.ships := [] |}.

(** Clocks reading instant 0, one thousand seconds into the epoch, the
    answers of the API parsed a microsecond before. *)
Definition clock_0 : Clock :=
  {| datetime_parsed := -1; datetime_now := 0; datetime_now_utc := 0;
     time_time := 1000 |}.

(** ** Situation assessment *)

(** A contract is accepted, not fulfilled and not past the datetime that
    decides its expiry. *)
Definition active (now : Z) (c : Contract.t) : bool :=
  Contract.accepted c
  && negb (Contract.fulfilled c)
  && negb (timestamp (expiry_datetime c) <? now).

(** Every delivery of the contract has as many units fulfilled as required. *)
Definition delivered (c : Contract.t) : Prop :=
  Forall (fun d => ContractDelivery.units_required d <= ContractDelivery.units_fulfilled d)
         (ContractTerms.deliveries (Contract.terms c)).

(** The contract list of the API in its own format: one accepted contract
    with 20 of its 50 units delivered, due two days after instant 0, the
    deadline written with a time zone, as in 2023-01-03T00:00:00.000Z. *)
Definition running_contract_utc : list Json.contract :=
  [json_contract true (utc (2 * day)) 1000 4000 50 20].

(** The same list with the deadline written without a time zone. *)
Definition running_contract_local : list Json.contract :=
  [json_contract true (naive (2 * day)) 1000 4000 50 20].

(** ** Capability filter *)

(** The cost estimate as the specification words it. *)
Definition estimated_cost_spec (c : Contract.t) : Q :=
  (inject_Z (NegotiateContractState.units_required_total c * 100)
   + 0.1 * inject_Z (ContractTerms.total_payment (Contract.terms c)))%Q.

(** The contracts the specification words as retained, for a fleet of the
    given total capacity and the given credits above the reserve. *)
Definition retained_spec (capacity : Z) (spendable : Q) (c : Contract.t) : bool :=
  (NegotiateContractState.units_required_total c <=? capacity)
  && Qle_bool (estimated_cost_spec c) spendable.

(** An offer of 5005 credits in all for 50 units. *)
Definition offer_5005 : Contract.t :=
  offer (naive (2 * day)) None 1005 4000 [delivery_of 50 0].

(** An offer of 5000 credits for two deliveries of 60 and 30 units. *)
Definition split_offer : Contract.t :=
  offer (naive (2 * day)) None 1000 4000 [delivery_of 60 0; delivery_of 30 0].

(** ** Diagnosis of an empty selection *)

(** Capacity or ship-size causes dominate: one of them is counted more
    often than the credit cause. *)
Definition causes_dominate (n : NegotiateContractState.issues) : bool :=
  (NegotiateContractState.credit_issues n <? NegotiateContractState.capacity_issues n)
  || (NegotiateContractState.credit_issues n <? NegotiateContractState.ship_size_issues n).

(** One offer of 50 units for 1000 credits and five offers of 10 units for
    ten million credits each, listed with deadlines that name no time zone. *)
Definition six_offers : list Json.contract :=
  json_contract false (naive (2 * day)) 200 800 50 0
  :: repeat (json_contract false (naive (2 * day)) 2000000 8000000 10 0) 5.

(** ** Acquisition of resources *)

(** A failed acquisition is on record in [after], with its instant, and
    nothing else differs from [before]. *)
Definition failure_recorded (clock : Clock) (before after : AgentContext.t) : Prop :=
  AgentContext.strategy_config after !! "acquire_failed" = Some (Py.VBool true)
  /\ AgentContext.strategy_config after !! "last_acquire_attempt"
     = Some (Py.VFloat (time_time clock))
  /\ (forall key : string,
        key <> "acquire_failed" -> key <> "last_acquire_attempt" ->
        AgentContext.strategy_config after !! key
        = AgentContext.strategy_config before !! key)
  /\ AgentContext.agent_data after = AgentContext.agent_data before
  /\ AgentContext.current_contract after = AgentContext.current_contract before
  /\ AgentContext.ships after = AgentContext.ships before
  /\ AgentContext.performance_metrics after = AgentContext.performance_metrics before.

(** A waypoint with a shipyard, and one without. *)
Definition shipyard_waypoint : Json.waypoint :=
  {| Json.waypoint_symbol := Some "X1-DF55-S1";
     Json.traits := [ {| Json.trait_symbol := Some "MARKETPLACE" |};
                      {| Json.trait_symbol := Some "SHIPYARD" |} ] |}.

Definition plain_waypoint : Json.waypoint :=
  {| Json.waypoint_symbol := Some "X1-DF55-A1";
     Json.traits := [ {| Json.trait_symbol := Some "MARKETPLACE" |} ] |}.

(** The offers of the shipyards, each with its shipyard, in the order the
    selection meets them. *)
Definition offers_of (shipyards : list AcquireResourcesState.shipyard)
    : list (Json.ship_offer * AcquireResourcesState.shipyard) :=
  flat_map (fun sy =>
              map (fun ship_info => (ship_info, sy))
                  (Json.ships (AcquireResourcesState.shipyard_data sy)))
           shipyards.

(** An offer qualifies: its price is within the credits that may be spent,
    it has cargo capacity, and at least the capacity needed. *)
Definition qualifies (spendable : Q) (min_cargo_needed : Z)
    (ship_info : Json.ship_offer) : Prop :=
  (inject_Z (AcquireResourcesState.offer_price ship_info) <= spendable)%Q
  /\ 0 < AcquireResourcesState.offer_capacity ship_info
  /\ min_cargo_needed <= AcquireResourcesState.offer_capacity ship_info.

(** The value density as the specification words it. *)
Definition value_density (ship_info : Json.ship_offer) : Q :=
  (inject_Z (AcquireResourcesState.offer_capacity ship_info)
   / inject_Z (AcquireResourcesState.offer_price ship_info))%Q.

(** The selection among the offers met so far is [b]: nothing chosen when
    none qualifies; otherwise a qualifying offer that is worth more than
    every qualifying offer met before it and no less than every one met
    after it. *)
Definition selection_of (spendable : Q) (min_cargo_needed : Z)
    (met : list (Json.ship_offer * AcquireResourcesState.shipyard))
    (b : AcquireResourcesState.best) : Prop :=
  match AcquireResourcesState.best_ship b with
  | None =>
      AcquireResourcesState.best_value b = 0%Q
      /\ forall q, In q met -> ~ qualifies spendable min_cargo_needed (fst q)
  | Some p =>
      AcquireResourcesState.best_value b = AcquireResourcesState.offer_value (fst p)
      /\ qualifies spendable min_cargo_needed (fst p)
      /\ exists before after,
           met = before ++ p :: after
           /\ (forall q, In q before ->
                 qualifies spendable min_cargo_needed (fst q) ->
                 (AcquireResourcesState.offer_value (fst q)
                  < AcquireResourcesState.offer_value (fst p))%Q)
           /\ (forall q, In q after ->
                 qualifies spendable min_cargo_needed (fst q) ->
                 (AcquireResourcesState.offer_value (fst q)
                  <= AcquireResourcesState.offer_value (fst p))%Q)
  end.

Definition ship_offer_of (type : string) (price capacity : Z) : Json.ship_offer :=
  {| Json.offer_type := Some type;
     Json.purchasePrice := Some price;
     Json.offer_cargo :=
       Some {| Json.cargo_capacity := Some capacity;
               Json.cargo_units := Some 0;
               Json.cargo_inventory := [] |} |}.

(** A shipyard at waypoint X1-DF55-S1 with the given offers. *)
Definition shipyard_with (offers : list Json.ship_offer)
    : AcquireResourcesState.shipyard :=
  {| AcquireResourcesState.waypoint_symbol := Some "X1-DF55-S1";
     AcquireResourcesState.system_symbol := "X1-DF55";
     AcquireResourcesState.shipyard_data := {| Json.ships := offers |} |}.

Definition hauler : Json.ship_offer := ship_offer_of "SHIP_LIGHT_HAULER" 30000 40.
Definition shuttle : Json.ship_offer := ship_offer_of "SHIP_LIGHT_SHUTTLE" 20000 40.
Definition probe : Json.ship_offer := ship_offer_of "SHIP_PROBE" 10000 20.

(** A purchase answer with data, an agent of 10 credits and no ship. *)
Definition answer_without_ship : Json.purchase :=
  {| Json.purchase_ship := None;
     Json.purchase_agent := Some (json_agent 10) |}.

(** ** The arithmetic of the samples in IEEE binary64

    The floats of the embedding are rationals. The scores and the estimate
    of the samples are computed here once more, operation by operation, on
    binary64 numbers, rounding to nearest, ties to even. *)

Module Binary64.

Definition of_int (z : Z) : spec_float := binary_normalize 53 1024 z 0 false.

Definition div : spec_float -> spec_float -> spec_float := SFdiv 53 1024.

Definition mul : spec_float -> spec_float -> spec_float := SFmul 53 1024.

(** [min(a, b)]: the first argument unless the second is smaller. *)
Definition min (a b : spec_float) : spec_float := if SFltb b a then b else a.

(** [int(x)]: truncation toward zero of a finite number. *)
Definition int (x : spec_float) : Z :=
  match x with
  | S754_finite s m e =>
      let magnitude := if 0 <=? e then Z.pos m * 2 ^ e else Z.pos m / 2 ^ (- e) in
      if s then - magnitude else magnitude
  | _ => 0
  end.

(** The last branch of [calculate_profitability_score], for a profit, the
    units to deliver, the total payment and the microseconds left. *)
Definition score (profit units payment microseconds : Z) : spec_float :=
  let profit_per_unit := div (of_int profit) (of_int (Z.max 1 units)) in
  let profit_margin := div (of_int profit) (of_int (Z.max 1 payment)) in
  let time_remaining := div (of_int microseconds) (of_int 1000000) in
  let time_factor := min (of_int 1) (div time_remaining (of_int 86400)) in
  mul (mul (mul profit_per_unit profit_margin) time_factor) (of_int 100).

(** The fuel part of [_estimate_contract_cost]. *)
Definition fuel_cost (payment : Z) : Z :=
  int (mul (of_int payment) (div (of_int 1) (of_int 10))).

End Binary64.

(** * Wording and samples for the further properties *)

(** ** Performance metrics *)

(** Completions logged one after the other, each with its profit and its
    completion time. *)
Fixpoint log_completions (metrics : PerformanceMetrics.t)
    (completions : list (Z * Q)) : PerformanceMetrics.logged :=
  match completions with
  | [] => PerformanceMetrics.Updated metrics
  | (profit, completion_time) :: rest =>
      match PerformanceMetrics.log_contract_completion metrics profit completion_time with
      | PerformanceMetrics.Updated metrics' => log_completions metrics' rest
      | PerformanceMetrics.ZeroDivisionError metrics' =>
          PerformanceMetrics.ZeroDivisionError metrics'
      end
  end.

(** Sum of rationals. *)
Definition Qsum (xs : list Q) : Q := fold_right Qplus 0%Q xs.

(** ** Selection of the best contract *)


(** ** The search for shipyards *)

(** The number of pages an answer announces, 20 waypoints to a page. *)
Definition announced_pages (response : Api.waypoints_response) : Z :=
  let total := get (Api.meta_total response) 0 in
  total / 20 + (if 0 <? total mod 20 then 1 else 0).

(** Page [k + 1] of a list of waypoints served 20 to a page. *)
Definition page_of (waypoints : list Json.waypoint) (k : nat) : list Json.waypoint :=
  firstn 20 (skipn (20 * k) waypoints).

(** The answer of a server that holds the waypoints given and serves them
    20 to a page, announcing their number. *)
Definition served (waypoints : list Json.waypoint) (page : Z) : Api.waypoints_response :=
  {| Api.data := page_of waypoints (Z.to_nat (page - 1));
     Api.meta_total := Some (Z.of_nat (length waypoints)) |}.

(** The shipyards of the waypoints given: for each waypoint with the trait
    SHIPYARD whose details the API gives, an entry with those details. *)
Definition shipyards_at (api : Api.client) (system : string)
    (waypoints : list Json.waypoint) : list AcquireResourcesState.shipyard :=
  flat_map
    (fun waypoint =>
       if AcquireResourcesState.has_shipyard waypoint
       then
         match Api.get_shipyard api system (Json.waypoint_symbol waypoint) with
         | Api.Answer shipyard_data =>
             [ {| AcquireResourcesState.waypoint_symbol := Json.waypoint_symbol waypoint;
                  AcquireResourcesState.system_symbol := system;
                  AcquireResourcesState.shipyard_data := shipyard_data |} ]
         | Api.Failure _ => []
         end
       else [])
    waypoints.

(** Forty-five waypoints, the last with a shipyard. *)
Definition forty_five_waypoints : list Json.waypoint :=
  repeat plain_waypoint 44 ++ [shipyard_waypoint].

(** An API as [answering_api], that serves the waypoints given 20 to a
    page. *)
Definition paging_api (agent : Json.agent) (waypoints : list Json.waypoint)
    (yard : Json.shipyard) : Api.client :=
  {| Api.get_my_agent := Api.Answer (Some agent);
     Api.get_my_ships := Api.Answer [];
     Api.get_my_contracts := Api.Answer [];
     Api.extract_system_from_waypoint := fun _ => "X1-DF55";
     Api.get_system_waypoints := fun _ page _ => Api.Answer (served waypoints page);
     Api.get_shipyard := fun _ _ => Api.Answer yard;
     Api.purchase_ship := fun _ _ => Api.Answer None;
     Api.orbit_ship := fun _ => Api.Answer tt;
     Api.navigate_ship := fun _ _ => Api.Answer true;
     Api.refuel_ship := fun _ => Api.Answer tt |}.

(** ** What a run of the acquisition may change *)

(** The second world differs from the first in its fleet and its agent
    snapshot at most. *)
Definition fleet_and_agent_at_most (w w' : World) : Prop :=
  slept w' = slept w
  /\ AgentContext.strategy_config (context w') = AgentContext.strategy_config (context w)
  /\ AgentContext.current_contract (context w') = AgentContext.current_contract (context w)
  /\ AgentContext.performance_metrics (context w')
     = AgentContext.performance_metrics (context w).

(** ** Purchases *)

(** A purchase answer with the ship bought, of 40 units of cargo, and an
    agent left with 40000 credits. *)
Definition answer_with_ship : Json.purchase :=
  {| Json.purchase_ship := Some (json_ship_at "SHIP-2" "X1-DF55-S1" 40);
     Json.purchase_agent := Some (json_agent 40000) |}.

(** ** Acceptance of a contract *)

(** The answer to the acceptance cannot be used: the request failed, the
    answer is empty or has no data, or its data lack the contract or the
    agent. *)
Definition unusable (answer : Api.answer (option AcceptContractState.acceptance)) : bool :=
  match answer with
  | Api.Answer (Some data) =>
      match AcceptContractState.acceptance_contract data,
            AcceptContractState.acceptance_agent data with
      | Some _, Some _ => false
      | _, _ => true
      end
  | _ => true
  end.

(** The contract with the flags the answer gives it. *)
Definition with_flags (contract : Contract.t) (accepted fulfilled : bool) : Contract.t :=
  {| Contract.contract_id := Contract.contract_id contract;
     Contract.faction_symbol := Contract.faction_symbol contract;
     Contract.contract_type := Contract.contract_type contract;
     Contract.terms := Contract.terms contract;
     Contract.accepted := accepted;
     Contract.fulfilled := fulfilled;
     Contract.expiration := Contract.expiration contract |}.

(** A memory with the context given and no successful type on record. *)
Definition memory_of (ctx : AgentContext.t) : AcceptContractState.memory :=
  {| AcceptContractState.context := ctx;
     AcceptContractState.successful_contract_types := None |}.

(** The context of [context_with] with the offer of scenario B, its
    deadline written with a time zone, as its current contract. *)
Definition context_with_offer (deadline : datetime) : AgentContext.t :=
  AgentContext.set_current_contract
    (Some (offer deadline None 1000 4000 [delivery_of 50 0]))
    (context_with 1000 [ship_at "SHIP-1" "X1-DF55-A1" 100]).

(** The answer of the API that accepts the contract and pays 1000
    credits. *)
Definition accepting (contract_id : string)
    : Api.answer (option AcceptContractState.acceptance) :=
  Api.Answer
    (Some {| AcceptContractState.acceptance_contract :=
               Some (Some (json_contract true (utc (2 * day)) 1000 4000 50 0));
             AcceptContractState.acceptance_agent := Some (Some (json_agent 2000)) |}).

(** ** Contracts that name no deadline *)

(** An offer of 50 units for 1000 credits, as the API would describe it
    without a deadline and without an expiration. *)
Definition offer_without_deadline : Json.contract :=
  {| Json.id := Some "contract-2";
     Json.factionSymbol := Some "COSMIC";
     Json.type := Some "PROCUREMENT";
     Json.contract_terms :=
       Some {| Json.terms_deadline := None;
               Json.terms_payment :=
                 Some {| Json.onAccepted := Some 200;
                         Json.onFulfilled := Some 800 |};
               Json.deliver :=
                 [ {| Json.tradeSymbol := Some "IRON_ORE";
                      Json.destinationSymbol := Some "X1-DF55-A1";
                      Json.unitsRequired := Some 50;
                      Json.unitsFulfilled := Some 0 |} ] |};
     Json.contract_accepted := Some false;
     Json.contract_fulfilled := Some false;
     Json.contract_expiration := None |}.

(** ** The system of a waypoint *)

(** The string holds no hyphen. *)
Fixpoint no_hyphen (s : string) : bool :=
  match s with
  | EmptyString => true
  | String c rest => negb (Ascii.eqb c "-") && no_hyphen rest
  end.

(** ** The loop of the agent *)

(** The state of the agent after [n] rounds of its loop. *)
Definition state_after (n : nat) : AgentState :=
  match n with
  | O => INITIALIZE
  | S k =>
      nth (k mod 8)
          [ASSESS_SITUATION; NEGOTIATE_CONTRACT; ACCEPT_CONTRACT; PLAN_FULFILLMENT;
           EXECUTE_CONTRACT; DELIVER_GOODS; COMPLETE_CONTRACT; EVALUATE_PERFORMANCE]
          ASSESS_SITUATION
  end.

(** * Properties *)

(** ** Python primitives *)

Lemma lt_true (a b : Q) : Py.lt a b = true <-> (a < b)%Q.
Proof.
  unfold Py.lt. rewrite negb_true_iff, <- not_true_iff_false, Qle_bool_iff.
  split; [apply Qnot_le_lt | apply Qlt_not_le].
Qed.

Lemma lt_false (a b : Q) : Py.lt a b = false <-> (b <= a)%Q.
Proof.
  unfold Py.lt. rewrite negb_false_iff, Qle_bool_iff. reflexivity.
Qed.

Lemma min_is_Qmin (a b : Q) : (Py.min a b == Qmin a b)%Q.
Proof.
  unfold Py.min. destruct (Py.lt b a) eqn:E.
  - apply lt_true in E. symmetry. apply Q.min_r. apply Qlt_le_weak. exact E.
  - apply lt_false in E. symmetry. apply Q.min_l. exact E.
Qed.

Lemma sum_from (xs : list Z) (a : Z) : fold_left Z.add xs a = a + Py.sum xs.
Proof.
  unfold Py.sum. revert a.
  induction xs as [|x xs IH]; intros a; cbn [fold_left].
  - lia.
  - rewrite (IH (a + x)), (IH (0 + x)). lia.
Qed.

Lemma sum_cons (x : Z) (xs : list Z) : Py.sum (x :: xs) = x + Py.sum xs.
Proof. unfold Py.sum at 1. cbn [fold_left]. rewrite sum_from. lia. Qed.

Lemma inject_Z_pos (z : Z) : 0 < z -> (0 < inject_Z z)%Q.
Proof. intros H. change 0%Q with (inject_Z 0). rewrite <- Zlt_Qlt. exact H. Qed.

Lemma inject_Z_nonneg (z : Z) : 0 <= z -> (0 <= inject_Z z)%Q.
Proof. intros H. change 0%Q with (inject_Z 0). rewrite <- Zle_Qle. exact H. Qed.

(** ** Contracts *)

(** Expiry is told from the datetime that decides it when that datetime
    names no time zone; the comparison with [datetime.now()] raises when it
    names one. *)
Lemma is_expired_by_instant (now : Z) (c : Contract.t) :
  Contract.is_expired now c
  = if aware (expiry_datetime c) then Py.Raise Py.TypeError
    else Py.Ok (timestamp (expiry_datetime c) <? now).
Proof.
  unfold Contract.is_expired, expiry_datetime, ContractTerms.is_expired, datetime_gt.
  destruct (Contract.expiration c) as [e|]; cbn [naive aware timestamp];
    destruct (aware _); reflexivity.
Qed.

Lemma all_deliveries_completed_iff (c : Contract.t) :
  Contract.all_deliveries_completed c = true <->
  Forall (fun d => ContractDelivery.units_required d <= ContractDelivery.units_fulfilled d)
         (ContractTerms.deliveries (Contract.terms c)).
Proof.
  unfold Contract.all_deliveries_completed, Py.all.
  induction (ContractTerms.deliveries (Contract.terms c)) as [|d ds IH]; cbn.
  - split; [constructor | reflexivity].
  - rewrite andb_true_iff, IH. unfold ContractDelivery.is_completed.
    rewrite Z.leb_le. split.
    + intros [H1 H2]. constructor; assumption.
    + intros H. inversion H; subst. split; assumption.
Qed.

(** The time left to a deadline that names no time zone, as the score
    reads it. *)
Lemma time_remaining_is_seconds_to_deadline (now : Z) (c : Contract.t) :
  aware (ContractTerms.deadline (Contract.terms c)) = false ->
  datetime_sub (ContractTerms.deadline (Contract.terms c)) (naive now)
  = Py.Ok (timestamp (ContractTerms.deadline (Contract.terms c)) - now)
  /\ total_seconds (timestamp (ContractTerms.deadline (Contract.terms c)) - now)
     = seconds_to_deadline now c.
Proof.
  intros H. unfold datetime_sub. rewrite H. split; reflexivity.
Qed.

(** The time factor is not negative while the deadline is not passed. *)
Lemma time_factor_nonneg (now : Z) (c : Contract.t) :
  now <= timestamp (ContractTerms.deadline (Contract.terms c)) ->
  (0 <= Py.min 1 (seconds_to_deadline now c / 86400))%Q.
Proof.
  intros H.
  assert (Hs : (0 <= seconds_to_deadline now c / 86400)%Q).
  { unfold seconds_to_deadline.
    assert (Hd : (0 <= inject_Z (timestamp (ContractTerms.deadline (Contract.terms c))
                                 - now))%Q)
      by (apply inject_Z_nonneg; lia).
    unfold Qdiv. repeat apply Qmult_le_0_compat; try exact Hd; discriminate. }
  unfold Py.min. destruct (Py.lt _ _); [exact Hs | discriminate].
Qed.

(** The product of the score grows with the profit when the time factor is
    not negative. *)
Lemma score_product_monotone (p1 p2 u t f : Q) :
  (0 <= p1 -> p1 <= p2 -> 0 < u -> 0 < t -> 0 <= f ->
   p1 / u * (p1 / t) * f * 100 <= p2 / u * (p2 / t) * f * 100)%Q.
Proof.
  intros Hp1 Hle Hu Ht Hf.
  assert (Hiu : (0 < / u)%Q) by (apply Qinv_lt_0_compat; exact Hu).
  assert (Hit : (0 < / t)%Q) by (apply Qinv_lt_0_compat; exact Ht).
  unfold Qdiv.
  assert (H1 : (p1 * / u <= p2 * / u)%Q)
    by (apply Qmult_le_compat_r; [exact Hle | apply Qlt_le_weak; exact Hiu]).
  assert (H2 : (p1 * / t <= p2 * / t)%Q)
    by (apply Qmult_le_compat_r; [exact Hle | apply Qlt_le_weak; exact Hit]).
  assert (H0u : (0 <= p1 * / u)%Q)
    by (apply Qmult_le_0_compat; [exact Hp1 | apply Qlt_le_weak; exact Hiu]).
  assert (H0t : (0 <= p1 * / t)%Q)
    by (apply Qmult_le_0_compat; [exact Hp1 | apply Qlt_le_weak; exact Hit]).
  assert (H3 : (p1 * / u * (p1 * / t) <= p2 * / u * (p2 * / t))%Q).
  { apply Qle_trans with (p2 * / u * (p1 * / t))%Q.
    - apply Qmult_le_compat_r; assumption.
    - rewrite (Qmult_comm (p2 * / u) (p1 * / t)), (Qmult_comm (p2 * / u) (p2 * / t)).
      apply Qmult_le_compat_r; [exact H2 |].
      apply Qle_trans with (p1 * / u)%Q; assumption. }
  apply Qmult_le_compat_r; [| discriminate].
  apply Qmult_le_compat_r; assumption.
Qed.

(** The score, branch by branch: what [calculate_profitability_score]
    returns once the contract is known to be expired or not. *)
Lemma score_value (now : Z) (c : Contract.t) (cap cost : Z) (expired : bool) :
  Contract.is_expired now c = Py.Ok expired ->
  aware (ContractTerms.deadline (Contract.terms c)) = false ->
  Contract.calculate_profitability_score now c cap cost
  = Py.Ok
      (if expired then (-1000)%Q
       else if cap <? Contract.total_units_needed c then (-500)%Q
       else if ContractTerms.total_payment (Contract.terms c) - cost <=? 0 then (-100)%Q
       else
         (Py.truediv (ContractTerms.total_payment (Contract.terms c) - cost)
                     (Z.max 1 (Contract.total_units_needed c))
          * Py.truediv (ContractTerms.total_payment (Contract.terms c) - cost)
                       (Z.max 1 (ContractTerms.total_payment (Contract.terms c)))
          * Py.min 1 (seconds_to_deadline now c / 86400)
          * 100)%Q).
Proof.
  intros Hexp Hnaive.
  unfold Contract.calculate_profitability_score.
  rewrite Hexp. cbn [mbind result_bind Py.bind].
  destruct expired; [reflexivity |].
  destruct (cap <? Contract.total_units_needed c); [reflexivity |].
  destruct (ContractTerms.total_payment (Contract.terms c) - cost <=? 0);
    [reflexivity |].
  cbv zeta.
  destruct (time_remaining_is_seconds_to_deadline now c Hnaive) as [Hsub Hsec].
  rewrite Hsub. cbn [mbind result_bind Py.bind]. rewrite Hsec. reflexivity.
Qed.

(** C9, as amended. The status of a contract is FULFILLED when its
    fulfilled flag is set, else ACCEPTED when its accepted flag is set, else
    it depends on the datetime that decides expiry, the expiration when the
    contract has one and the deadline of its terms otherwise: when that
    datetime names no time zone the status is FAILED past it and AVAILABLE
    up to it, and when it names one the status raises TypeError. For a
    contract without an expiration, whose deadline names no time zone, this
    is the status the specification words. The status is a function of
    these fields alone: two contracts that agree on them have the same
    status. *)
Theorem status_is_derived (now : Z) (c : Contract.t) :
  Contract.status now c
  = (if Contract.fulfilled c then Py.Ok FULFILLED
     else if Contract.accepted c then Py.Ok ACCEPTED
     else if aware (expiry_datetime c) then Py.Raise Py.TypeError
     else if timestamp (expiry_datetime c) <? now then Py.Ok FAILED
     else Py.Ok AVAILABLE)
  /\ (Contract.expiration c = None ->
      aware (ContractTerms.deadline (Contract.terms c)) = false ->
      Contract.status now c = Py.Ok (status_by_deadline now c))
  /\ (forall c' : Contract.t,
        Contract.fulfilled c' = Contract.fulfilled c ->
        Contract.accepted c' = Contract.accepted c ->
        expiry_datetime c' = expiry_datetime c ->
        Contract.status now c' = Contract.status now c).
Proof.
  assert (Hstatus : forall k : Contract.t,
            Contract.status now k
            = (if Contract.fulfilled k then Py.Ok FULFILLED
               else if Contract.accepted k then Py.Ok ACCEPTED
               else if aware (expiry_datetime k) then Py.Raise Py.TypeError
               else if timestamp (expiry_datetime k) <? now then Py.Ok FAILED
               else Py.Ok AVAILABLE)).
  { intros k. unfold Contract.status. rewrite is_expired_by_instant.
    destruct (Contract.fulfilled k); [reflexivity |].
    destruct (Contract.accepted k); [reflexivity |].
    destruct (aware (expiry_datetime k)); [reflexivity |].
    cbn [mbind result_bind Py.bind].
    destruct (timestamp (expiry_datetime k) <? now); reflexivity. }
  split; [apply Hstatus | split].
  - intros Hnone Hnaive. rewrite Hstatus.
    unfold status_by_deadline, expiry_datetime. rewrite Hnone, Hnaive.
    destruct (Contract.fulfilled c); [reflexivity |].
    destruct (Contract.accepted c); [reflexivity |].
    destruct (_ <? now); reflexivity.
  - intros c' Hf Ha He. rewrite !Hstatus, Hf, Ha, He. reflexivity.
Qed.

(** C9, the counterexample. Read at instant 1500, an offer that could be
    accepted until instant 1000 and is due at instant 2000 is FAILED, though
    it is not past its deadline: the specification's wording makes it
    AVAILABLE. *)
Lemma lapsed_offer_fails_before_its_deadline :
  Contract.status 1500 lapsed_offer = Py.Ok FAILED
  /\ status_by_deadline 1500 lapsed_offer = AVAILABLE
  /\ 1500 <= timestamp (ContractTerms.deadline (Contract.terms lapsed_offer)).
Proof. repeat split; vm_compute; discriminate. Qed.

(** C2, as amended. Once the contract is known to be expired or not, and
    its deadline names no time zone, so that the time to the deadline is
    known, the score is computed and is the score the specification words,
    from whether the contract is expired, the units still to deliver in
    place of the units required, the cargo capacity, the total payment, the
    estimated cost and the seconds left to the deadline. The units still to
    deliver are the units required when nothing is fulfilled yet. A contract that is not expired, pays 1000 on
    acceptance and 4000 on fulfilment, asks for one delivery of 50 units of
    which none is fulfilled, and is due in two days, scores 3600 for a cargo
    capacity of 100 and an estimated cost of 2000. *)
Theorem profitability_score_formula :
  (forall (now : Z) (c : Contract.t) (cargo_capacity estimated_cost : Z)
          (expired : bool),
     Contract.is_expired now c = Py.Ok expired ->
     aware (ContractTerms.deadline (Contract.terms c)) = false ->
     exists score : Q,
       Contract.calculate_profitability_score now c cargo_capacity estimated_cost
       = Py.Ok score
       /\ (score
           == score_spec expired (Contract.total_units_needed c) cargo_capacity
                (ContractTerms.total_payment (Contract.terms c))
                estimated_cost (seconds_to_deadline now c))%Q)
  /\ (forall c : Contract.t,
        Forall (fun d => ContractDelivery.units_fulfilled d = 0
                         /\ 0 <= ContractDelivery.units_required d)
               (ContractTerms.deliveries (Contract.terms c)) ->
        Contract.total_units_needed c = NegotiateContractState.units_required_total c)
  /\ (forall (now : Z) (c : Contract.t) (d : ContractDelivery.t),
        Contract.is_expired now c = Py.Ok false ->
        ContractTerms.payment_on_accepted (Contract.terms c) = 1000 ->
        ContractTerms.payment_on_fulfilled (Contract.terms c) = 4000 ->
        ContractTerms.deliveries (Contract.terms c) = [d] ->
        ContractDelivery.units_required d = 50 ->
        ContractDelivery.units_fulfilled d = 0 ->
        ContractTerms.deadline (Contract.terms c) = naive (now + 2 * day) ->
        exists score : Q,
          Contract.calculate_profitability_score now c 100 2000 = Py.Ok score
          /\ (score == 3600)%Q).
Proof.
  split; [| split].
  - intros now c cap cost expired Hexp Hnaive.
    eexists. split; [apply (score_value now c cap cost expired Hexp Hnaive) |].
    unfold score_spec.
    destruct expired; [reflexivity |].
    destruct (cap <? Contract.total_units_needed c); [reflexivity |].
    destruct (ContractTerms.total_payment (Contract.terms c) - cost <=? 0);
      [reflexivity |].
    cbv zeta. rewrite min_is_Qmin. reflexivity.
  - intros c H.
    unfold Contract.total_units_needed, NegotiateContractState.units_required_total.
    induction H as [|d ds [Hf Hr] _ IH]; [reflexivity |].
    cbn [map]. rewrite !sum_cons, IH.
    unfold ContractDelivery.remaining_units. rewrite Hf. lia.
  - intros now c d Hexp Hacc Hful Hdel Hreq Hdone Hdue.
    assert (Hnaive : aware (ContractTerms.deadline (Contract.terms c)) = false)
      by (rewrite Hdue; reflexivity).
    eexists. split; [apply (score_value now c 100 2000 false Hexp Hnaive) |].
    unfold seconds_to_deadline, Contract.total_units_needed,
      ContractTerms.total_payment, ContractDelivery.remaining_units.
    rewrite Hacc, Hful, Hdel, Hdue. cbn [map naive timestamp].
    rewrite Hreq, Hdone.
    replace (now + 2 * day - now) with (2 * day) by lia.
    vm_compute. reflexivity.
Qed.

(** C2, at scenario B read at instant 0. *)
Lemma scenario_B_scores_3600 :
  exists score : Q,
    Contract.calculate_profitability_score 0 scenario_B 100 2000 = Py.Ok score
    /\ (score == 3600)%Q.
Proof.
  apply (proj2 (proj2 profitability_score_formula) 0 scenario_B (delivery_of 50 0));
    reflexivity.
Defined.

(** C2, the counterexample. The contract of scenario B with one delivery
    of 150 units of which 100 are fulfilled, read at instant 0 for a cargo
    capacity of 100 and an estimated cost of 2000: the 150 units required
    exceed the capacity, for which the specification words a score of -500,
    and the code scores 3600, from the 50 units still to deliver. *)
Lemma partly_delivered_offer_scores_3600 :
  NegotiateContractState.units_required_total partly_delivered_offer = 150
  /\ Contract.total_units_needed partly_delivered_offer = 50
  /\ Contract.is_expired 0 partly_delivered_offer = Py.Ok false
  /\ (score_spec false
        (NegotiateContractState.units_required_total partly_delivered_offer) 100
        (ContractTerms.total_payment (Contract.terms partly_delivered_offer)) 2000
        (seconds_to_deadline 0 partly_delivered_offer)
      == -500)%Q
  /\ exists score : Q,
       Contract.calculate_profitability_score 0 partly_delivered_offer 100 2000
       = Py.Ok score
       /\ (score == 3600)%Q.
Proof.
  split; [reflexivity |]. split; [reflexivity |]. split; [reflexivity |].
  split; [reflexivity |].
  eexists. split; [reflexivity |]. vm_compute. reflexivity.
Qed.

(** C7, as amended. For a contract known to be expired or not, whose
    deadline names no time zone and is not passed, the score does not
    decrease when the estimated cost decreases, that is when the profit
    grows, everything else being the same. The score of a contract known to
    be expired is negative, and so is the score of a contract known not to
    be expired that has more units to deliver than the cargo capacity. *)
Theorem profitability_score_monotone :
  (forall (now : Z) (c : Contract.t) (cargo_capacity cost1 cost2 : Z)
          (expired : bool),
     Contract.is_expired now c = Py.Ok expired ->
     aware (ContractTerms.deadline (Contract.terms c)) = false ->
     now <= timestamp (ContractTerms.deadline (Contract.terms c)) ->
     ContractTerms.total_payment (Contract.terms c) - cost1
       <= ContractTerms.total_payment (Contract.terms c) - cost2 ->
     exists score1 score2 : Q,
       Contract.calculate_profitability_score now c cargo_capacity cost1 = Py.Ok score1
       /\ Contract.calculate_profitability_score now c cargo_capacity cost2 = Py.Ok score2
       /\ (score1 <= score2)%Q)
  /\ (forall (now : Z) (c : Contract.t) (cargo_capacity cost : Z),
        Contract.is_expired now c = Py.Ok true ->
        exists score : Q,
          Contract.calculate_profitability_score now c cargo_capacity cost = Py.Ok score
          /\ (score < 0)%Q)
  /\ (forall (now : Z) (c : Contract.t) (cargo_capacity cost : Z),
        Contract.is_expired now c = Py.Ok false ->
        cargo_capacity < Contract.total_units_needed c ->
        exists score : Q,
          Contract.calculate_profitability_score now c cargo_capacity cost = Py.Ok score
          /\ (score < 0)%Q).
Proof.
  split; [| split].
  - intros now c cap cost1 cost2 expired Hexp Hnaive Hdue Hprofit.
    pose proof (time_factor_nonneg now c Hdue) as Hf.
    eexists. eexists.
    split; [apply (score_value now c cap cost1 expired Hexp Hnaive) |].
    split; [apply (score_value now c cap cost2 expired Hexp Hnaive) |].
    destruct expired; [apply Qle_refl |].
    destruct (cap <? Contract.total_units_needed c); [apply Qle_refl |].
    set (pay := ContractTerms.total_payment (Contract.terms c)) in *.
    destruct (pay - cost1 <=? 0) eqn:E1; destruct (pay - cost2 <=? 0) eqn:E2.
    + apply Qle_refl.
    + apply Z.leb_gt in E2.
      apply Qle_trans with 0%Q; [discriminate |].
      unfold Py.truediv, Qdiv.
      repeat apply Qmult_le_0_compat; try exact Hf; try discriminate;
        try (apply inject_Z_nonneg; lia);
        apply Qlt_le_weak, Qinv_lt_0_compat, inject_Z_pos; lia.
    + apply Z.leb_gt in E1. apply Z.leb_le in E2. lia.
    + apply Z.leb_gt in E1. apply Z.leb_gt in E2. unfold Py.truediv.
      apply score_product_monotone; try exact Hf.
      * apply inject_Z_nonneg. lia.
      * rewrite <- Zle_Qle. exact Hprofit.
      * apply inject_Z_pos. lia.
      * apply inject_Z_pos. lia.
  - intros now c cap cost Hexp.
    unfold Contract.calculate_profitability_score. rewrite Hexp.
    eexists. split; reflexivity.
  - intros now c cap cost Hexp Hcap.
    unfold Contract.calculate_profitability_score. rewrite Hexp.
    apply Z.ltb_lt in Hcap. cbn [mbind result_bind Py.bind]. rewrite Hcap.
    eexists. split; reflexivity.
Qed.

(** C7, at scenario B read at instant 0: an estimated cost of 1000 scores
    at least as much as one of 2000. *)
Lemma scenario_B_cheaper_scores_more :
  exists score1 score2 : Q,
    Contract.calculate_profitability_score 0 scenario_B 100 2000 = Py.Ok score1
    /\ Contract.calculate_profitability_score 0 scenario_B 100 1000 = Py.Ok score2
    /\ (score1 <= score2)%Q.
Proof.
  apply (proj1 profitability_score_monotone 0 scenario_B 100 2000 1000 false);
    vm_compute; (reflexivity || discriminate).
Defined.

(** C7, the counterexample. Read at instant 0, an offer that can still be
    accepted and whose deadline passed a day ago is not expired; at a cost
    of 5000 its profit is 0 and its score -100, at a cost of 2000 its profit
    is 3000 and its score -3600: the profit grew and the score fell. *)
Lemma overdue_offer_scores_less_for_more_profit :
  Contract.is_expired 0 overdue_offer = Py.Ok false
  /\ Contract.calculate_profitability_score 0 overdue_offer 100 5000 = Py.Ok (-100)%Q
  /\ (exists score : Q,
        Contract.calculate_profitability_score 0 overdue_offer 100 2000 = Py.Ok score
        /\ (score == -3600)%Q)
  /\ ContractTerms.total_payment (Contract.terms overdue_offer) - 5000
     < ContractTerms.total_payment (Contract.terms overdue_offer) - 2000.
Proof.
  split; [reflexivity | split; [reflexivity | split; [| reflexivity]]].
  eexists. split; reflexivity.
Qed.

(** ** The handler monad *)

(** Unfolds the monad of the handlers down to functions on worlds. *)
Ltac unfold_monad :=
  unfold run, try_except, raise, lift, sleep, modify_context, get_context,
    mbind, M_bind, mret, M_ret in *.

Lemma filter_head_is_find {A} (p : A -> bool) (l : list A) :
  match List.filter p l with
  | x :: _ => Some x
  | [] => None
  end = List.find p l.
Proof.
  induction l as [|a l IH]; cbn; [reflexivity |].
  destruct (p a); [reflexivity | exact IH].
Qed.

(** ** Situation assessment *)

(** A comprehension whose test returns on every element is a filter. *)
Lemma filter_returns {A} (p : A -> Py.result bool) (q : A -> bool) (xs : list A) :
  Forall (fun x => p x = Py.Ok (q x)) xs ->
  Py.filter p xs = Py.Ok (List.filter q xs).
Proof.
  induction 1 as [|x xs Hx _ IH]; [reflexivity |].
  cbn [Py.filter List.filter]. rewrite Hx, IH. cbn [Py.bind].
  destruct (q x); reflexivity.
Qed.

(** A comprehension whose test raises on some element, and returns or
    raises the same exception on the others, raises. *)
Lemma filter_raises {A} (p : A -> Py.result bool) (e : Py.exn) (xs : list A) :
  Forall (fun x => (exists b, p x = Py.Ok b) \/ p x = Py.Raise e) xs ->
  Exists (fun x => p x = Py.Raise e) xs ->
  Py.filter p xs = Py.Raise e.
Proof.
  induction 1 as [|x xs Hx _ IH]; intros Hex; [inversion Hex |].
  cbn [Py.filter].
  destruct Hx as [[b Hb] | Hraise]; [| rewrite Hraise; reflexivity].
  rewrite Hb. cbn [Py.bind].
  inversion Hex as [? ? Hhere | ? ? Hlater]; subst; [congruence |].
  rewrite (IH Hlater). reflexivity.
Qed.

(** Such a comprehension returns or raises that exception. *)
Lemma filter_returns_or_raises {A} (p : A -> Py.result bool) (e : Py.exn) (xs : list A) :
  Forall (fun x => (exists b, p x = Py.Ok b) \/ p x = Py.Raise e) xs ->
  (exists kept, Py.filter p xs = Py.Ok kept) \/ Py.filter p xs = Py.Raise e.
Proof.
  induction 1 as [|x xs Hx _ IH]; [left; eexists; reflexivity |].
  cbn [Py.filter].
  destruct Hx as [[b Hb] | Hraise]; [| right; rewrite Hraise; reflexivity].
  rewrite Hb. cbn [Py.bind].
  destruct IH as [[kept ->] | ->]; [left; eexists; reflexivity | right; reflexivity].
Qed.

(** The test of the active contracts, by the flags and the datetime that
    decides expiry. *)
Lemma is_active_value (clock : Clock) (c : Contract.t) :
  AssessSituationState.is_active clock c
  = if Contract.accepted c && negb (Contract.fulfilled c)
    then if aware (expiry_datetime c) then Py.Raise Py.TypeError
         else Py.Ok (active (datetime_now clock) c)
    else Py.Ok false.
Proof.
  unfold AssessSituationState.is_active, active. rewrite is_expired_by_instant.
  destruct (Contract.accepted c), (Contract.fulfilled c); try reflexivity.
  cbn [negb andb]. destruct (aware (expiry_datetime c)); reflexivity.
Qed.

(** The test of the contracts counted for the log, likewise. *)
Lemma is_open_value (clock : Clock) (c : Contract.t) :
  AssessSituationState.is_open clock c
  = if Contract.accepted c then Py.Ok false
    else if aware (expiry_datetime c) then Py.Raise Py.TypeError
    else Py.Ok (negb (timestamp (expiry_datetime c) <? datetime_now clock)).
Proof.
  unfold AssessSituationState.is_open. rewrite is_expired_by_instant.
  destruct (Contract.accepted c); [reflexivity |].
  cbn [negb]. destruct (aware (expiry_datetime c)); reflexivity.
Qed.

(** The classification of the assessment, for contracts whose datetimes
    name no time zone. When the agent, the fleet and the contracts are
    fetched: an empty fleet leads to ERROR_RECOVERY; otherwise, when some
    fetched contract is accepted, not fulfilled and not expired, the first
    such contract becomes the current contract and the next state is
    COMPLETE_CONTRACT when every delivery of it has as many units fulfilled
    as required, EXECUTE_CONTRACT when not; and when no fetched contract is
    such, the current contract becomes None and the next state is
    NEGOTIATE_CONTRACT. *)
Lemma assessment_classifies_local_datetimes
    (api : Api.client) (clock : Clock) (ctx : AgentContext.t)
    (agent_answer : option Json.agent) (ships_data : list Json.ship)
    (contracts_data : list Json.contract) :
  Api.get_my_agent api = Api.Answer agent_answer ->
  Api.get_my_ships api = Api.Answer ships_data ->
  Api.get_my_contracts api = Api.Answer contracts_data ->
  let fetched := map (Contract.from_api_response (datetime_parsed clock)) contracts_data in
  Forall (fun c => aware (expiry_datetime c) = false) fetched ->
  let outcome := run (AssessSituationState.execute api clock) ctx in
  (ships_data = [] -> fst outcome = Py.Ok ERROR_RECOVERY)
  /\ (ships_data <> [] ->
      forall first : Contract.t,
        List.find (active (datetime_now clock)) fetched = Some first ->
        AgentContext.current_contract (context (snd outcome)) = Some first
        /\ (delivered first -> fst outcome = Py.Ok COMPLETE_CONTRACT)
        /\ (~ delivered first -> fst outcome = Py.Ok EXECUTE_CONTRACT))
  /\ (ships_data <> [] ->
      List.find (active (datetime_now clock)) fetched = None ->
      AgentContext.current_contract (context (snd outcome)) = None
      /\ fst outcome = Py.Ok NEGOTIATE_CONTRACT).
Proof.
  intros Hagent Hships Hcontracts fetched Hlocal outcome.
  assert (Hactive : Py.filter (AssessSituationState.is_active clock) fetched
                    = Py.Ok (List.filter (active (datetime_now clock)) fetched)).
  { apply filter_returns. eapply Forall_impl; [exact Hlocal |].
    intros c Hc. cbn beta in Hc. rewrite is_active_value, Hc. unfold active.
    destruct (Contract.accepted c), (Contract.fulfilled c); reflexivity. }
  assert (Hopen : exists open, Py.filter (AssessSituationState.is_open clock) fetched
                               = Py.Ok open).
  { eexists. apply filter_returns with
      (q := fun c => negb (Contract.accepted c)
                     && negb (timestamp (expiry_datetime c) <? datetime_now clock)).
    eapply Forall_impl; [exact Hlocal |].
    intros c Hc. cbn beta in Hc. rewrite is_open_value, Hc.
    destruct (Contract.accepted c); reflexivity. }
  destruct Hopen as [open Hopen].
  subst outcome. unfold delivered.
  unfold AssessSituationState.execute, AssessSituationState._update_agent_data,
    AssessSituationState._update_ships, AssessSituationState._update_contracts,
    AssessSituationState._determine_next_action.
  unfold_monad. rewrite Hagent, Hships, Hcontracts. cbn [Api.call]. fold fetched.
  rewrite Hactive.
  pose proof (filter_head_is_find (active (datetime_now clock)) fetched) as Hfind.
  split; [| split].
  - intros ->.
    destruct (List.filter (active (datetime_now clock)) fetched);
      cbn; rewrite Hopen; reflexivity.
  - intros Hfleet first Hfirst. rewrite Hfirst in Hfind.
    destruct ships_data as [|s rest]; [contradiction |].
    destruct (List.filter (active (datetime_now clock)) fetched)
      as [|c others]; [discriminate |].
    injection Hfind as ->. cbn. rewrite Hopen. cbn.
    rewrite <- all_deliveries_completed_iff.
    destruct (Contract.all_deliveries_completed first); cbn;
      (split; [reflexivity | split; intros H]);
      try reflexivity; [exfalso; apply H; reflexivity | discriminate].
  - intros Hfleet Hnone. rewrite Hnone in Hfind.
    destruct ships_data as [|s rest]; [contradiction |].
    destruct (List.filter (active (datetime_now clock)) fetched)
      as [|c others]; [| discriminate].
    cbn. rewrite Hopen. cbn. split; reflexivity.
Qed.

(** At a fleet of one ship and one accepted contract with 20 of its 50
    units delivered, its deadline written without a time zone: the next
    state is EXECUTE_CONTRACT. *)
Lemma assessment_continues_a_running_contract :
  fst (run (AssessSituationState.execute
              (answering_api (json_agent 1000) [json_ship_at "SHIP-1" "X1-DF55-A1" 40]
                 running_contract_local [] no_yard None)
              clock_0)
           (context_with 0 []))
  = Py.Ok EXECUTE_CONTRACT.
Proof. reflexivity. Qed.

(** C5, the defect. When the agent, the fleet and the contracts are
    fetched, and the datetime that decides the expiry of some fetched
    contract names a time zone, as the timestamps of the API do, while the
    contract is not both accepted and fulfilled: the comparison with
    [datetime.now()] raises TypeError and the next state is ERROR_RECOVERY,
    whatever the fleet and the deliveries. *)
Theorem assessment_fails_on_zoned_datetimes
    (api : Api.client) (clock : Clock) (ctx : AgentContext.t)
    (agent_answer : option Json.agent) (ships_data : list Json.ship)
    (contracts_data : list Json.contract) (c : Contract.t) :
  Api.get_my_agent api = Api.Answer agent_answer ->
  Api.get_my_ships api = Api.Answer ships_data ->
  Api.get_my_contracts api = Api.Answer contracts_data ->
  In c (map (Contract.from_api_response (datetime_parsed clock)) contracts_data) ->
  aware (expiry_datetime c) = true ->
  Contract.accepted c && Contract.fulfilled c = false ->
  fst (run (AssessSituationState.execute api clock) ctx) = Py.Ok ERROR_RECOVERY.
Proof.
  intros Hagent Hships Hcontracts Hin Hzone Hflags.
  set (fetched := map (Contract.from_api_response (datetime_parsed clock)) contracts_data) in *.
  assert (Hshape_active :
            Forall (fun x => (exists b, AssessSituationState.is_active clock x = Py.Ok b)
                             \/ AssessSituationState.is_active clock x
                                = Py.Raise Py.TypeError) fetched).
  { apply Forall_forall. intros x _. rewrite is_active_value.
    destruct (Contract.accepted x && negb (Contract.fulfilled x));
      [| left; eexists; reflexivity].
    destruct (aware (expiry_datetime x)); [right | left; eexists]; reflexivity. }
  assert (Hshape_open :
            Forall (fun x => (exists b, AssessSituationState.is_open clock x = Py.Ok b)
                             \/ AssessSituationState.is_open clock x
                                = Py.Raise Py.TypeError) fetched).
  { apply Forall_forall. intros x _. rewrite is_open_value.
    destruct (Contract.accepted x); [left; eexists; reflexivity |].
    destruct (aware (expiry_datetime x)); [right | left; eexists]; reflexivity. }
  unfold AssessSituationState.execute, AssessSituationState._update_agent_data,
    AssessSituationState._update_ships, AssessSituationState._update_contracts,
    AssessSituationState._determine_next_action.
  unfold_monad. rewrite Hagent, Hships, Hcontracts. cbn [Api.call]. fold fetched.
  destruct (filter_returns_or_raises _ _ _ Hshape_active) as [[kept Hkept] | Hraise];
    [| rewrite Hraise; reflexivity].
  rewrite Hkept.
  assert (Hopen : Py.filter (AssessSituationState.is_open clock) fetched
                  = Py.Raise Py.TypeError).
  { apply filter_raises; [exact Hshape_open |].
    apply List.Exists_exists. exists c. split; [exact Hin |].
    rewrite is_open_value, Hzone.
    destruct (Contract.accepted c) eqn:Eaccepted; [| reflexivity].
    exfalso.
    assert (Hraise : Py.filter (AssessSituationState.is_active clock) fetched
                     = Py.Raise Py.TypeError).
    { apply filter_raises; [exact Hshape_active |].
      apply List.Exists_exists. exists c. split; [exact Hin |].
      rewrite is_active_value, Eaccepted, Hzone.
      cbn [andb] in Hflags. rewrite Hflags. reflexivity. }
    congruence. }
  destruct kept; cbn; rewrite Hopen; reflexivity.
Qed.

(** C5, at a fleet of one ship and one accepted contract with 20 of its 50
    units delivered, due in two days, its deadline written with a time
    zone: the next state is ERROR_RECOVERY, not EXECUTE_CONTRACT, and no
    contract becomes the current contract. *)
Lemma assessment_fails_on_a_running_contract :
  let api := answering_api (json_agent 1000) [json_ship_at "SHIP-1" "X1-DF55-A1" 40]
               running_contract_utc [] no_yard None in
  let outcome := run (AssessSituationState.execute api clock_0) (context_with 0 []) in
  fst outcome = Py.Ok ERROR_RECOVERY
  /\ AgentContext.current_contract (context (snd outcome)) = None.
Proof.
  split; [| reflexivity].
  refine (assessment_fails_on_zoned_datetimes
            (answering_api (json_agent 1000) [json_ship_at "SHIP-1" "X1-DF55-A1" 40]
               running_contract_utc [] no_yard None)
            clock_0 (context_with 0 []) _ _ _ _ eq_refl eq_refl eq_refl _ _ _).
  - left. reflexivity.
  - reflexivity.
  - reflexivity.
Defined.

(** ** Capability filter *)

Lemma has_sufficient_credits_value
    (ctx : AgentContext.t) (agent : AgentData.t) (reserve : Py.pyval) (amount : Z) :
  AgentContext.agent_data ctx = Some agent ->
  AgentContext.strategy_config ctx !! "safety_credit_reserve" = Some reserve ->
  AgentContext.has_sufficient_credits ctx amount
  = Py.Ok (Qle_bool (inject_Z amount)
                    (inject_Z (AgentData.credits agent) - Py.num reserve)%Q).
Proof.
  intros Ha Hr. unfold AgentContext.has_sufficient_credits.
  rewrite Ha, Hr. reflexivity.
Qed.

(** The estimate: a hundred credits a unit and the tenth of the payment,
    cut to an integer. *)
Lemma estimate_contract_cost_value (c : Contract.t) :
  NegotiateContractState._estimate_contract_cost c
  = NegotiateContractState.units_required_total c * 100
    + Z.quot (ContractTerms.total_payment (Contract.terms c)) 10.
Proof.
  unfold NegotiateContractState._estimate_contract_cost, Py.int. cbn.
  rewrite Z.mul_1_r. reflexivity.
Qed.

(** What the loop of the filter keeps: the capacity test and the credit
    test decide; the test on the largest delivery rejects nothing more. *)
Lemma filter_loop_value
    (ctx : AgentContext.t) (agent : AgentData.t) (reserve : Py.pyval)
    (capacity : Z) (contracts kept : list Contract.t) :
  AgentContext.agent_data ctx = Some agent ->
  AgentContext.strategy_config ctx !! "safety_credit_reserve" = Some reserve ->
  NegotiateContractState.filter_loop ctx capacity kept contracts
  = Py.Ok (kept ++ List.filter
             (fun c =>
                (NegotiateContractState.units_required_total c <=? capacity)
                && Qle_bool (inject_Z (NegotiateContractState._estimate_contract_cost c))
                            (inject_Z (AgentData.credits agent) - Py.num reserve)%Q)
             contracts).
Proof.
  intros Ha Hr. revert kept.
  induction contracts as [|c rest IH]; intros kept; cbn [NegotiateContractState.filter_loop List.filter].
  - rewrite app_nil_r. reflexivity.
  - rewrite (has_sufficient_credits_value ctx agent reserve _ Ha Hr).
    rewrite Z.leb_antisym.
    destruct (capacity <? NegotiateContractState.units_required_total c) eqn:Ecap;
      cbn [negb andb].
    + apply IH.
    + cbn. destruct (Qle_bool _ _); cbn [negb].
      * rewrite andb_false_r, IH, <- app_assoc. reflexivity.
      * apply IH.
Qed.

(** C3, as amended. For a fleet that is not empty, an agent snapshot and a
    configured safety reserve, the capability filter keeps, in their order,
    the contracts whose total of units required is at most the total cargo
    capacity of the fleet and whose estimated cost is at most the credits
    less the reserve; the estimated cost is the total of units required
    times 100 plus the tenth of the total payment cut to an integer; a
    contract that passes both tests is kept also when its largest delivery
    exceeds the capacity of the largest ship. *)
Theorem capability_filter_keeps
    (ctx : AgentContext.t) (agent : AgentData.t) (reserve : Py.pyval)
    (contracts : list Contract.t) :
  AgentContext.ships ctx <> [] ->
  AgentContext.agent_data ctx = Some agent ->
  AgentContext.strategy_config ctx !! "safety_credit_reserve" = Some reserve ->
  let capacity := AgentContext.get_total_cargo_capacity ctx in
  let spendable := (inject_Z (AgentData.credits agent) - Py.num reserve)%Q in
  let fits (c : Contract.t) :=
    (NegotiateContractState.units_required_total c <=? capacity)
    && Qle_bool (inject_Z (NegotiateContractState._estimate_contract_cost c)) spendable in
  NegotiateContractState._filter_contracts_by_capabilities ctx contracts
  = Py.Ok (List.filter fits contracts)
  /\ (forall c : Contract.t,
        NegotiateContractState._estimate_contract_cost c
        = NegotiateContractState.units_required_total c * 100
          + Z.quot (ContractTerms.total_payment (Contract.terms c)) 10)
  /\ (forall c : Contract.t,
        In c contracts ->
        NegotiateContractState.largest_ship_capacity ctx
          < NegotiateContractState.max_delivery_size c ->
        NegotiateContractState.units_required_total c <= capacity ->
        (inject_Z (NegotiateContractState._estimate_contract_cost c) <= spendable)%Q ->
        In c (List.filter fits contracts)).
Proof.
  intros Hfleet Ha Hr capacity spendable fits.
  split; [| split].
  - unfold NegotiateContractState._filter_contracts_by_capabilities.
    destruct (AgentContext.ships ctx) as [|s rest] eqn:Es; [contradiction |].
    rewrite (filter_loop_value ctx agent reserve _ contracts [] Ha Hr).
    reflexivity.
  - apply estimate_contract_cost_value.
  - intros c Hin _ Hunits Hcost. apply filter_In. split; [exact Hin |].
    unfold fits. apply andb_true_iff. split.
    + apply Z.leb_le. exact Hunits.
    + apply Qle_bool_iff. exact Hcost.
Qed.

(** C3, at a fleet of two ships of 50 units each, 20000 credits and the
    default reserve of 10000: the offer of 60 and 30 units, whose largest
    delivery fits no single ship, is kept. *)
Lemma split_offer_is_kept :
  NegotiateContractState._filter_contracts_by_capabilities
    (context_with 20000 [ship_at "SHIP-1" "X1-DF55-A1" 50; ship_at "SHIP-2" "X1-DF55-A1" 50])
    [split_offer]
  = Py.Ok [split_offer].
Proof.
  exact (proj1 (capability_filter_keeps
                  (context_with 20000
                     [ship_at "SHIP-1" "X1-DF55-A1" 50; ship_at "SHIP-2" "X1-DF55-A1" 50])
                  (AgentData.from_api_response (json_agent 20000)) (Py.VInt 10000)
                  [split_offer] ltac:(discriminate) eq_refl eq_refl)).
Defined.

(** C3, the counterexample. With one ship of 100 units, 15500 credits and
    the reserve of 10000, the offer of 5005 credits for 50 units is kept:
    its estimate is 5500, the 5500 credits the agent may spend; as the
    specification words the estimate it is 5500.5, above them. *)
Lemma offer_5005_is_kept_at_the_limit :
  NegotiateContractState._filter_contracts_by_capabilities
    (context_with 15500 [ship_at "SHIP-1" "X1-DF55-A1" 100]) [offer_5005]
  = Py.Ok [offer_5005]
  /\ NegotiateContractState._estimate_contract_cost offer_5005 = 5500
  /\ (estimated_cost_spec offer_5005 == 5500.5)%Q
  /\ retained_spec 100 (15500 - 10000) offer_5005 = false.
Proof. repeat split. Qed.

(** ** Diagnosis of an empty selection *)

(** The credit test raises nothing when there is no agent snapshot or when
    the reserve is configured. *)
Lemma has_sufficient_credits_returns (ctx : AgentContext.t) (amount : Z) :
  AgentContext.agent_data ctx = None
  \/ is_Some (AgentContext.strategy_config ctx !! "safety_credit_reserve") ->
  exists b : bool, AgentContext.has_sufficient_credits ctx amount = Py.Ok b.
Proof.
  intros H. unfold AgentContext.has_sufficient_credits.
  destruct (AgentContext.agent_data ctx) as [agent|]; [| eexists; reflexivity].
  destruct H as [H | [reserve H]]; [discriminate |].
  rewrite H. eexists. reflexivity.
Qed.

(** The counting loop adds to the capacity counter the contracts that ask
    for more units than the fleet holds, and to the ship-size counter those
    among them whose largest delivery exceeds the largest ship. *)
Lemma count_loop_value
    (ctx : AgentContext.t) (capacity : Z) (contracts : list Contract.t)
    (n : NegotiateContractState.issues) :
  AgentContext.agent_data ctx = None
  \/ is_Some (AgentContext.strategy_config ctx !! "safety_credit_reserve") ->
  exists n' : NegotiateContractState.issues,
    NegotiateContractState.count_loop ctx capacity n contracts = Py.Ok n'
    /\ NegotiateContractState.capacity_issues n'
       = NegotiateContractState.capacity_issues n
         + Z.of_nat (length (List.filter
             (fun c => capacity <? NegotiateContractState.units_required_total c)
             contracts))
    /\ NegotiateContractState.ship_size_issues n'
       = NegotiateContractState.ship_size_issues n
         + Z.of_nat (length (List.filter
             (fun c =>
                (NegotiateContractState.largest_ship_capacity ctx
                   <? NegotiateContractState.max_delivery_size c)
                && (capacity <? NegotiateContractState.units_required_total c))
             contracts)).
Proof.
  intros Hcfg. revert n.
  induction contracts as [|c rest IH]; intros n;
    cbn [NegotiateContractState.count_loop List.filter].
  - exists n. cbn. repeat split; lia.
  - unfold NegotiateContractState.count_issues.
    destruct (has_sufficient_credits_returns ctx
                (NegotiateContractState._estimate_contract_cost c) Hcfg) as [b ->].
    cbn [mbind result_bind Py.bind].
    match goal with
    | |- context [NegotiateContractState.count_loop ctx capacity ?m rest] =>
        destruct (IH m) as (n' & Hn' & Hcap & Hsize)
    end.
    exists n'. split; [exact Hn' |].
    rewrite Hcap, Hsize. cbn [NegotiateContractState.capacity_issues
                               NegotiateContractState.ship_size_issues].
    destruct (capacity <? NegotiateContractState.units_required_total c);
      destruct (NegotiateContractState.largest_ship_capacity ctx
                  <? NegotiateContractState.max_delivery_size c);
      cbn [andb length]; split; lia.
Qed.

Lemma filter_nonempty_iff_existsb {A} (p : A -> bool) (l : list A) :
  (0 <? Z.of_nat (length (List.filter p l))) = existsb p l.
Proof.
  induction l as [|a l IH]; cbn; [reflexivity |].
  destruct (p a); cbn [length orb]; [| exact IH].
  apply Z.ltb_lt. lia.
Qed.

Lemma filter_and_shorter {A} (p q : A -> bool) (l : list A) :
  (length (List.filter (fun a => q a && p a) l) <= length (List.filter p l))%nat.
Proof.
  induction l as [|a l IH]; cbn; [lia |].
  destruct (p a), (q a); cbn; lia.
Qed.

(** What the analysis answers: ACQUIRE_RESOURCES when some contract asks
    for more units than the fleet holds, the agent has more than 50000
    credits, and the cooldown is over; NEGOTIATE_CONTRACT otherwise. *)
Lemma analyze_filtering_reasons_value
    (clock : Clock) (ctx : AgentContext.t) (contracts : list Contract.t) :
  AgentContext.agent_data ctx = None
  \/ is_Some (AgentContext.strategy_config ctx !! "safety_credit_reserve") ->
  NegotiateContractState._analyze_filtering_reasons clock ctx contracts
  = Py.Ok (if existsb (fun c => AgentContext.get_total_cargo_capacity ctx
                                <? NegotiateContractState.units_required_total c)
                      contracts
              && NegotiateContractState.can_afford_ship ctx
              && NegotiateContractState.cooldown_over clock ctx
           then ACQUIRE_RESOURCES else NEGOTIATE_CONTRACT).
Proof.
  intros Hcfg. unfold NegotiateContractState._analyze_filtering_reasons.
  destruct contracts as [|c rest]; [reflexivity |].
  destruct (count_loop_value ctx (AgentContext.get_total_cargo_capacity ctx) (c :: rest)
              {| NegotiateContractState.capacity_issues := 0;
                 NegotiateContractState.credit_issues := 0;
                 NegotiateContractState.ship_size_issues := 0 |} Hcfg)
    as (n' & -> & Hcap & Hsize).
  cbn [mbind result_bind Py.bind].
  cbn [NegotiateContractState.capacity_issues NegotiateContractState.ship_size_issues] in Hcap, Hsize.
  rewrite Z.add_0_l in Hcap, Hsize.
  pose proof (filter_and_shorter
                (fun c => AgentContext.get_total_cargo_capacity ctx
                          <? NegotiateContractState.units_required_total c)
                (fun c => NegotiateContractState.largest_ship_capacity ctx
                          <? NegotiateContractState.max_delivery_size c)
                (c :: rest)) as Hshort.
  rewrite <- (filter_nonempty_iff_existsb _ (c :: rest)), <- Hcap.
  assert (Hor : (0 <? NegotiateContractState.capacity_issues n')
                || (0 <? NegotiateContractState.ship_size_issues n')
                = (0 <? NegotiateContractState.capacity_issues n')).
  { destruct (0 <? NegotiateContractState.capacity_issues n') eqn:E; [reflexivity |].
    apply Z.ltb_ge in E. cbn [orb]. apply Z.ltb_ge. lia. }
  rewrite Hor.
  destruct (0 <? NegotiateContractState.capacity_issues n'); [| reflexivity].
  destruct (NegotiateContractState.can_afford_ship ctx); [| reflexivity].
  destruct (NegotiateContractState.cooldown_over clock ctx); reflexivity.
Qed.

Lemma can_afford_ship_iff (ctx : AgentContext.t) :
  NegotiateContractState.can_afford_ship ctx = true
  <-> exists agent : AgentData.t,
        AgentContext.agent_data ctx = Some agent /\ 50000 < AgentData.credits agent.
Proof.
  unfold NegotiateContractState.can_afford_ship.
  destruct (AgentContext.agent_data ctx) as [agent|].
  - rewrite Z.ltb_lt. split.
    + intros H. exists agent. split; [reflexivity | exact H].
    + intros (a & Ha & H). injection Ha as <-. exact H.
  - split; [discriminate | intros (a & Ha & _); discriminate].
Qed.

Lemma cooldown_over_iff (clock : Clock) (ctx : AgentContext.t) :
  NegotiateContractState.cooldown_over clock ctx = true
  <-> Py.truthy (get (AgentContext.strategy_config ctx !! "acquire_failed")
                     (Py.VBool false)) = false
      \/ (3600 < time_time clock
                 - Py.num (get (AgentContext.strategy_config ctx !! "last_acquire_attempt")
                               (Py.VInt 0)))%Q.
Proof.
  unfold NegotiateContractState.cooldown_over.
  rewrite orb_true_iff, negb_true_iff, lt_true. reflexivity.
Qed.

(** The test of the available contracts, by the flags and the datetime
    that decides expiry. *)
Lemma is_available_value (clock : Clock) (c : Contract.t) :
  NegotiateContractState.is_available clock c
  = if Contract.accepted c || Contract.fulfilled c then Py.Ok false
    else if aware (expiry_datetime c) then Py.Raise Py.TypeError
    else Py.Ok (negb (timestamp (expiry_datetime c) <? datetime_now clock)).
Proof.
  unfold NegotiateContractState.is_available. rewrite is_expired_by_instant.
  destruct (Contract.accepted c), (Contract.fulfilled c); try reflexivity.
  cbn [negb orb]. destruct (aware (expiry_datetime c)); reflexivity.
Qed.

(** When the datetime that decides the expiry of some open contract names
    a time zone, the available contracts cannot be told. *)
Lemma availability_fails_on_zoned_datetimes
    (clock : Clock) (fetched : list Contract.t) (c : Contract.t) :
  In c fetched ->
  Contract.accepted c = false ->
  Contract.fulfilled c = false ->
  aware (expiry_datetime c) = true ->
  Py.filter (NegotiateContractState.is_available clock) fetched
  = Py.Raise Py.TypeError.
Proof.
  intros Hin Haccepted Hfulfilled Hzone.
  apply filter_raises.
  - apply Forall_forall. intros x _. rewrite is_available_value.
    destruct (Contract.accepted x || Contract.fulfilled x);
      [left; eexists; reflexivity |].
    destruct (aware (expiry_datetime x)); [right | left; eexists]; reflexivity.
  - apply List.Exists_exists. exists c. split; [exact Hin |].
    rewrite is_available_value, Haccepted, Hfulfilled, Hzone. reflexivity.
Qed.

(** The available contracts are told unless such a contract is fetched. *)
Lemma availability_is_told_or_fails (clock : Clock) (fetched : list Contract.t) :
  (exists c : Contract.t,
     In c fetched
     /\ Contract.accepted c = false
     /\ Contract.fulfilled c = false
     /\ aware (expiry_datetime c) = true)
  \/ (exists available : list Contract.t,
        Py.filter (NegotiateContractState.is_available clock) fetched = Py.Ok available).
Proof.
  destruct (existsb (fun c => negb (Contract.accepted c || Contract.fulfilled c)
                              && aware (expiry_datetime c)) fetched) eqn:Ezoned.
  - left. apply existsb_exists in Ezoned. destruct Ezoned as (c & Hin & Hc).
    exists c. split; [exact Hin |].
    destruct (Contract.accepted c), (Contract.fulfilled c), (aware (expiry_datetime c));
      try discriminate Hc. repeat split.
  - right. eexists.
    apply (filter_returns _
             (fun c => negb (Contract.accepted c || Contract.fulfilled c)
                       && negb (timestamp (expiry_datetime c) <? datetime_now clock))).
    apply List.Forall_forall. intros x Hx. rewrite is_available_value.
    destruct (Contract.accepted x || Contract.fulfilled x) eqn:Eflags; [reflexivity |].
    destruct (aware (expiry_datetime x)) eqn:Eaware; [| reflexivity].
    exfalso.
    assert (Htrue : existsb (fun c => negb (Contract.accepted c || Contract.fulfilled c)
                                      && aware (expiry_datetime c)) fetched = true).
    { apply existsb_exists. exists x. split; [exact Hx |].
      rewrite Eflags, Eaware. reflexivity. }
    congruence.
Qed.

(** C4, what the code does. When the contracts are fetched and the
    datetime that decides the expiry of some contract that is neither
    accepted nor fulfilled names a time zone, as the timestamps of the API
    do, the negotiator returns ERROR_RECOVERY; when no such contract is
    fetched, the available contracts are told. When the available contracts
    are told, no contract survives the capability filter, and the safety
    reserve is configured or there is no agent snapshot, the negotiator
    returns ACQUIRE_RESOURCES if and only if at least one available
    contract asks for more units than the total cargo capacity of the fleet,
    the agent has more than 50000 credits, and no acquisition is on record
    as failed or the last attempt is more than 3600 seconds old, however
    many contracts are rejected for want of credits; in every other case it
    returns NEGOTIATE_CONTRACT, after a sleep of 10 seconds when no contract
    is available and of 30 seconds otherwise. The context is left as it
    was. *)
Theorem empty_selection_diagnosis
    (api : Api.client) (clock : Clock) (ctx : AgentContext.t)
    (contracts_data : list Json.contract) :
  Api.get_my_contracts api = Api.Answer contracts_data ->
  let fetched := map (Contract.from_api_response (datetime_parsed clock)) contracts_data in
  let outcome := run (NegotiateContractState.execute api clock) ctx in
  (forall c : Contract.t,
     In c fetched ->
     Contract.accepted c = false ->
     Contract.fulfilled c = false ->
     aware (expiry_datetime c) = true ->
     outcome = (Py.Ok ERROR_RECOVERY, {| context := ctx; slept := [] |}))
  /\ ((exists c : Contract.t,
         In c fetched
         /\ Contract.accepted c = false
         /\ Contract.fulfilled c = false
         /\ aware (expiry_datetime c) = true)
      \/ (exists available : list Contract.t,
            Py.filter (NegotiateContractState.is_available clock) fetched
            = Py.Ok available))
  /\ (forall available : list Contract.t,
        Py.filter (NegotiateContractState.is_available clock) fetched = Py.Ok available ->
        NegotiateContractState._filter_contracts_by_capabilities ctx available
        = Py.Ok [] ->
        AgentContext.agent_data ctx = None
        \/ is_Some (AgentContext.strategy_config ctx !! "safety_credit_reserve") ->
        (fst outcome = Py.Ok ACQUIRE_RESOURCES
         <-> (exists c : Contract.t,
                In c available
                /\ AgentContext.get_total_cargo_capacity ctx
                   < NegotiateContractState.units_required_total c)
             /\ (exists agent : AgentData.t,
                   AgentContext.agent_data ctx = Some agent
                   /\ 50000 < AgentData.credits agent)
             /\ (Py.truthy (get (AgentContext.strategy_config ctx !! "acquire_failed")
                                (Py.VBool false)) = false
                 \/ (3600 < time_time clock
                            - Py.num (get (AgentContext.strategy_config ctx
                                             !! "last_acquire_attempt") (Py.VInt 0)))%Q))
        /\ (fst outcome = Py.Ok ACQUIRE_RESOURCES /\ slept (snd outcome) = []
            \/ fst outcome = Py.Ok NEGOTIATE_CONTRACT
               /\ slept (snd outcome)
                  = [match available with [] => 10 | _ :: _ => 30 end])
        /\ context (snd outcome) = ctx).
Proof.
  intros Hcontracts fetched outcome. split.
  { intros c Hin Haccepted Hfulfilled Hzone. subst outcome.
    unfold NegotiateContractState.execute, NegotiateContractState._get_available_contracts.
    unfold_monad. rewrite Hcontracts. cbn [Api.call]. fold fetched.
    rewrite (availability_fails_on_zoned_datetimes clock fetched c
               Hin Haccepted Hfulfilled Hzone).
    reflexivity. }
  split; [apply availability_is_told_or_fails |].
  intros available Havailable Hfilter Hcfg.
  set (wanted :=
         existsb (fun c => AgentContext.get_total_cargo_capacity ctx
                           <? NegotiateContractState.units_required_total c) available
         && NegotiateContractState.can_afford_ship ctx
         && NegotiateContractState.cooldown_over clock ctx).
  assert (Hout : outcome
                 = (Py.Ok (if wanted then ACQUIRE_RESOURCES else NEGOTIATE_CONTRACT),
                    {| context := ctx;
                       slept := if wanted then []
                                else [match available with [] => 10 | _ :: _ => 30 end] |})).
  { subst outcome.
    unfold NegotiateContractState.execute, NegotiateContractState._get_available_contracts.
    unfold_monad. rewrite Hcontracts. cbn [Api.call]. fold fetched. rewrite Havailable.
    destruct available as [|c rest] eqn:Eavailable; [reflexivity |].
    cbn [context].
    rewrite Hfilter, (analyze_filtering_reasons_value clock ctx (c :: rest) Hcfg).
    fold wanted. destruct wanted; reflexivity. }
  rewrite Hout. cbn [fst snd context slept].
  split; [| split; [| reflexivity]].
  - rewrite <- can_afford_ship_iff, <- cooldown_over_iff.
    assert (Hex : existsb (fun c => AgentContext.get_total_cargo_capacity ctx
                              <? NegotiateContractState.units_required_total c) available
                  = true
                  <-> exists c : Contract.t,
                        In c available
                        /\ AgentContext.get_total_cargo_capacity ctx
                           < NegotiateContractState.units_required_total c).
    { rewrite existsb_exists. split; intros (c & Hin & H); exists c; split;
        try exact Hin; apply Z.ltb_lt; exact H. }
    rewrite <- Hex. unfold wanted.
    destruct (existsb _ available), (NegotiateContractState.can_afford_ship ctx),
      (NegotiateContractState.cooldown_over clock ctx); cbn;
      (split;
       [ intros H; try discriminate H; repeat split
       | intros (H1 & H2 & H3); try reflexivity; discriminate ]).
  - destruct wanted; [left | right]; split; reflexivity.
Qed.

(** C4, at a fleet of one ship of 40 units and 60000 credits, when the API
    lists one offer of 50 units and five offers that cost too much. No
    offer survives the filter; the capacity cause and the ship-size cause
    are counted once each and the credit cause five times, so neither
    dominates; the negotiator returns ACQUIRE_RESOURCES all the same. *)
Lemma acquisition_without_dominant_capacity_cause :
  let ctx := context_with 60000 [ship_at "SHIP-1" "X1-DF55-A1" 40] in
  let available := map (Contract.from_api_response (datetime_parsed clock_0)) six_offers in
  let counted :=
    {| NegotiateContractState.capacity_issues := 1;
       NegotiateContractState.credit_issues := 5;
       NegotiateContractState.ship_size_issues := 1 |} in
  NegotiateContractState._filter_contracts_by_capabilities ctx available = Py.Ok []
  /\ NegotiateContractState.count_loop ctx 40
       {| NegotiateContractState.capacity_issues := 0;
          NegotiateContractState.credit_issues := 0;
          NegotiateContractState.ship_size_issues := 0 |} available
     = Py.Ok counted
  /\ causes_dominate counted = false
  /\ fst (run (NegotiateContractState.execute
                 (answering_api (json_agent 60000) [] six_offers [] no_yard None)
                 clock_0) ctx)
     = Py.Ok ACQUIRE_RESOURCES.
Proof.
  intros ctx available counted.
  split; [reflexivity |]. split; [reflexivity |]. split; [reflexivity |].
  destruct (empty_selection_diagnosis
              (answering_api (json_agent 60000) [] six_offers [] no_yard None) clock_0
              ctx six_offers eq_refl) as (_ & _ & Hdiagnosis).
  apply (proj1 (Hdiagnosis available eq_refl eq_refl
                  (or_intror (ex_intro _ (Py.VInt 10000) eq_refl)))).
  split; [| split].
  - eexists. split; [left; reflexivity | vm_compute; reflexivity].
  - eexists. split; [reflexivity | vm_compute; reflexivity].
  - left. reflexivity.
Defined.

(** ** Selection of a contract *)

(** A score above zero comes from the last branch, which subtracts
    [datetime.now()] from the deadline: the deadline names no time zone. *)
Lemma positive_score_has_local_deadline
    (now : Z) (c : Contract.t) (cap cost : Z) (score : Q) :
  Contract.calculate_profitability_score now c cap cost = Py.Ok score ->
  Py.lt 0 score = true ->
  aware (ContractTerms.deadline (Contract.terms c)) = false.
Proof.
  unfold Contract.calculate_profitability_score, datetime_sub.
  destruct (Contract.is_expired now c) as [expired| |]; cbn [mbind result_bind Py.bind];
    try discriminate.
  destruct expired; [intros [= <-]; discriminate |].
  destruct (cap <? _); [intros [= <-]; discriminate |].
  destruct (_ <=? 0); [intros [= <-]; discriminate |].
  cbv zeta. cbn [naive aware].
  destruct (aware (ContractTerms.deadline (Contract.terms c)));
    [discriminate | reflexivity].
Qed.

Lemma map_returns_In {A B} (f : A -> Py.result B) (xs : list A) (ys : list B) (y : B) :
  Py.map f xs = Py.Ok ys -> In y ys -> exists x, In x xs /\ f x = Py.Ok y.
Proof.
  revert ys. induction xs as [|x xs IH]; intros ys; cbn [Py.map].
  - intros [= <-] [].
  - destruct (f x) as [b| |] eqn:Efx; cbn [Py.bind]; try discriminate.
    destruct (Py.map f xs) as [bs| |]; cbn [Py.bind]; try discriminate.
    intros [= <-] [<- | Hin].
    + exists x. split; [left; reflexivity | exact Efx].
    + destruct (IH bs eq_refl Hin) as (x' & Hx' & Hfx').
      exists x'. split; [right; exact Hx' | exact Hfx'].
Qed.

Lemma insert_by_score_In (x y : NegotiateContractState.scored)
    (l : list NegotiateContractState.scored) :
  In y (NegotiateContractState.insert_by_score x l) -> y = x \/ In y l.
Proof.
  induction l as [|z l IH]; cbn [NegotiateContractState.insert_by_score].
  - intros [<- | []]. left. reflexivity.
  - destruct (Py.lt _ _).
    + intros [<- | Hin]; [right; left; reflexivity |].
      destruct (IH Hin) as [-> | H]; [left; reflexivity | right; right; exact H].
    + intros [<- | Hin]; [left; reflexivity | right; exact Hin].
Qed.

Lemma sort_by_score_In (y : NegotiateContractState.scored)
    (l : list NegotiateContractState.scored) :
  In y (NegotiateContractState.sort_by_score l) -> In y l.
Proof.
  unfold NegotiateContractState.sort_by_score.
  induction l as [|x l IH]; cbn [fold_right]; [intros [] |].
  intros H. destruct (insert_by_score_In _ _ _ H) as [-> | Hin];
    [left; reflexivity | right; apply IH; exact Hin].
Qed.

(** The contract selected has a deadline that names no time zone. *)
Lemma select_best_contract_has_local_deadline
    (clock : Clock) (ctx : AgentContext.t) (contracts : list Contract.t)
    (best : Contract.t) :
  NegotiateContractState._select_best_contract clock ctx contracts = Py.Ok (Some best) ->
  aware (ContractTerms.deadline (Contract.terms best)) = false.
Proof.
  unfold NegotiateContractState._select_best_contract.
  destruct contracts as [|c rest]; [discriminate |].
  cbv zeta.
  destruct (Py.map _ (c :: rest)) as [contract_scores| |] eqn:Escores;
    cbn [mbind result_bind Py.bind]; try discriminate.
  destruct (NegotiateContractState.sort_by_score contract_scores)
    as [|[[best_contract best_score] best_cost] others] eqn:Esorted; [discriminate |].
  destruct (Py.lt 0 best_score) eqn:Epositive; [| discriminate].
  intros [= <-].
  assert (Hin : In (best_contract, best_score, best_cost) contract_scores)
    by (apply sort_by_score_In; rewrite Esorted; left; reflexivity).
  destruct (map_returns_In _ _ _ _ Escores Hin) as (x & _ & Hx).
  cbv beta zeta in Hx.
  destruct (Contract.calculate_profitability_score _ x _ _) as [score| |] eqn:Escore;
    cbn [mbind result_bind Py.bind] in Hx; try discriminate.
  injection Hx as -> -> _.
  exact (positive_score_has_local_deadline _ _ _ _ _ Escore Epositive).
Qed.

(** The negotiation never returns ACCEPT_CONTRACT: a contract is selected
    for a score above zero, computed from the time between its deadline and
    [datetime.now()], and the details of the contract selected are logged
    with the time between its deadline and [datetime.now(timezone.utc)];
    one of the two subtractions raises TypeError. *)
Lemma negotiation_never_accepts
    (api : Api.client) (clock : Clock) (ctx : AgentContext.t) :
  fst (run (NegotiateContractState.execute api clock) ctx) <> Py.Ok ACCEPT_CONTRACT.
Proof.
  unfold NegotiateContractState.execute, NegotiateContractState._get_available_contracts.
  unfold_monad.
  destruct (Api.call (Api.get_my_contracts api)) as [contracts_data| |];
    [| discriminate | discriminate].
  destruct (Py.filter _ _) as [available| |]; [| discriminate | discriminate].
  destruct available as [|c rest]; [discriminate |].
  cbn [context].
  destruct (NegotiateContractState._filter_contracts_by_capabilities ctx (c :: rest))
    as [suitable| |]; [| discriminate | discriminate].
  destruct suitable as [|s others].
  - destruct (NegotiateContractState._analyze_filtering_reasons clock ctx (c :: rest))
      as [next| |]; [| discriminate | discriminate].
    destruct next; discriminate.
  - destruct (NegotiateContractState._select_best_contract clock ctx (s :: others))
      as [[best|]| |] eqn:Ebest; [| discriminate | discriminate | discriminate].
    apply select_best_contract_has_local_deadline in Ebest.
    unfold NegotiateContractState._log_contract_details, datetime_sub.
    rewrite Ebest. discriminate.
Qed.

(** ** Acquisition of resources *)

(** The capacity of the fleet is below the target, whatever the fleet. *)
Lemma capacity_below_target (ctx : AgentContext.t) :
  (AgentContext.get_total_cargo_capacity ctx
   <? Z.max 60 (AgentContext.get_total_cargo_capacity ctx + 20)) = true.
Proof. apply Z.ltb_lt. lia. Qed.

Lemma analysis_needs_capacity (ctx : AgentContext.t) :
  AcquireResourcesState.need_resources (AcquireResourcesState._analyze_resource_needs ctx)
  = true
  /\ AcquireResourcesState.need_cargo_capacity
       (AcquireResourcesState._analyze_resource_needs ctx) = true
  /\ AcquireResourcesState.min_cargo_needed
       (AcquireResourcesState._analyze_resource_needs ctx)
     = Z.max 60 (AgentContext.get_total_cargo_capacity ctx + 20)
       - AgentContext.get_total_cargo_capacity ctx.
Proof.
  unfold AcquireResourcesState._analyze_resource_needs.
  rewrite capacity_below_target.
  destruct (List.filter _ (AgentContext.ships ctx)); repeat split.
Qed.

(** The handler goes on to the search for shipyards, whatever the world it
    starts from. *)
Lemma execute_goes_on_to_acquire
    (api : Api.client) (clock : Clock) (fuel : nat) (w : World) :
  AcquireResourcesState.execute api clock fuel w
  = try_except
      (AcquireResourcesState.acquire api clock fuel
         (AcquireResourcesState._analyze_resource_needs (context w)))
      (fun e => mret ERROR_RECOVERY) w.
Proof.
  unfold AcquireResourcesState.execute. unfold_monad.
  destruct (analysis_needs_capacity (context w)) as (-> & _).
  reflexivity.
Qed.

(** C10. For every context the analysis of the needs reports that resources
    are needed and that cargo capacity is needed: the capacity of the fleet
    is less than the target, the larger of 60 and that capacity plus 20, and
    the capacity asked for is their difference. The handler therefore never
    returns at its test of the needs: started from any world, it does what
    its steps from the search for shipyards onward do. *)
Theorem resources_are_always_needed
    (api : Api.client) (clock : Clock) (fuel : nat) (ctx : AgentContext.t) :
  let needs := AcquireResourcesState._analyze_resource_needs ctx in
  AcquireResourcesState.need_resources needs = true
  /\ AcquireResourcesState.need_cargo_capacity needs = true
  /\ AcquireResourcesState.current_capacity needs
     = AgentContext.get_total_cargo_capacity ctx
  /\ AcquireResourcesState.target_capacity needs
     = Z.max 60 (AcquireResourcesState.current_capacity needs + 20)
  /\ AcquireResourcesState.current_capacity needs
     < AcquireResourcesState.target_capacity needs
  /\ AcquireResourcesState.min_cargo_needed needs
     = AcquireResourcesState.target_capacity needs
       - AcquireResourcesState.current_capacity needs
  /\ (forall already_slept : list Z,
        AcquireResourcesState.execute api clock fuel
          {| context := ctx; slept := already_slept |}
        = try_except (AcquireResourcesState.acquire api clock fuel needs)
            (fun e => mret ERROR_RECOVERY)
            {| context := ctx; slept := already_slept |}).
Proof.
  intros needs.
  destruct (analysis_needs_capacity ctx) as (Hneed & Hcargo & Hmin).
  assert (Hcur : AcquireResourcesState.current_capacity needs
                 = AgentContext.get_total_cargo_capacity ctx).
  { unfold needs, AcquireResourcesState._analyze_resource_needs.
    rewrite capacity_below_target.
    destruct (List.filter _ (AgentContext.ships ctx)); reflexivity. }
  assert (Htar : AcquireResourcesState.target_capacity needs
                 = Z.max 60 (AgentContext.get_total_cargo_capacity ctx + 20)).
  { unfold needs, AcquireResourcesState._analyze_resource_needs.
    rewrite capacity_below_target.
    destruct (List.filter _ (AgentContext.ships ctx)); reflexivity. }
  repeat split.
  - exact Hneed.
  - exact Hcargo.
  - exact Hcur.
  - rewrite Htar, Hcur. reflexivity.
  - rewrite Htar, Hcur. lia.
  - rewrite Htar, Hcur. exact Hmin.
  - intros already_slept. apply execute_goes_on_to_acquire.
Qed.

Lemma mark_acquire_failed_records (clock : Clock) (ctx : AgentContext.t) :
  failure_recorded clock ctx (AcquireResourcesState.mark_acquire_failed clock ctx).
Proof.
  unfold failure_recorded, AcquireResourcesState.mark_acquire_failed,
    AgentContext.set_strategy_config.
  cbn [AgentContext.strategy_config AgentContext.agent_data
       AgentContext.current_contract AgentContext.ships
       AgentContext.performance_metrics].
  repeat split.
  - apply lookup_insert_eq.
  - rewrite lookup_insert_ne by discriminate. apply lookup_insert_eq.
  - intros key H1 H2.
    rewrite lookup_insert_ne by congruence.
    rewrite lookup_insert_ne by congruence. reflexivity.
Qed.

Lemma no_stock_filter (shipyards : list AcquireResourcesState.shipyard) :
  Forall (fun sy => Json.ships (AcquireResourcesState.shipyard_data sy) = []) shipyards ->
  List.filter AcquireResourcesState.has_stock shipyards = [].
Proof.
  induction 1 as [|sy rest Hsy _ IH]; [reflexivity |].
  cbn. unfold AcquireResourcesState.has_stock at 1. rewrite Hsy. exact IH.
Qed.

(** C8. When the search finds no shipyard, the handler records a failed
    acquisition with its instant in the strategy configuration, sleeps 60
    seconds and returns NEGOTIATE_CONTRACT; when it finds shipyards of which
    none has a ship in stock, it records the same, sleeps 300 seconds and
    returns NEGOTIATE_CONTRACT. Nothing else of the context changes. *)
Theorem shipyard_search_failure
    (api : Api.client) (clock : Clock) (fuel : nat) (ctx : AgentContext.t)
    (shipyards : list AcquireResourcesState.shipyard) :
  AcquireResourcesState._find_shipyards api fuel ctx = Py.Ok shipyards ->
  let outcome := run (AcquireResourcesState.execute api clock fuel) ctx in
  (shipyards = [] ->
   fst outcome = Py.Ok NEGOTIATE_CONTRACT
   /\ slept (snd outcome) = [60]
   /\ failure_recorded clock ctx (context (snd outcome)))
  /\ (shipyards <> [] ->
      Forall (fun sy => Json.ships (AcquireResourcesState.shipyard_data sy) = [])
             shipyards ->
      fst outcome = Py.Ok NEGOTIATE_CONTRACT
      /\ slept (snd outcome) = [300]
      /\ failure_recorded clock ctx (context (snd outcome))).
Proof.
  intros Hfind outcome. subst outcome. unfold run.
  rewrite execute_goes_on_to_acquire.
  unfold AcquireResourcesState.acquire. unfold_monad. cbn [context].
  rewrite Hfind.
  split.
  - intros ->. cbn. repeat split; apply mark_acquire_failed_records.
  - intros Hsome Hstock.
    destruct shipyards as [|sy rest]; [contradiction |].
    rewrite (no_stock_filter _ Hstock). cbn.
    repeat split; apply mark_acquire_failed_records.
Qed.

(** C8, in a system whose only waypoint has no shipyard, and in a system
    whose shipyard has nothing in stock. *)
Lemma shipyard_search_failure_delays :
  slept (snd (run (AcquireResourcesState.execute
                     (answering_api (json_agent 60000) [] [] [plain_waypoint] no_yard None)
                     clock_0 1%nat)
                  (context_with 60000 [ship_at "SHIP-1" "X1-DF55-A1" 40])))
  = [60]
  /\ slept (snd (run (AcquireResourcesState.execute
                        (answering_api (json_agent 60000) [] [] [shipyard_waypoint]
                           no_yard None)
                        clock_0 1%nat)
                     (context_with 60000 [ship_at "SHIP-1" "X1-DF55-A1" 40])))
     = [300].
Proof.
  split.
  - apply (proj1 (shipyard_search_failure
                    (answering_api (json_agent 60000) [] [] [plain_waypoint] no_yard None)
                    clock_0 1%nat (context_with 60000 [ship_at "SHIP-1" "X1-DF55-A1" 40])
                    [] eq_refl) eq_refl).
  - refine (proj1 (proj2 (proj2 (shipyard_search_failure
                    (answering_api (json_agent 60000) [] [] [shipyard_waypoint] no_yard None)
                    clock_0 1%nat (context_with 60000 [ship_at "SHIP-1" "X1-DF55-A1" 40])
                    _ eq_refl) _ _))).
    + discriminate.
    + repeat constructor.
Defined.

(** ** Selection of a ship to purchase *)

(** The body of the selection loop, on an offer with its shipyard. *)
Lemma consider_offer_cases (spendable : Q) (min_cargo_needed : Z)
    (sy : AcquireResourcesState.shipyard) (b : AcquireResourcesState.best)
    (ship_info : Json.ship_offer) :
  (qualifies spendable min_cargo_needed ship_info
   /\ AcquireResourcesState.consider_offer spendable min_cargo_needed sy b ship_info
      = if Py.lt (AcquireResourcesState.best_value b)
                 (AcquireResourcesState.offer_value ship_info)
        then {| AcquireResourcesState.best_ship := Some (ship_info, sy);
                AcquireResourcesState.best_value :=
                  AcquireResourcesState.offer_value ship_info |}
        else b)
  \/ (~ qualifies spendable min_cargo_needed ship_info
      /\ AcquireResourcesState.consider_offer spendable min_cargo_needed sy b ship_info
         = b).
Proof.
  unfold AcquireResourcesState.consider_offer, qualifies.
  destruct (Py.lt spendable _) eqn:Eprice.
  { right. apply lt_true in Eprice. split; [| reflexivity].
    intros (H & _). apply Qle_not_lt in H. contradiction. }
  apply lt_false in Eprice.
  destruct (AcquireResourcesState.offer_capacity ship_info <=? 0) eqn:Ezero.
  { right. apply Z.leb_le in Ezero. split; [| reflexivity]. intros (_ & H & _). lia. }
  apply Z.leb_gt in Ezero.
  destruct (AcquireResourcesState.offer_capacity ship_info <? min_cargo_needed) eqn:Emin.
  { right. apply Z.ltb_lt in Emin. split; [| reflexivity]. intros (_ & _ & H). lia. }
  apply Z.ltb_ge in Emin.
  left. split; [repeat split; assumption | reflexivity].
Qed.

(** An offer with cargo capacity is worth more than nothing. *)
Lemma offer_value_pos (ship_info : Json.ship_offer) :
  0 < AcquireResourcesState.offer_capacity ship_info ->
  (0 < AcquireResourcesState.offer_value ship_info)%Q.
Proof.
  intros H. unfold AcquireResourcesState.offer_value, Py.truediv, Qdiv.
  apply Qmult_lt_0_compat; [apply inject_Z_pos; exact H |].
  apply Qinv_lt_0_compat, inject_Z_pos. lia.
Qed.

(** For a price of one credit or more the value is the capacity per credit
    of the price. *)
Lemma offer_value_is_density (ship_info : Json.ship_offer) :
  1 <= AcquireResourcesState.offer_price ship_info ->
  AcquireResourcesState.offer_value ship_info = value_density ship_info.
Proof.
  intros H. unfold AcquireResourcesState.offer_value, value_density, Py.truediv.
  rewrite Z.max_l by exact H. reflexivity.
Qed.

(** The two nested loops are one loop over the offers in the order met. *)
Lemma select_ship_is_one_loop (spendable : Q) (min_cargo_needed : Z)
    (shipyards : list AcquireResourcesState.shipyard) (b : AcquireResourcesState.best) :
  fold_left (AcquireResourcesState.consider_shipyard spendable min_cargo_needed)
            shipyards b
  = fold_left (fun b p =>
                 AcquireResourcesState.consider_offer spendable min_cargo_needed
                   (snd p) b (fst p))
              (offers_of shipyards) b.
Proof.
  revert b. induction shipyards as [|sy rest IH]; intros b; [reflexivity |].
  cbn [fold_left offers_of flat_map]. rewrite fold_left_app, IH. f_equal.
  unfold AcquireResourcesState.consider_shipyard.
  generalize (Json.ships (AcquireResourcesState.shipyard_data sy)) b.
  induction l as [|o os IHo]; intros b'; [reflexivity |].
  cbn [fold_left map fst snd]. apply IHo.
Qed.

(** One more offer met: the selection is still the selection. *)
Lemma selection_step (spendable : Q) (min_cargo_needed : Z)
    (met : list (Json.ship_offer * AcquireResourcesState.shipyard))
    (b : AcquireResourcesState.best)
    (p : Json.ship_offer * AcquireResourcesState.shipyard) :
  selection_of spendable min_cargo_needed met b ->
  selection_of spendable min_cargo_needed (met ++ [p])
    (AcquireResourcesState.consider_offer spendable min_cargo_needed (snd p) b (fst p)).
Proof.
  intros Hsel. destruct p as [o sy]. cbn [fst snd].
  destruct (consider_offer_cases spendable min_cargo_needed sy b o)
    as [[Hq ->] | [Hnq ->]].
  - (* the offer qualifies *)
    unfold selection_of in Hsel.
    destruct (AcquireResourcesState.best_ship b) as [chosen|] eqn:Ebest.
    + destruct Hsel as (Hval & Hchosen & before & after & -> & Hbefore & Hafter).
      rewrite Hval.
      destruct (Py.lt _ _) eqn:Elt.
      * apply lt_true in Elt. unfold selection_of. cbn.
        split; [reflexivity |]. split; [exact Hq |].
        exists (before ++ chosen :: after), []. split; [reflexivity |]. split.
        -- intros q Hin Hqq. apply in_app_or in Hin. destruct Hin as [Hin | [<- | Hin]].
           ++ apply Qlt_trans with (AcquireResourcesState.offer_value (fst chosen));
                [apply Hbefore; assumption | exact Elt].
           ++ exact Elt.
           ++ apply Qle_lt_trans with (AcquireResourcesState.offer_value (fst chosen));
                [apply Hafter; assumption | exact Elt].
        -- intros q [].
      * apply lt_false in Elt. unfold selection_of. rewrite Ebest.
        split; [exact Hval |]. split; [exact Hchosen |].
        exists before, (after ++ [(o, sy)]). split; [| split].
        -- rewrite <- app_assoc. reflexivity.
        -- exact Hbefore.
        -- intros q Hin Hqq. apply in_app_or in Hin. destruct Hin as [Hin | [<- | []]].
           ++ apply Hafter; assumption.
           ++ exact Elt.
    + destruct Hsel as (Hval & Hnone). rewrite Hval.
      destruct Hq as (Hprice & Hcap & Hmin).
      pose proof (offer_value_pos o Hcap) as Hpos.
      apply lt_true in Hpos. rewrite Hpos.
      unfold selection_of. cbn.
      split; [reflexivity |]. split; [repeat split; assumption |].
      exists met, []. split; [reflexivity |]. split.
      * intros q Hin Hqq. exfalso. exact (Hnone q Hin Hqq).
      * intros q [].
  - (* the offer does not qualify *)
    unfold selection_of in *.
    destruct (AcquireResourcesState.best_ship b) as [chosen|].
    + destruct Hsel as (Hval & Hchosen & before & after & -> & Hbefore & Hafter).
      split; [exact Hval |]. split; [exact Hchosen |].
      exists before, (after ++ [(o, sy)]). split; [| split].
      * rewrite <- app_assoc. reflexivity.
      * exact Hbefore.
      * intros q Hin Hqq. apply in_app_or in Hin. destruct Hin as [Hin | [<- | []]].
        -- apply Hafter; assumption.
        -- contradiction.
    + destruct Hsel as (Hval & Hnone). split; [exact Hval |].
      intros q Hin. apply in_app_or in Hin. destruct Hin as [Hin | [<- | []]].
      * apply Hnone. exact Hin.
      * exact Hnq.
Qed.

(** What the selection loop leaves is the selection among all the offers. *)
Lemma select_ship_selects (spendable : Q) (min_cargo_needed : Z)
    (shipyards : list AcquireResourcesState.shipyard) :
  selection_of spendable min_cargo_needed (offers_of shipyards)
    (AcquireResourcesState.select_ship spendable min_cargo_needed shipyards).
Proof.
  unfold AcquireResourcesState.select_ship. rewrite select_ship_is_one_loop.
  induction (offers_of shipyards) as [|p met IH] using rev_ind.
  - cbn. split; [reflexivity | intros q []].
  - rewrite fold_left_app. cbn [fold_left]. apply selection_step. exact IH.
Qed.

(** C6. Among the offers of all the shipyards, in the order they are met,
    the selection chooses an offer that qualifies (its price is at most the
    credits less the safety reserve, its cargo capacity is positive and at
    least the capacity needed), that is worth more, in cargo capacity per
    credit, than every qualifying offer met before it and no less than every
    qualifying offer met after it: the qualifying offer of greatest value,
    and the first met among equals. The purchase is then executed for that
    offer at its shipyard. Nothing is chosen exactly when no offer
    qualifies, and the purchase is then reported as failed, the context left
    as it was. The value is the cargo capacity divided by the price, the
    price counting for one credit when it is less. *)
Theorem purchase_selection
    (api : Api.client) (ctx : AgentContext.t)
    (shipyards : list AcquireResourcesState.shipyard) (min_cargo_needed : Z)
    (agent : AgentData.t) :
  AgentContext.agent_data ctx = Some agent ->
  let spendable :=
    (inject_Z (AgentData.credits agent)
     - Py.num (get (AgentContext.strategy_config ctx !! "safety_credit_reserve")
                   (Py.VInt 10000)))%Q in
  let chosen :=
    AcquireResourcesState.best_ship
      (AcquireResourcesState.select_ship spendable min_cargo_needed shipyards) in
  (forall p : Json.ship_offer * AcquireResourcesState.shipyard,
     chosen = Some p ->
     qualifies spendable min_cargo_needed (fst p)
     /\ (exists before after,
           offers_of shipyards = before ++ p :: after
           /\ (forall q, In q before ->
                 qualifies spendable min_cargo_needed (fst q) ->
                 (AcquireResourcesState.offer_value (fst q)
                  < AcquireResourcesState.offer_value (fst p))%Q)
           /\ (forall q, In q after ->
                 qualifies spendable min_cargo_needed (fst q) ->
                 (AcquireResourcesState.offer_value (fst q)
                  <= AcquireResourcesState.offer_value (fst p))%Q))
     /\ run (AcquireResourcesState._purchase_cargo_ship api shipyards min_cargo_needed) ctx
        = run (AcquireResourcesState._execute_ship_purchase api (fst p) (snd p)) ctx)
  /\ (chosen = None
      <-> forall q, In q (offers_of shipyards) ->
            ~ qualifies spendable min_cargo_needed (fst q))
  /\ (chosen = None ->
      run (AcquireResourcesState._purchase_cargo_ship api shipyards min_cargo_needed) ctx
      = (Py.Ok false, {| context := ctx; slept := [] |}))
  /\ (forall ship_info : Json.ship_offer,
        1 <= AcquireResourcesState.offer_price ship_info ->
        AcquireResourcesState.offer_value ship_info = value_density ship_info).
Proof.
  intros Hagent spendable chosen.
  pose proof (select_ship_selects spendable min_cargo_needed shipyards) as Hsel.
  unfold selection_of in Hsel. fold chosen in Hsel.
  assert (Hrun : run (AcquireResourcesState._purchase_cargo_ship api shipyards
                        min_cargo_needed) ctx
                 = match chosen with
                   | Some p =>
                       run (AcquireResourcesState._execute_ship_purchase api (fst p) (snd p))
                           ctx
                   | None => (Py.Ok false, {| context := ctx; slept := [] |})
                   end).
  { unfold AcquireResourcesState._purchase_cargo_ship. unfold_monad. cbn [context].
    rewrite Hagent. fold spendable. fold chosen.
    destruct chosen as [[o sy]|]; reflexivity. }
  split; [| split; [| split]].
  - intros p Hp. rewrite Hp in Hsel, Hrun.
    destruct Hsel as (_ & Hq & Hplace).
    split; [exact Hq |]. split; [exact Hplace | exact Hrun].
  - split.
    + intros Hnone. rewrite Hnone in Hsel. apply Hsel.
    + intros Hnone. destruct chosen as [p|]; [| reflexivity].
      destruct Hsel as (_ & Hq & before & after & Hmet & _).
      exfalso. apply (Hnone p); [| exact Hq].
      rewrite Hmet. apply in_or_app. right. left. reflexivity.
  - intros Hnone. rewrite Hnone in Hrun. exact Hrun.
  - apply offer_value_is_density.
Qed.

(** C6, at a shipyard that offers a hauler of 40 units for 30000 credits, a
    shuttle of 40 units for 20000 and a probe of 20 units for 10000, for an
    agent of 60000 credits who needs 20 units: the shuttle is worth as much
    as the probe and is met first; the purchase is executed for it. *)
Lemma shuttle_is_selected :
  run (AcquireResourcesState._purchase_cargo_ship
         (answering_api (json_agent 60000) [] [] [] no_yard None)
         [shipyard_with [hauler; shuttle; probe]] 20)
      (context_with 60000 [ship_at "SHIP-1" "X1-DF55-S1" 40])
  = run (AcquireResourcesState._execute_ship_purchase
           (answering_api (json_agent 60000) [] [] [] no_yard None)
           shuttle (shipyard_with [hauler; shuttle; probe]))
        (context_with 60000 [ship_at "SHIP-1" "X1-DF55-S1" 40]).
Proof.
  exact (proj2 (proj2 (proj1 (purchase_selection
           (answering_api (json_agent 60000) [] [] [] no_yard None)
           (context_with 60000 [ship_at "SHIP-1" "X1-DF55-S1" 40])
           [shipyard_with [hauler; shuttle; probe]] 20
           (AgentData.from_api_response (json_agent 60000)) eq_refl)
         (shuttle, shipyard_with [hauler; shuttle; probe]) eq_refl))).
Defined.

(** ** Execution of a purchase *)

(** Sending a ship to a waypoint answers yes or no and raises nothing. *)
Lemma move_ship_returns (api : Api.client) (ctx : AgentContext.t) (wp : option string) :
  exists b : bool, AcquireResourcesState._move_ship_to_waypoint api ctx wp = Py.Ok b.
Proof.
  unfold AcquireResourcesState._move_ship_to_waypoint.
  destruct (find AcquireResourcesState.can_move (AgentContext.ships ctx)) as [ship|];
    [| eexists; reflexivity].
  destruct (ShipNav.is_docked (Ship.nav ship));
    [destruct (Api.orbit_ship api (Ship.symbol ship)) |];
    cbn; try (eexists; reflexivity);
    destruct (Api.navigate_ship api (Ship.symbol ship) wp); cbn; eexists; reflexivity.
Qed.

(** Without a ship of the fleet at the shipyard nothing is purchased: the
    ship that is sent there is not waited for. *)
Lemma no_purchase_without_ship_at_shipyard
    (api : Api.client) (ctx : AgentContext.t) (ship_info : Json.ship_offer)
    (sy : AcquireResourcesState.shipyard) (already_slept : list Z) :
  AcquireResourcesState._get_ship_at_waypoint ctx
    (AcquireResourcesState.waypoint_symbol sy) = None ->
  AcquireResourcesState._execute_ship_purchase api ship_info sy
    {| context := ctx; slept := already_slept |}
  = (Py.Ok false, {| context := ctx; slept := already_slept |}).
Proof.
  intros Hnone. unfold AcquireResourcesState._execute_ship_purchase.
  unfold_monad. cbn [context]. rewrite Hnone.
  destruct (move_ship_returns api ctx (AcquireResourcesState.waypoint_symbol sy))
    as [b ->].
  destruct b; cbn; [rewrite Hnone |]; reflexivity.
Qed.

(** With a ship of the fleet at the shipyard the purchase is attempted. *)
Lemma purchase_with_ship_at_shipyard
    (api : Api.client) (ctx : AgentContext.t) (ship_info : Json.ship_offer)
    (sy : AcquireResourcesState.shipyard) (already_slept : list Z) (ship : Ship.t) :
  AcquireResourcesState._get_ship_at_waypoint ctx
    (AcquireResourcesState.waypoint_symbol sy) = Some ship ->
  AcquireResourcesState._execute_ship_purchase api ship_info sy
    {| context := ctx; slept := already_slept |}
  = try_except
      (AcquireResourcesState.purchase_and_record api ship_info
         (AcquireResourcesState.waypoint_symbol sy))
      (fun e => mret false)
      {| context := ctx; slept := already_slept |}.
Proof.
  intros Hsome. unfold AcquireResourcesState._execute_ship_purchase.
  unfold_monad. cbn [context]. rewrite Hsome. reflexivity.
Qed.

(** What an attempted purchase does, for each answer of the API. The
    snapshot of the agent is read before the agent payload replaces it:
    without a snapshot that read raises AttributeError, after the ship
    bought has joined the fleet. *)
Lemma purchase_and_record_value
    (api : Api.client) (ship_info : Json.ship_offer) (wp : option string)
    (ctx : AgentContext.t) (already_slept : list Z) (answer : option Json.purchase) :
  Api.purchase_ship api (Json.offer_type ship_info) wp = Api.Answer answer ->
  try_except (AcquireResourcesState.purchase_and_record api ship_info wp)
    (fun e => mret false) {| context := ctx; slept := already_slept |}
  = match answer with
    | None => (Py.Ok false, {| context := ctx; slept := already_slept |})
    | Some data =>
        let with_ship :=
          match Json.purchase_ship data with
          | Some ship_data =>
              AgentContext.set_ships
                (AgentContext.ships ctx ++ [Ship.from_api_response ship_data]) ctx
          | None => ctx
          end in
        match Json.purchase_agent data, AgentContext.agent_data ctx with
        | None, _ => (Py.Ok true, {| context := with_ship; slept := already_slept |})
        | Some agent_data, Some _ =>
            (Py.Ok true,
             {| context := AgentContext.update_agent_data (Some agent_data) with_ship;
                slept := already_slept |})
        | Some agent_data, None =>
            (Py.Ok false, {| context := with_ship; slept := already_slept |})
        end
    end.
Proof.
  intros Hanswer. unfold AcquireResourcesState.purchase_and_record. unfold_monad.
  rewrite Hanswer. cbn [Api.call].
  destruct answer as [data|]; [| reflexivity].
  destruct (Json.purchase_ship data) as [ship_data|],
    (Json.purchase_agent data) as [agent_data|];
    cbn; try reflexivity;
    destruct (AgentContext.agent_data ctx) as [agent|]; reflexivity.
Qed.

(** C1, what the code does. When the answer to the purchase has no ship
    payload, the fleet of the context is unchanged. When the answer is empty
    or has no data, the purchase is reported as failed and the context,
    credits included, is unchanged; so it is when no ship of the fleet is at
    the shipyard, the purchase being then not attempted. When the answer has
    data and a ship of the fleet is at the shipyard, the purchase is
    reported as successful although no ship was bought: without an agent
    payload the context is unchanged; with an agent payload the agent
    snapshot, credits included, is replaced by the one the payload
    describes. Only when the context has no agent snapshot does the agent
    payload make the purchase fail, the context unchanged. *)
Theorem purchase_answer_without_ship
    (api : Api.client) (ctx : AgentContext.t) (ship_info : Json.ship_offer)
    (sy : AcquireResourcesState.shipyard) (answer : option Json.purchase) :
  Api.purchase_ship api (Json.offer_type ship_info)
    (AcquireResourcesState.waypoint_symbol sy) = Api.Answer answer ->
  (forall data : Json.purchase, answer = Some data -> Json.purchase_ship data = None) ->
  let outcome := run (AcquireResourcesState._execute_ship_purchase api ship_info sy) ctx in
  let after := context (snd outcome) in
  AgentContext.ships after = AgentContext.ships ctx
  /\ (answer = None -> fst outcome = Py.Ok false /\ after = ctx)
  /\ (AcquireResourcesState._get_ship_at_waypoint ctx
        (AcquireResourcesState.waypoint_symbol sy) = None ->
      fst outcome = Py.Ok false /\ after = ctx)
  /\ (forall (data : Json.purchase) (ship : Ship.t),
        answer = Some data ->
        AcquireResourcesState._get_ship_at_waypoint ctx
          (AcquireResourcesState.waypoint_symbol sy) = Some ship ->
        (Json.purchase_agent data = None ->
         fst outcome = Py.Ok true /\ after = ctx)
        /\ (forall (agent_data : Json.agent) (agent : AgentData.t),
              Json.purchase_agent data = Some agent_data ->
              AgentContext.agent_data ctx = Some agent ->
              fst outcome = Py.Ok true
              /\ after = AgentContext.update_agent_data (Some agent_data) ctx)
        /\ (forall agent_data : Json.agent,
              Json.purchase_agent data = Some agent_data ->
              AgentContext.agent_data ctx = None ->
              fst outcome = Py.Ok false /\ after = ctx)).
Proof.
  intros Hanswer Hnoship outcome after.
  subst after outcome. unfold run.
  destruct (AcquireResourcesState._get_ship_at_waypoint ctx
              (AcquireResourcesState.waypoint_symbol sy)) as [ship|] eqn:Eat.
  - rewrite (purchase_with_ship_at_shipyard api ctx ship_info sy [] ship Eat).
    rewrite (purchase_and_record_value api ship_info _ ctx [] answer Hanswer).
    destruct answer as [data|].
    + rewrite (Hnoship data eq_refl). cbv zeta.
      destruct (Json.purchase_agent data) as [agent_data|] eqn:Eagent,
        (AgentContext.agent_data ctx) as [agent|] eqn:Esnapshot;
        cbn [fst snd context];
        (split; [reflexivity | split; [discriminate | split; [discriminate |]]]);
        intros d s Hd _; injection Hd as <-; rewrite Eagent;
        (split; [| split]);
        try (intros H; discriminate H);
        try (intros a b H H'; first [discriminate H | discriminate H']);
        try (intros a H H'; first [discriminate H | discriminate H']).
      * intros a b H _. injection H as <-. split; reflexivity.
      * intros a H _. split; reflexivity.
      * intros _. split; reflexivity.
      * intros _. split; reflexivity.
    + cbn. split; [reflexivity | split; [| split; [discriminate |]]].
      * intros _. split; reflexivity.
      * intros d s Hd. discriminate Hd.
  - rewrite (no_purchase_without_ship_at_shipyard api ctx ship_info sy [] Eat).
    cbn. split; [reflexivity | split; [| split]].
    + intros _. split; reflexivity.
    + intros _. split; reflexivity.
    + intros d s _ H. discriminate H.
Qed.

(** C1, at an answer with data, an agent payload of 10 credits and no ship
    payload, when a ship of the fleet is at the shipyard and the agent has
    60000 credits: the purchase is reported as successful and the credits of
    the agent go from 60000 to 10. The fleet is unchanged. *)
Lemma purchase_without_ship_reported_successful :
  let api := answering_api (json_agent 60000) [] [] [] no_yard
               (Some answer_without_ship) in
  let ctx := context_with 60000 [ship_at "SHIP-1" "X1-DF55-S1" 40] in
  let outcome :=
    run (AcquireResourcesState._execute_ship_purchase api shuttle
           (shipyard_with [shuttle])) ctx in
  Json.purchase_ship answer_without_ship = None
  /\ fst outcome = Py.Ok true
  /\ option_map AgentData.credits (AgentContext.agent_data ctx) = Some 60000
  /\ option_map AgentData.credits (AgentContext.agent_data (context (snd outcome)))
     = Some 10
  /\ AgentContext.ships (context (snd outcome)) = AgentContext.ships ctx.
Proof.
  intros api ctx outcome.
  assert (Hnoship : forall data : Json.purchase,
            Some answer_without_ship = Some data -> Json.purchase_ship data = None)
    by (intros data H; injection H as <-; reflexivity).
  destruct (purchase_answer_without_ship api ctx shuttle (shipyard_with [shuttle])
              (Some answer_without_ship) eq_refl Hnoship)
    as (Hfleet & _ & _ & Hdata).
  destruct (Hdata answer_without_ship (ship_at "SHIP-1" "X1-DF55-S1" 40)
              eq_refl eq_refl) as (_ & Hagent & _).
  destruct (Hagent (json_agent 10) _ eq_refl eq_refl) as [Hstate Hafter].
  split; [reflexivity |]. split; [exact Hstate |]. split; [reflexivity |].
  split; [| exact Hfleet].
  fold outcome in Hafter. rewrite Hafter. reflexivity.
Defined.

(** ** The samples in binary64 *)

(** Scenario B scores 3600 in binary64 too. *)
Example scenario_B_in_binary64 :
  Binary64.score 3000 50 5000 (2 * day) = Binary64.of_int 3600.
Proof. vm_compute. reflexivity. Qed.

(** So does the overdue offer score -3600. *)
Example overdue_offer_in_binary64 :
  Binary64.score 3000 50 5000 (- day) = Binary64.of_int (-3600).
Proof. vm_compute. reflexivity. Qed.

(** The tenth of 5005, cut to an integer, is 500 in binary64 too. *)
Example fuel_cost_of_5005_in_binary64 : Binary64.fuel_cost 5005 = 500.
Proof. vm_compute. reflexivity. Qed.

(** * Further properties of the code *)

(** ** Deliveries and contracts *)

Lemma remaining_units_nonneg (d : ContractDelivery.t) :
  0 <= ContractDelivery.remaining_units d.
Proof. unfold ContractDelivery.remaining_units. lia. Qed.

Lemma is_completed_iff_nothing_remains (d : ContractDelivery.t) :
  ContractDelivery.is_completed d = true <-> ContractDelivery.remaining_units d = 0.
Proof.
  unfold ContractDelivery.is_completed, ContractDelivery.remaining_units.
  rewrite Z.leb_le. lia.
Qed.

Lemma sum_nonneg (xs : list Z) : Forall (fun x => 0 <= x) xs -> 0 <= Py.sum xs.
Proof.
  induction 1 as [|x xs Hx _ IH]; [reflexivity |]. rewrite sum_cons. lia.
Qed.

Lemma sum_zero_iff (xs : list Z) :
  Forall (fun x => 0 <= x) xs -> Py.sum xs = 0 <-> Forall (fun x => x = 0) xs.
Proof.
  induction 1 as [|x xs Hx Hxs IH].
  - split; [constructor | reflexivity].
  - rewrite sum_cons. pose proof (sum_nonneg xs Hxs) as Hs. split.
    + intros H. constructor; [lia |]. apply IH. lia.
    + intros H. inversion H as [|? ? H0 Hrest]; subst.
      apply IH in Hrest. lia.
Qed.

(** X1. The units a delivery still needs are never negative and are none
    exactly when the delivery is completed. The units a contract still
    needs, those the profitability score compares with the cargo capacity,
    are never negative and are none exactly when all its deliveries are
    completed. *)
Theorem nothing_needed_iff_deliveries_completed (c : Contract.t) :
  (forall d : ContractDelivery.t,
     0 <= ContractDelivery.remaining_units d
     /\ (ContractDelivery.is_completed d = true
         <-> ContractDelivery.remaining_units d = 0))
  /\ 0 <= Contract.total_units_needed c
  /\ (Contract.all_deliveries_completed c = true
      <-> Contract.total_units_needed c = 0).
Proof.
  split; [| split].
  - intros d. split;
      [apply remaining_units_nonneg | apply is_completed_iff_nothing_remains].
  - unfold Contract.total_units_needed. apply sum_nonneg.
    apply Forall_map, Forall_forall. intros d _. apply remaining_units_nonneg.
  - unfold Contract.total_units_needed, Contract.all_deliveries_completed, Py.all.
    rewrite sum_zero_iff
      by (apply Forall_map, Forall_forall; intros d _; apply remaining_units_nonneg).
    induction (ContractTerms.deliveries (Contract.terms c)) as [|d ds IH]; cbn.
    + split; [constructor | reflexivity].
    + rewrite andb_true_iff, IH, is_completed_iff_nothing_remains. split.
      * intros [H1 H2]. constructor; assumption.
      * intros H. inversion H; subst. split; assumption.
Qed.

Lemma truediv_pos (a b : Z) : 0 < a -> 0 < b -> (0 < Py.truediv a b)%Q.
Proof.
  intros Ha Hb. unfold Py.truediv, Qdiv.
  apply Qmult_lt_0_compat; [apply inject_Z_pos; exact Ha |].
  apply Qinv_lt_0_compat, inject_Z_pos. exact Hb.
Qed.

Lemma Qmult_pos_iff_r (a b : Q) : (0 < a -> (0 < a * b <-> 0 < b))%Q.
Proof.
  intros Ha. split; intros H.
  - destruct (Qlt_le_dec 0 b) as [Hb | Hb]; [exact Hb |].
    exfalso. apply (Qlt_not_le _ _ H).
    rewrite <- (Qmult_0_r a).
    rewrite (Qmult_comm a b), (Qmult_comm a 0).
    apply Qmult_le_compat_r; [exact Hb | apply Qlt_le_weak; exact Ha].
  - apply Qmult_lt_0_compat; assumption.
Qed.

(** The time factor is above zero exactly while the deadline is ahead. *)
Lemma time_factor_pos_iff (now : Z) (c : Contract.t) :
  (0 < Py.min 1 (seconds_to_deadline now c / 86400))%Q
  <-> now < timestamp (ContractTerms.deadline (Contract.terms c)).
Proof.
  set (left := timestamp (ContractTerms.deadline (Contract.terms c)) - now).
  assert (Hs : (0 < seconds_to_deadline now c / 86400)%Q <-> 0 < left).
  { unfold seconds_to_deadline. fold left.
    rewrite (Zlt_Qlt 0 left). change (inject_Z 0) with 0%Q.
    unfold Qdiv. split; intros H.
    - apply (Qmult_lt_r _ _ (/ 1000000 * / 86400)%Q); [reflexivity |].
      rewrite Qmult_0_l, Qmult_assoc. exact H.
    - rewrite <- Qmult_assoc.
      apply Qmult_lt_0_compat; [exact H | reflexivity]. }
  unfold Py.min. destruct (Py.lt _ _) eqn:E.
  - rewrite Hs. subst left. lia.
  - apply lt_false in E. split; [subst left; intros _ |intros _; reflexivity].
    assert (H : (0 < seconds_to_deadline now c / 86400)%Q)
      by (eapply Qlt_le_trans; [| exact E]; reflexivity).
    apply Hs in H. lia.
Qed.

(** X2. For a contract known to be expired or not, whose deadline names no
    time zone, the profitability score is above zero exactly when the
    contract is not expired, the units it still needs fit the cargo
    capacity, the estimated cost is below the total payment, and the
    deadline is still ahead. *)
Theorem score_positive_iff
    (now : Z) (c : Contract.t) (cargo_capacity estimated_cost : Z) (expired : bool) :
  Contract.is_expired now c = Py.Ok expired ->
  aware (ContractTerms.deadline (Contract.terms c)) = false ->
  exists score : Q,
    Contract.calculate_profitability_score now c cargo_capacity estimated_cost
    = Py.Ok score
    /\ ((0 < score)%Q
        <-> expired = false
            /\ Contract.total_units_needed c <= cargo_capacity
            /\ estimated_cost < ContractTerms.total_payment (Contract.terms c)
            /\ now < timestamp (ContractTerms.deadline (Contract.terms c))).
Proof.
  intros Hexp Hnaive.
  eexists. split; [apply (score_value now c _ _ expired Hexp Hnaive) |].
  destruct expired.
  { split; [intros H; discriminate H | intros [H _]; discriminate H]. }
  destruct (cargo_capacity <? Contract.total_units_needed c) eqn:Ecap.
  { apply Z.ltb_lt in Ecap.
    split; [intros H; discriminate H | intros (_ & H & _); lia]. }
  apply Z.ltb_ge in Ecap.
  set (pay := ContractTerms.total_payment (Contract.terms c)).
  destruct (pay - estimated_cost <=? 0) eqn:Eprofit.
  { apply Z.leb_le in Eprofit.
    split; [intros H; discriminate H | intros (_ & _ & H & _); lia]. }
  apply Z.leb_gt in Eprofit.
  assert (Hunit : (0 < Py.truediv (pay - estimated_cost)
                                  (Z.max 1 (Contract.total_units_needed c)))%Q)
    by (apply truediv_pos; lia).
  assert (Hmargin : (0 < Py.truediv (pay - estimated_cost) (Z.max 1 pay))%Q)
    by (apply truediv_pos; lia).
  rewrite <- time_factor_pos_iff.
  set (f := Py.min 1 (seconds_to_deadline now c / 86400)).
  assert (Hprod : (0 < Py.truediv (pay - estimated_cost)
                                  (Z.max 1 (Contract.total_units_needed c))
                       * Py.truediv (pay - estimated_cost) (Z.max 1 pay))%Q)
    by (apply Qmult_lt_0_compat; assumption).
  split.
  - intros H. repeat split; try lia.
    apply (Qmult_pos_iff_r _ f Hprod).
    apply (Qmult_pos_iff_r 100 _ eq_refl).
    rewrite Qmult_comm. exact H.
  - intros (_ & _ & _ & H).
    apply Qmult_lt_0_compat; [| reflexivity].
    apply Qmult_lt_0_compat; assumption.
Qed.

(** X2, at scenario B read at instant 0 for a cargo capacity of 100 and an
    estimated cost of 2000: the score is above zero. *)
Lemma scenario_B_score_is_positive :
  exists score : Q,
    Contract.calculate_profitability_score 0 scenario_B 100 2000 = Py.Ok score
    /\ (0 < score)%Q.
Proof.
  destruct (score_positive_iff 0 scenario_B 100 2000 false eq_refl eq_refl)
    as (score & Hscore & Hiff).
  exists score. split; [exact Hscore |].
  apply Hiff. repeat split; vm_compute; first [reflexivity | discriminate].
Defined.

(** X3. A contract type is read back from the name the API uses for it;
    every other name is read as PROCUREMENT, and so is a contract that
    names no type. *)
Theorem contract_type_round_trip :
  (forall t : ContractType, Contract.parse_type (ContractType_value t) = t)
  /\ (forall s : string,
        (forall t : ContractType, s <> ContractType_value t) ->
        Contract.parse_type s = PROCUREMENT)
  /\ (forall (now : Z) (data : Json.contract) (t : ContractType),
        Json.type data = Some (ContractType_value t) ->
        Contract.contract_type (Contract.from_api_response now data) = t)
  /\ (forall (now : Z) (data : Json.contract),
        Json.type data = None ->
        Contract.contract_type (Contract.from_api_response now data) = PROCUREMENT).
Proof.
  assert (Hback : forall t, Contract.parse_type (ContractType_value t) = t)
    by (intros []; reflexivity).
  split; [exact Hback | split; [| split]].
  - intros s Hs. unfold Contract.parse_type.
    destruct (String.eqb_spec s "PROCUREMENT") as [| _]; [reflexivity |].
    destruct (String.eqb_spec s "TRANSPORT") as [-> | _];
      [destruct (Hs TRANSPORT); reflexivity |].
    destruct (String.eqb_spec s "SHUTTLE") as [-> | _];
      [destruct (Hs SHUTTLE); reflexivity | reflexivity].
  - intros now data t Ht. cbn. rewrite Ht. apply Hback.
  - intros now data Ht. cbn. rewrite Ht. reflexivity.
Qed.

(** ** Ships *)

(** X4. A navigation status is read back from the name the API uses for
    it. A ship whose status is missing or has another name is read as in
    orbit: not in transit, not docked, and at a waypoint. A ship is at a
    waypoint exactly when it is not in transit. *)
Theorem nav_status_round_trip :
  (forall status : ShipNavStatus,
     ShipNav.parse_status (ShipNavStatus_value status) = status)
  /\ (forall data : Json.ship,
        (forall status : ShipNavStatus,
           Json.nav_status (get (Json.ship_nav data) ShipNav.empty)
           <> Some (ShipNavStatus_value status)) ->
        let ship := Ship.from_api_response data in
        ShipNav.status (Ship.nav ship) = IN_ORBIT
        /\ ShipNav.is_in_transit (Ship.nav ship) = false
        /\ ShipNav.is_docked (Ship.nav ship) = false
        /\ Ship.is_at_waypoint ship = true)
  /\ (forall ship : Ship.t,
        Ship.is_at_waypoint ship = negb (ShipNav.is_in_transit (Ship.nav ship))).
Proof.
  split; [intros []; reflexivity | split].
  - intros data Hs ship.
    assert (Hstatus : ShipNav.status (Ship.nav ship) = IN_ORBIT).
    { subst ship. cbn.
      destruct (Json.nav_status (get (Json.ship_nav data) ShipNav.empty)) as [s|];
        [| reflexivity].
      cbn. unfold ShipNav.parse_status.
      destruct (String.eqb_spec s "IN_TRANSIT") as [-> | _];
        [destruct (Hs IN_TRANSIT); reflexivity |].
      destruct (String.eqb_spec s "IN_ORBIT") as [| _]; [reflexivity |].
      destruct (String.eqb_spec s "DOCKED") as [-> | _];
        [destruct (Hs DOCKED); reflexivity | reflexivity]. }
    unfold ShipNav.is_in_transit, ShipNav.is_docked, Ship.is_at_waypoint.
    rewrite Hstatus. repeat split.
  - intros ship. unfold Ship.is_at_waypoint, ShipNav.is_in_transit.
    destruct (ShipNav.status (Ship.nav ship)); reflexivity.
Qed.

Lemma percentage_below_25 (f : ShipFuel.t) :
  0 < ShipFuel.capacity f ->
  ShipFuel.needs_refuel f = true <-> 4 * ShipFuel.current f < ShipFuel.capacity f.
Proof.
  intros Hcap. unfold ShipFuel.needs_refuel, ShipFuel.percentage.
  destruct (ShipFuel.capacity f =? 0) eqn:E; [apply Z.eqb_eq in E; lia |].
  rewrite lt_true. unfold Py.truediv.
  destruct (ShipFuel.capacity f) as [|cap|cap]; try lia.
  unfold Qlt, Qdiv, Qmult, Qinv, inject_Z. cbn [Qnum Qden].
  rewrite Pos.mul_1_l, Pos.mul_1_r. lia.
Qed.

(** X5. A ship whose tank has no capacity needs refuelling, and it is full
    as well when its fuel is not negative; the analysis of the resource
    needs then reports a need of fuel for every fleet it is part of. A ship
    whose tank has a capacity needs refuelling exactly when four times its
    fuel is less than that capacity. *)
Theorem tank_without_capacity_needs_refuel (f : ShipFuel.t) :
  (ShipFuel.capacity f = 0 ->
   ShipFuel.needs_refuel f = true
   /\ (0 <= ShipFuel.current f -> ShipFuel.is_full f = true)
   /\ (forall (ctx : AgentContext.t) (ship : Ship.t),
         In ship (AgentContext.ships ctx) ->
         Ship.fuel ship = f ->
         AcquireResourcesState.need_fuel
           (AcquireResourcesState._analyze_resource_needs ctx) = true))
  /\ (0 < ShipFuel.capacity f ->
      (ShipFuel.needs_refuel f = true
       <-> 4 * ShipFuel.current f < ShipFuel.capacity f)).
Proof.
  split; [| apply percentage_below_25].
  intros Hcap.
  assert (Hneeds : ShipFuel.needs_refuel f = true).
  { unfold ShipFuel.needs_refuel, ShipFuel.percentage. rewrite Hcap. reflexivity. }
  split; [exact Hneeds | split].
  - intros Hcur. unfold ShipFuel.is_full. apply Z.leb_le. lia.
  - intros ctx ship Hin Hfuel.
    unfold AcquireResourcesState._analyze_resource_needs. cbv zeta.
    set (needing := List.filter _ (AgentContext.ships ctx)).
    assert (Hne : In ship needing)
      by (apply filter_In; split; [exact Hin | rewrite Hfuel; exact Hneeds]).
    assert (Hlen : (0 <? Z.of_nat (length needing)) = true)
      by (apply Z.ltb_lt; destruct needing; [destruct Hne | cbn; lia]).
    destruct (_ <? Z.max 60 _); destruct needing; cbn; exact Hlen.
Qed.

(** X6. The quantity of an item in a cargo is the units of the first entry
    of the inventory with its symbol, whatever entries follow, and 0 when
    no entry has the symbol; a cargo without the item has a quantity of it
    exactly when the quantity asked is not positive. A cargo is full
    exactly when it has no space available. *)
Theorem item_quantity_is_first_entry (cargo : ShipCargo.t) (symbol : string) :
  (forall (before after : list ShipCargoItem.t) (item : ShipCargoItem.t),
     ShipCargo.inventory cargo = before ++ item :: after ->
     Forall (fun other => ShipCargoItem.symbol other <> symbol) before ->
     ShipCargoItem.symbol item = symbol ->
     ShipCargo.get_item_quantity cargo symbol = ShipCargoItem.units item)
  /\ (Forall (fun other => ShipCargoItem.symbol other <> symbol)
             (ShipCargo.inventory cargo) ->
      ShipCargo.get_item_quantity cargo symbol = 0
      /\ forall quantity : Z,
           ShipCargo.has_item cargo symbol quantity = true <-> quantity <= 0)
  /\ (ShipCargo.is_full cargo = true <-> ShipCargo.available_space cargo <= 0).
Proof.
  assert (Hskip : forall before rest,
            Forall (fun other => ShipCargoItem.symbol other <> symbol) before ->
            ShipCargo.quantity_in (before ++ rest) symbol
            = ShipCargo.quantity_in rest symbol).
  { intros before rest H. induction H as [|other before Hother _ IH]; [reflexivity |].
    cbn. destruct (String.eqb_spec (ShipCargoItem.symbol other) symbol);
      [contradiction | exact IH]. }
  split; [| split].
  - intros before after item Hinv Hbefore Hitem.
    unfold ShipCargo.get_item_quantity. rewrite Hinv, (Hskip _ _ Hbefore). cbn.
    rewrite Hitem, String.eqb_refl. reflexivity.
  - intros Hnone.
    assert (Hzero : ShipCargo.get_item_quantity cargo symbol = 0).
    { unfold ShipCargo.get_item_quantity.
      rewrite <- (app_nil_r (ShipCargo.inventory cargo)), (Hskip _ _ Hnone).
      reflexivity. }
    split; [exact Hzero |].
    intros quantity. unfold ShipCargo.has_item. rewrite Hzero. apply Z.leb_le.
  - unfold ShipCargo.is_full, ShipCargo.available_space. rewrite Z.leb_le. lia.
Qed.

Lemma fold_max_le (xs : list Z) (a b : Z) :
  fold_left Z.max xs a <= b <-> a <= b /\ Forall (fun x => x <= b) xs.
Proof.
  revert a. induction xs as [|x xs IH]; intros a; cbn [fold_left].
  - split; [intros H; split; [exact H | constructor] | intros [H _]; exact H].
  - rewrite IH. split.
    + intros [H1 H2]. split; [lia |]. constructor; [lia | exact H2].
    + intros [H1 H2]. inversion H2; subst. split; [lia | assumption].
Qed.

(** X7. A ship is suitable for a contract exactly when its cargo capacity
    is not negative and holds what remains of each delivery of the
    contract; it can carry a number of units more exactly when that number
    is at most its cargo capacity less the units it carries. *)
Theorem suitable_iff_holds_each_delivery (ship : Ship.t) (contract : Contract.t) :
  (Ship.is_suitable_for_contract ship contract = true
   <-> 0 <= Ship.cargo_capacity ship
       /\ Forall (fun d => ContractDelivery.remaining_units d <= Ship.cargo_capacity ship)
                 (ContractTerms.deliveries (Contract.terms contract)))
  /\ (forall units : Z,
        Ship.can_carry_cargo ship units = true
        <-> units <= ShipCargo.capacity (Ship.cargo ship)
                     - ShipCargo.units (Ship.cargo ship)).
Proof.
  split.
  - unfold Ship.is_suitable_for_contract. cbv zeta. rewrite Z.leb_le.
    set (cap := Ship.cargo_capacity ship).
    induction (ContractTerms.deliveries (Contract.terms contract)) as [|d ds _].
    + cbn. split; [intros H; split; [exact H | constructor] | intros [H _]; exact H].
    + cbn [map Py.max_default0]. rewrite fold_max_le, Forall_map.
      pose proof (remaining_units_nonneg d) as Hd. split.
      * intros [H1 H2]. split; [lia |]. constructor; assumption.
      * intros [_ H]. inversion H; subst. split; assumption.
  - intros units. unfold Ship.can_carry_cargo, Ship.get_available_cargo_space,
      ShipCargo.available_space. apply Z.leb_le.
Qed.

(** ** Performance metrics and credits *)

Lemma log_contract_completion_value
    (m : PerformanceMetrics.t) (profit : Z) (completion_time : Q) :
  PerformanceMetrics.contracts_completed m <> -1 ->
  exists m' : PerformanceMetrics.t,
    PerformanceMetrics.log_contract_completion m profit completion_time
    = PerformanceMetrics.Updated m'
    /\ PerformanceMetrics.contracts_completed m'
       = PerformanceMetrics.contracts_completed m + 1
    /\ PerformanceMetrics.total_credits_earned m'
       = PerformanceMetrics.total_credits_earned m + profit
    /\ PerformanceMetrics.last_contract_profit m' = profit
    /\ (PerformanceMetrics.average_contract_completion_time m'
        * inject_Z (PerformanceMetrics.contracts_completed m')
        == PerformanceMetrics.average_contract_completion_time m
           * inject_Z (PerformanceMetrics.contracts_completed m)
           + completion_time)%Q.
Proof.
  intros Hn. unfold PerformanceMetrics.log_contract_completion. cbv zeta.
  cbn [PerformanceMetrics.contracts_completed
       PerformanceMetrics.average_contract_completion_time].
  destruct (PerformanceMetrics.contracts_completed m + 1 =? 0) eqn:E;
    [apply Z.eqb_eq in E; lia |].
  apply Z.eqb_neq in E.
  eexists. split; [reflexivity |].
  cbn [PerformanceMetrics.contracts_completed PerformanceMetrics.total_credits_earned
       PerformanceMetrics.last_contract_profit
       PerformanceMetrics.average_contract_completion_time].
  repeat split.
  replace (PerformanceMetrics.contracts_completed m + 1 - 1)
    with (PerformanceMetrics.contracts_completed m) by lia.
  field. intros H. apply E.
  unfold Qeq, inject_Z in H. cbn [Qnum Qden] in H. lia.
Qed.

Lemma log_completions_value (completions : list (Z * Q)) (m : PerformanceMetrics.t) :
  0 <= PerformanceMetrics.contracts_completed m ->
  exists m' : PerformanceMetrics.t,
    log_completions m completions = PerformanceMetrics.Updated m'
    /\ PerformanceMetrics.contracts_completed m'
       = PerformanceMetrics.contracts_completed m + Z.of_nat (length completions)
    /\ PerformanceMetrics.total_credits_earned m'
       = PerformanceMetrics.total_credits_earned m + Py.sum (map fst completions)
    /\ (PerformanceMetrics.average_contract_completion_time m'
        * inject_Z (PerformanceMetrics.contracts_completed m')
        == PerformanceMetrics.average_contract_completion_time m
           * inject_Z (PerformanceMetrics.contracts_completed m)
           + Qsum (map snd completions))%Q.
Proof.
  revert m. induction completions as [|[profit time] rest IH]; intros m Hm.
  - exists m. cbn. split; [reflexivity |].
    split; [lia | split; [unfold Py.sum; cbn; lia | ring]].
  - destruct (log_contract_completion_value m profit time ltac:(lia))
      as (m1 & Hlog & Hcount & Hearned & _ & Haverage).
    destruct (IH m1 ltac:(lia)) as (m' & Hrest & Hcount' & Hearned' & Haverage').
    exists m'. cbn [log_completions]. rewrite Hlog.
    split; [exact Hrest |].
    cbn [length map fst snd Qsum fold_right]. rewrite sum_cons.
    split; [lia | split; [lia |]].
    rewrite Haverage', Haverage. unfold Qsum. ring.
Qed.

(** X8. Logging a completed contract adds one to the count of contracts
    completed and the profit to the credits earned, keeps the profit as the
    last one, and leaves the average completion time such that the average
    times the count grows by the completion time; when the count was -1,
    the division by the new count raises ZeroDivisionError after the count
    and the credits are written. From the metrics of a new context, after
    any completions logged one after the other, the count is their number,
    the credits earned are the sum of their profits and the average times
    the count is the sum of their completion times. *)
Theorem completions_are_averaged :
  (forall (m : PerformanceMetrics.t) (profit : Z) (completion_time : Q),
     PerformanceMetrics.contracts_completed m <> -1 ->
     exists m' : PerformanceMetrics.t,
       PerformanceMetrics.log_contract_completion m profit completion_time
       = PerformanceMetrics.Updated m'
       /\ PerformanceMetrics.contracts_completed m'
          = PerformanceMetrics.contracts_completed m + 1
       /\ PerformanceMetrics.total_credits_earned m'
          = PerformanceMetrics.total_credits_earned m + profit
       /\ PerformanceMetrics.last_contract_profit m' = profit
       /\ (PerformanceMetrics.average_contract_completion_time m'
           * inject_Z (PerformanceMetrics.contracts_completed m')
           == PerformanceMetrics.average_contract_completion_time m
              * inject_Z (PerformanceMetrics.contracts_completed m)
              + completion_time)%Q)
  /\ (forall (m : PerformanceMetrics.t) (profit : Z) (completion_time : Q),
        PerformanceMetrics.contracts_completed m = -1 ->
        exists m' : PerformanceMetrics.t,
          PerformanceMetrics.log_contract_completion m profit completion_time
          = PerformanceMetrics.ZeroDivisionError m'
          /\ PerformanceMetrics.contracts_completed m' = 0
          /\ PerformanceMetrics.total_credits_earned m'
             = PerformanceMetrics.total_credits_earned m + profit
          /\ PerformanceMetrics.average_contract_completion_time m'
             = PerformanceMetrics.average_contract_completion_time m)
  /\ (forall completions : list (Z * Q),
        exists m : PerformanceMetrics.t,
          log_completions PerformanceMetrics.initial completions
          = PerformanceMetrics.Updated m
          /\ PerformanceMetrics.contracts_completed m = Z.of_nat (length completions)
          /\ PerformanceMetrics.total_credits_earned m = Py.sum (map fst completions)
          /\ (PerformanceMetrics.average_contract_completion_time m
              * inject_Z (Z.of_nat (length completions))
              == Qsum (map snd completions))%Q).
Proof.
  split; [exact log_contract_completion_value | split].
  - intros m profit time Hm.
    unfold PerformanceMetrics.log_contract_completion. cbv zeta.
    cbn [PerformanceMetrics.contracts_completed]. rewrite Hm.
    eexists. split; [reflexivity |]. repeat split.
  - intros completions.
    destruct (log_completions_value completions PerformanceMetrics.initial ltac:(reflexivity))
      as (m & Hlog & Hcount & Hearned & Haverage).
    exists m. split; [exact Hlog |].
    cbn in Hcount, Hearned. split; [lia | split; [lia |]].
    replace (Z.of_nat (length completions))
      with (PerformanceMetrics.contracts_completed m) by lia.
    rewrite Haverage. cbn. ring.
Qed.

(** X9. Without an agent snapshot no amount is covered, whatever the
    configuration. With a snapshot and no safety reserve configured, the
    test raises KeyError. With both, an amount is covered exactly when it
    is at most the credits less the reserve, so that every smaller amount
    is covered with it. *)
Theorem sufficient_credits_cases (ctx : AgentContext.t) (amount : Z) :
  (AgentContext.agent_data ctx = None ->
   AgentContext.has_sufficient_credits ctx amount = Py.Ok false)
  /\ (AgentContext.agent_data ctx <> None ->
      AgentContext.strategy_config ctx !! "safety_credit_reserve" = None ->
      AgentContext.has_sufficient_credits ctx amount
      = Py.Raise (Py.KeyError "safety_credit_reserve"))
  /\ (forall (agent : AgentData.t) (reserve : Py.pyval),
        AgentContext.agent_data ctx = Some agent ->
        AgentContext.strategy_config ctx !! "safety_credit_reserve" = Some reserve ->
        exists covered : bool,
          AgentContext.has_sufficient_credits ctx amount = Py.Ok covered
          /\ (covered = true
              <-> (inject_Z amount <= inject_Z (AgentData.credits agent) - Py.num reserve)%Q)
          /\ (covered = true ->
              forall smaller : Z,
                smaller <= amount ->
                AgentContext.has_sufficient_credits ctx smaller = Py.Ok true)).
Proof.
  unfold AgentContext.has_sufficient_credits.
  split; [intros ->; reflexivity | split].
  - intros Hagent Hreserve.
    destruct (AgentContext.agent_data ctx); [| contradiction].
    rewrite Hreserve. reflexivity.
  - intros agent reserve -> ->. eexists. split; [reflexivity |].
    split; [apply Qle_bool_iff |].
    intros Hcovered smaller Hsmaller. f_equal.
    apply Qle_bool_iff. apply Qle_bool_iff in Hcovered.
    eapply Qle_trans; [| exact Hcovered].
    rewrite <- Zle_Qle. exact Hsmaller.
Qed.

(** ** Readiness of the fleet *)

Lemma assess_ship_readiness_from (ships : list Ship.t) (a : AssessSituationState.assessment) :
  let r := fold_left AssessSituationState.assess_ship ships a in
  AssessSituationState.ships_in_transit r
  = AssessSituationState.ships_in_transit a
    ++ map Ship.symbol
         (List.filter (fun ship => ShipNav.is_in_transit (Ship.nav ship)) ships)
  /\ AssessSituationState.ships_needing_fuel r
     = AssessSituationState.ships_needing_fuel a
       ++ map Ship.symbol
            (List.filter (fun ship => negb (ShipNav.is_in_transit (Ship.nav ship))
                                      && ShipFuel.needs_refuel (Ship.fuel ship)) ships)
  /\ AssessSituationState.ready_ships r
     = AssessSituationState.ready_ships a
       ++ map Ship.symbol
            (List.filter (fun ship => negb (ShipNav.is_in_transit (Ship.nav ship))
                                      && negb (ShipFuel.needs_refuel (Ship.fuel ship))) ships)
  /\ AssessSituationState.total_cargo_capacity r
     = AssessSituationState.total_cargo_capacity a
       + Py.sum (map Ship.cargo_capacity ships)
  /\ AssessSituationState.available_cargo_space r
     = AssessSituationState.available_cargo_space a
       + Py.sum (map Ship.get_available_cargo_space ships).
Proof.
  revert a. induction ships as [|ship ships IH]; intros a; cbn zeta.
  - cbn. rewrite !app_nil_r. unfold Py.sum. cbn. repeat split; lia.
  - cbn [fold_left]. specialize (IH (AssessSituationState.assess_ship a ship)).
    cbn zeta in IH. destruct IH as (H1 & H2 & H3 & H4 & H5).
    rewrite H1, H2, H3, H4, H5. clear H1 H2 H3 H4 H5.
    cbn [map List.filter]. rewrite !sum_cons.
    unfold AssessSituationState.assess_ship.
    destruct (ShipNav.is_in_transit (Ship.nav ship));
      [| destruct (ShipFuel.needs_refuel (Ship.fuel ship))];
      cbn [negb andb map AssessSituationState.ships_in_transit
           AssessSituationState.ships_needing_fuel AssessSituationState.ready_ships
           AssessSituationState.total_cargo_capacity
           AssessSituationState.available_cargo_space];
      rewrite <- ?app_assoc; cbn [app]; repeat split; lia.
Qed.

Lemma partition_in_three {A} (p q : A -> bool) (l : list A) :
  Permutation
    (List.filter p l
     ++ List.filter (fun x => negb (p x) && q x) l
     ++ List.filter (fun x => negb (p x) && negb (q x)) l)
    l.
Proof.
  induction l as [|x l IH]; [constructor |].
  cbn [List.filter]. destruct (p x); [| destruct (q x)]; cbn [negb andb].
  - cbn [app]. constructor. exact IH.
  - etransitivity; [| constructor; exact IH].
    symmetry. apply Permutation_middle.
  - etransitivity; [| constructor; exact IH].
    symmetry. rewrite app_assoc. etransitivity; [apply Permutation_middle |].
    rewrite <- app_assoc. reflexivity.
Qed.

Lemma available_space_is_capacity_less_units (ctx : AgentContext.t) :
  AgentContext.get_available_cargo_space ctx
  = AgentContext.get_total_cargo_capacity ctx
    - Py.sum (map (fun ship => ShipCargo.units (Ship.cargo ship)) (AgentContext.ships ctx)).
Proof.
  unfold AgentContext.get_available_cargo_space, AgentContext.get_total_cargo_capacity.
  induction (AgentContext.ships ctx) as [|ship rest IH]; [reflexivity |].
  cbn [map]. rewrite !sum_cons, IH.
  unfold Ship.get_available_cargo_space, ShipCargo.available_space, Ship.cargo_capacity.
  lia.
Qed.

(** X10. The readiness assessment sorts every ship of the fleet into one of
    its three lists: in transit when the ship is in transit, needing fuel
    when it is not in transit and needs refuelling, ready otherwise, each
    list in the order of the fleet; together the lists hold the symbols of
    the fleet, each ship once. Its totals are the total cargo capacity and
    the available cargo space of the context, and the available space is
    the capacity less the units the ships carry. *)
Theorem readiness_sorts_the_fleet (ctx : AgentContext.t) :
  let r := AssessSituationState._assess_ship_readiness ctx in
  let fleet := AgentContext.ships ctx in
  AssessSituationState.ships_in_transit r
  = map Ship.symbol (List.filter (fun ship => ShipNav.is_in_transit (Ship.nav ship)) fleet)
  /\ AssessSituationState.ships_needing_fuel r
     = map Ship.symbol
         (List.filter (fun ship => negb (ShipNav.is_in_transit (Ship.nav ship))
                                   && ShipFuel.needs_refuel (Ship.fuel ship)) fleet)
  /\ AssessSituationState.ready_ships r
     = map Ship.symbol
         (List.filter (fun ship => negb (ShipNav.is_in_transit (Ship.nav ship))
                                   && negb (ShipFuel.needs_refuel (Ship.fuel ship))) fleet)
  /\ Permutation
       (AssessSituationState.ships_in_transit r
        ++ AssessSituationState.ships_needing_fuel r
        ++ AssessSituationState.ready_ships r)
       (map Ship.symbol fleet)
  /\ AssessSituationState.total_cargo_capacity r
     = AgentContext.get_total_cargo_capacity ctx
  /\ AssessSituationState.available_cargo_space r
     = AgentContext.get_available_cargo_space ctx
  /\ AgentContext.get_available_cargo_space ctx
     = AgentContext.get_total_cargo_capacity ctx
       - Py.sum (map (fun ship => ShipCargo.units (Ship.cargo ship)) fleet).
Proof.
  intros r fleet. subst r. unfold AssessSituationState._assess_ship_readiness.
  fold fleet.
  destruct (assess_ship_readiness_from fleet
              {| AssessSituationState.ready_ships := [];
                 AssessSituationState.ships_needing_fuel := [];
                 AssessSituationState.ships_in_transit := [];
                 AssessSituationState.total_cargo_capacity := 0;
                 AssessSituationState.available_cargo_space := 0 |})
    as (H1 & H2 & H3 & H4 & H5).
  cbn zeta in H1, H2, H3, H4, H5.
  cbn [AssessSituationState.ships_in_transit AssessSituationState.ships_needing_fuel
       AssessSituationState.ready_ships AssessSituationState.total_cargo_capacity
       AssessSituationState.available_cargo_space app] in H1, H2, H3, H4, H5.
  rewrite Z.add_0_l in H4, H5.
  split; [exact H1 | split; [exact H2 | split; [exact H3 | split; [| split; [| split]]]]].
  - rewrite H1, H2, H3, <- !map_app. apply Permutation_map, partition_in_three.
  - exact H4.
  - exact H5.
  - apply available_space_is_capacity_less_units.
Qed.

(** ** Failures of the API during the assessment *)

(** Fetching the contracts changes nothing of the world but the current
    contract, and it returns or raises. *)
Lemma update_contracts_keeps (api : Api.client) (clock : Clock) (w : World) :
  let out := AssessSituationState._update_contracts api clock w in
  AgentContext.agent_data (context (snd out)) = AgentContext.agent_data (context w)
  /\ AgentContext.ships (context (snd out)) = AgentContext.ships (context w)
  /\ slept (snd out) = slept w
  /\ (fst out = Py.Ok tt \/ exists e, fst out = Py.Raise e).
Proof.
  unfold AssessSituationState._update_contracts. unfold_monad.
  destruct (Api.get_my_contracts api) as [contracts|e]; cbn [Api.call];
    [| repeat split; right; eexists; reflexivity].
  destruct (Py.filter (AssessSituationState.is_active clock) _) as [active| e |] eqn:Eactive;
    [| repeat split; right; eexists; reflexivity |].
  - destruct active; cbn;
      (destruct (Py.filter (AssessSituationState.is_open clock) _) as [open| e |] eqn:Eopen;
       [repeat split; left; reflexivity
       | repeat split; right; eexists; reflexivity
       | exfalso]).
    all: clear Eactive;
      induction (map (Contract.from_api_response (datetime_parsed clock)) contracts)
        as [|c cs IH]; [discriminate |];
      cbn [Py.filter] in Eopen; rewrite is_open_value in Eopen;
      destruct (Contract.accepted c); [| destruct (aware (expiry_datetime c))];
      cbn [Py.bind] in Eopen; try discriminate;
      destruct (Py.filter (AssessSituationState.is_open clock) cs);
      cbn [Py.bind] in Eopen; try discriminate; apply IH; reflexivity.
  - exfalso.
    induction (map (Contract.from_api_response (datetime_parsed clock)) contracts)
      as [|c cs IH]; [discriminate |].
    cbn [Py.filter] in Eactive. rewrite is_active_value in Eactive.
    destruct (Contract.accepted c && negb (Contract.fulfilled c));
      [destruct (aware (expiry_datetime c)) |];
      cbn [Py.bind] in Eactive; try discriminate;
      destruct (Py.filter (AssessSituationState.is_active clock) cs);
      cbn [Py.bind] in Eactive; try discriminate; apply IH; reflexivity.
Qed.

(** X11. The assessment stops at the first call of the API that fails and
    returns ERROR_RECOVERY: with the context as it was when the agent
    cannot be fetched, with the agent snapshot updated when the fleet
    cannot be fetched, and with the snapshot and the fleet updated when the
    contracts cannot be fetched. An answer for the agent without data
    leaves the snapshot as it was. The assessment never sleeps. *)
Theorem assessment_stops_at_the_first_failure
    (api : Api.client) (clock : Clock) (ctx : AgentContext.t) :
  let outcome := run (AssessSituationState.execute api clock) ctx in
  (forall e : Py.exn,
     Api.get_my_agent api = Api.Failure e ->
     fst outcome = Py.Ok ERROR_RECOVERY /\ context (snd outcome) = ctx)
  /\ (forall (agent : option Json.agent) (e : Py.exn),
        Api.get_my_agent api = Api.Answer agent ->
        Api.get_my_ships api = Api.Failure e ->
        fst outcome = Py.Ok ERROR_RECOVERY
        /\ context (snd outcome) = AgentContext.update_agent_data agent ctx)
  /\ (forall (agent : option Json.agent) (fleet : list Json.ship) (e : Py.exn),
        Api.get_my_agent api = Api.Answer agent ->
        Api.get_my_ships api = Api.Answer fleet ->
        Api.get_my_contracts api = Api.Failure e ->
        fst outcome = Py.Ok ERROR_RECOVERY
        /\ context (snd outcome)
           = AgentContext.set_ships (map Ship.from_api_response fleet)
               (AgentContext.update_agent_data agent ctx))
  /\ (forall (fleet : list Json.ship) (contracts : list Json.contract),
        Api.get_my_agent api = Api.Answer None ->
        Api.get_my_ships api = Api.Answer fleet ->
        Api.get_my_contracts api = Api.Answer contracts ->
        AgentContext.agent_data (context (snd outcome)) = AgentContext.agent_data ctx)
  /\ slept (snd outcome) = [].
Proof.
  intros outcome. subst outcome.
  unfold AssessSituationState.execute, AssessSituationState._update_agent_data,
    AssessSituationState._update_ships, AssessSituationState._determine_next_action.
  split; [| split; [| split; [| split]]].
  - intros e He. unfold_monad. rewrite He. split; reflexivity.
  - intros agent e Ha Hs. unfold_monad. rewrite Ha, Hs. split; reflexivity.
  - intros agent fleet e Ha Hs Hc.
    unfold AssessSituationState._update_contracts. unfold_monad.
    rewrite Ha, Hs, Hc. split; reflexivity.
  - intros fleet contracts Ha Hs Hc. unfold_monad. rewrite Ha, Hs. cbn [Api.call].
    match goal with
    | |- context [AssessSituationState._update_contracts api clock ?w] =>
        pose proof (update_contracts_keeps api clock w) as Hkeep;
        destruct (AssessSituationState._update_contracts api clock w) as [r w']
    end.
    cbn [fst snd context] in Hkeep. destruct Hkeep as (Hagent & _ & _ & Hr).
    destruct Hr as [-> | [e ->]]; cbn; [| exact Hagent].
    destruct (AgentContext.ships (context w')); [exact Hagent |].
    destruct (AgentContext.current_contract (context w')) as [contract|];
      [destruct (Contract.all_deliveries_completed contract) |]; exact Hagent.
  - unfold_monad.
    destruct (Api.get_my_agent api); [| reflexivity].
    destruct (Api.get_my_ships api); [| reflexivity].
    cbn [Api.call].
    match goal with
    | |- context [AssessSituationState._update_contracts api clock ?w] =>
        pose proof (update_contracts_keeps api clock w) as Hkeep;
        destruct (AssessSituationState._update_contracts api clock w) as [r w']
    end.
    cbn [fst snd slept] in Hkeep. destruct Hkeep as (_ & _ & Hslept & Hr).
    destruct Hr as [-> | [e ->]]; cbn; [| exact Hslept].
    destruct (AgentContext.ships (context w')); [exact Hslept |].
    destruct (AgentContext.current_contract (context w')) as [contract|];
      [destruct (Contract.all_deliveries_completed contract) |]; exact Hslept.
Qed.

(** ** Outcomes of the negotiation *)

(** What has no loop to bound gives a value or raises. *)
Lemma py_filter_terminates {A} (p : A -> Py.result bool) (xs : list A) :
  (forall x, p x <> Py.OutOfFuel) -> Py.filter p xs <> Py.OutOfFuel.
Proof.
  intros Hp. induction xs as [|x xs IH]; [discriminate |].
  cbn [Py.filter]. specialize (Hp x).
  destruct (p x); cbn [Py.bind]; [| discriminate | contradiction].
  destruct (Py.filter p xs); cbn [Py.bind]; [discriminate | discriminate | contradiction].
Qed.

Lemma py_map_terminates {A B} (f : A -> Py.result B) (xs : list A) :
  (forall x, f x <> Py.OutOfFuel) -> Py.map f xs <> Py.OutOfFuel.
Proof.
  intros Hf. induction xs as [|x xs IH]; [discriminate |].
  cbn [Py.map]. specialize (Hf x).
  destruct (f x); cbn [Py.bind]; [| discriminate | contradiction].
  destruct (Py.map f xs); cbn [Py.bind]; [discriminate | discriminate | contradiction].
Qed.

Lemma is_expired_terminates (now : Z) (c : Contract.t) :
  Contract.is_expired now c <> Py.OutOfFuel.
Proof. rewrite is_expired_by_instant. destruct (aware _); discriminate. Qed.

Lemma score_terminates (now : Z) (c : Contract.t) (cap cost : Z) :
  Contract.calculate_profitability_score now c cap cost <> Py.OutOfFuel.
Proof.
  unfold Contract.calculate_profitability_score.
  pose proof (is_expired_terminates now c) as He.
  destruct (Contract.is_expired now c) as [expired| |];
    cbn [mbind result_bind Py.bind]; [| discriminate | contradiction].
  destruct expired; [discriminate |].
  destruct (_ <? _); [discriminate |].
  destruct (_ <=? 0); [discriminate |].
  cbv zeta. unfold datetime_sub. destruct (Bool.eqb _ _); discriminate.
Qed.

Lemma has_sufficient_credits_terminates (ctx : AgentContext.t) (amount : Z) :
  AgentContext.has_sufficient_credits ctx amount <> Py.OutOfFuel.
Proof.
  unfold AgentContext.has_sufficient_credits.
  destruct (AgentContext.agent_data ctx); [| discriminate].
  destruct (_ !! _); discriminate.
Qed.

Lemma filter_contracts_terminates (ctx : AgentContext.t) (contracts : list Contract.t) :
  NegotiateContractState._filter_contracts_by_capabilities ctx contracts <> Py.OutOfFuel.
Proof.
  unfold NegotiateContractState._filter_contracts_by_capabilities.
  destruct (AgentContext.ships ctx); [discriminate |].
  generalize (@nil Contract.t).
  induction contracts as [|x others IH]; intros kept;
    cbn [NegotiateContractState.filter_loop]; [discriminate |].
  destruct (_ <? _); [apply IH |].
  pose proof (has_sufficient_credits_terminates ctx
                (NegotiateContractState._estimate_contract_cost x)) as Hc.
  destruct (AgentContext.has_sufficient_credits ctx _) as [b| |];
    cbn [mbind result_bind Py.bind]; [| discriminate | contradiction].
  destruct (negb b); [apply IH |].
  destruct (_ && _); apply IH.
Qed.

Lemma analyze_filtering_reasons_terminates
    (clock : Clock) (ctx : AgentContext.t) (contracts : list Contract.t) :
  NegotiateContractState._analyze_filtering_reasons clock ctx contracts <> Py.OutOfFuel.
Proof.
  unfold NegotiateContractState._analyze_filtering_reasons.
  destruct contracts as [|c rest]; [discriminate |].
  assert (Hloop : forall l n,
            NegotiateContractState.count_loop ctx
              (AgentContext.get_total_cargo_capacity ctx) n l <> Py.OutOfFuel).
  { induction l as [|x l IH]; intros n; cbn [NegotiateContractState.count_loop];
      [discriminate |].
    unfold NegotiateContractState.count_issues. cbv zeta.
    pose proof (has_sufficient_credits_terminates ctx
                  (NegotiateContractState._estimate_contract_cost x)) as Hc.
    destruct (AgentContext.has_sufficient_credits ctx _) as [b| |];
      cbn [mbind result_bind Py.bind]; [apply IH | discriminate | contradiction]. }
  specialize (Hloop (c :: rest)
                {| NegotiateContractState.capacity_issues := 0;
                   NegotiateContractState.credit_issues := 0;
                   NegotiateContractState.ship_size_issues := 0 |}).
  destruct (NegotiateContractState.count_loop _ _ _ _) as [n| |];
    cbn [mbind result_bind Py.bind]; [| discriminate | contradiction].
  destruct (_ || _); [| discriminate].
  destruct (NegotiateContractState.can_afford_ship ctx); [| discriminate].
  destruct (NegotiateContractState.cooldown_over clock ctx); discriminate.
Qed.

Lemma select_best_contract_terminates
    (clock : Clock) (ctx : AgentContext.t) (contracts : list Contract.t) :
  NegotiateContractState._select_best_contract clock ctx contracts <> Py.OutOfFuel.
Proof.
  unfold NegotiateContractState._select_best_contract.
  destruct contracts as [|c rest]; [discriminate |]. cbv zeta.
  match goal with
  | |- context [Py.map ?f ?l] =>
      assert (Hmap : Py.map f l <> Py.OutOfFuel);
      [apply py_map_terminates | destruct (Py.map f l) as [scores| |]]
  end.
  - intros x. pose proof (score_terminates (datetime_now clock) x
                            (AgentContext.get_total_cargo_capacity ctx)
                            (NegotiateContractState._estimate_contract_cost x)) as Hs.
    destruct (Contract.calculate_profitability_score _ x _ _);
      cbn [mbind result_bind Py.bind]; [discriminate | discriminate | contradiction].
  - cbn [mbind result_bind Py.bind].
    destruct (NegotiateContractState.sort_by_score scores) as [|[[b sc] cost] t];
      [discriminate |]. destruct (Py.lt 0 sc); discriminate.
  - discriminate.
  - contradiction.
Qed.

Lemma available_contracts_terminate (clock : Clock) (contracts : list Contract.t) :
  Py.filter (NegotiateContractState.is_available clock) contracts <> Py.OutOfFuel.
Proof.
  apply py_filter_terminates. intros c. unfold NegotiateContractState.is_available.
  pose proof (is_expired_terminates (datetime_now clock) c) as He.
  destruct (negb (Contract.accepted c)); [| discriminate].
  destruct (negb (Contract.fulfilled c)); [| discriminate].
  destruct (Contract.is_expired _ c); cbn [mbind result_bind Py.bind];
    [discriminate | discriminate | contradiction].
Qed.

(** X12. The negotiation ends in one of three ways, and never returns
    ACCEPT_CONTRACT. It returns NEGOTIATE_CONTRACT after one sleep of 10 or
    of 30 seconds, the context as it was; or ACQUIRE_RESOURCES without
    sleeping, the context as it was; or ERROR_RECOVERY without sleeping,
    the context as it was or with the contract selected as its current
    contract and nothing else changed. *)
Theorem negotiation_outcomes
    (api : Api.client) (clock : Clock) (ctx : AgentContext.t) :
  let outcome := run (NegotiateContractState.execute api clock) ctx in
  (fst outcome = Py.Ok NEGOTIATE_CONTRACT
   /\ (slept (snd outcome) = [10] \/ slept (snd outcome) = [30])
   /\ context (snd outcome) = ctx)
  \/ (fst outcome = Py.Ok ACQUIRE_RESOURCES
      /\ slept (snd outcome) = []
      /\ context (snd outcome) = ctx)
  \/ (fst outcome = Py.Ok ERROR_RECOVERY
      /\ slept (snd outcome) = []
      /\ (context (snd outcome) = ctx
          \/ exists best : Contract.t,
               context (snd outcome)
               = AgentContext.set_current_contract (Some best) ctx)).
Proof.
  intros outcome. subst outcome.
  unfold NegotiateContractState.execute, NegotiateContractState._get_available_contracts.
  unfold_monad.
  destruct (Api.get_my_contracts api) as [contracts_data|e]; cbn [Api.call];
    [| right; right; repeat split; left; reflexivity].
  pose proof (available_contracts_terminate clock
                (map (Contract.from_api_response (datetime_parsed clock)) contracts_data))
    as Havailable.
  destruct (Py.filter _ _) as [available| e |];
    [| right; right; repeat split; left; reflexivity | contradiction].
  destruct available as [|c rest]; [left; repeat split; left; reflexivity |].
  cbn [context].
  pose proof (filter_contracts_terminates ctx (c :: rest)) as Hsuitable.
  destruct (NegotiateContractState._filter_contracts_by_capabilities ctx (c :: rest))
    as [suitable| e |];
    [| right; right; repeat split; left; reflexivity | contradiction].
  destruct suitable as [|s others].
  - pose proof (analyze_filtering_reasons_terminates clock ctx (c :: rest)) as Hnext.
    destruct (NegotiateContractState._analyze_filtering_reasons clock ctx (c :: rest))
      as [next| e |];
      [| right; right; repeat split; left; reflexivity | contradiction].
    destruct next;
      try (left; repeat split; right; reflexivity);
      right; left; repeat split.
  - pose proof (select_best_contract_terminates clock ctx (s :: others)) as Hbest.
    destruct (NegotiateContractState._select_best_contract clock ctx (s :: others))
      as [[best|]| e |] eqn:Ebest.
    + apply select_best_contract_has_local_deadline in Ebest.
      unfold NegotiateContractState._log_contract_details, datetime_sub.
      rewrite Ebest. right; right. repeat split. right. exists best. reflexivity.
    + left. repeat split. left. reflexivity.
    + right; right. repeat split. left. reflexivity.
    + contradiction.
Qed.

Lemma no_offer_is_available (clock : Clock) (contracts : list Contract.t) :
  Forall (fun c => Contract.accepted c || Contract.fulfilled c = true) contracts ->
  Py.filter (NegotiateContractState.is_available clock) contracts = Py.Ok [].
Proof.
  intros H. rewrite (filter_returns _ (fun _ => false)).
  - clear H. f_equal. induction contracts as [|c cs IH]; [reflexivity | exact IH].
  - eapply Forall_impl; [exact H |]. intros c Hc. cbn beta in Hc.
    unfold NegotiateContractState.is_available.
    destruct (Contract.accepted c), (Contract.fulfilled c);
      try reflexivity; discriminate.
Qed.

(** X13. When the contracts cannot be fetched, the negotiation returns
    ERROR_RECOVERY at once, the context as it was. When every contract
    fetched is accepted or fulfilled, and so when none is fetched, it
    sleeps 10 seconds and returns NEGOTIATE_CONTRACT, the context as it
    was, whatever the datetimes of the contracts. *)
Theorem negotiation_without_offers
    (api : Api.client) (clock : Clock) (ctx : AgentContext.t) :
  (forall e : Py.exn,
     Api.get_my_contracts api = Api.Failure e ->
     run (NegotiateContractState.execute api clock) ctx
     = (Py.Ok ERROR_RECOVERY, {| context := ctx; slept := [] |}))
  /\ (forall contracts_data : list Json.contract,
        Api.get_my_contracts api = Api.Answer contracts_data ->
        Forall (fun c => Contract.accepted c || Contract.fulfilled c = true)
               (map (Contract.from_api_response (datetime_parsed clock)) contracts_data) ->
        run (NegotiateContractState.execute api clock) ctx
        = (Py.Ok NEGOTIATE_CONTRACT, {| context := ctx; slept := [10] |})).
Proof.
  unfold NegotiateContractState.execute, NegotiateContractState._get_available_contracts.
  split.
  - intros e He. unfold_monad. rewrite He. reflexivity.
  - intros contracts_data Hc Hall. unfold_monad. rewrite Hc. cbn [Api.call].
    rewrite (no_offer_is_available clock _ Hall). reflexivity.
Qed.

(** X13, when the one contract the API lists is accepted, its deadline
    written with a time zone: the negotiation sleeps 10 seconds and returns
    NEGOTIATE_CONTRACT. *)
Lemma negotiation_ignores_a_running_contract :
  run (NegotiateContractState.execute
         (answering_api (json_agent 1000) [] running_contract_utc [] no_yard None)
         clock_0)
      (context_with 1000 [ship_at "SHIP-1" "X1-DF55-A1" 40])
  = (Py.Ok NEGOTIATE_CONTRACT,
     {| context := context_with 1000 [ship_at "SHIP-1" "X1-DF55-A1" 40];
        slept := [10] |}).
Proof.
  apply (proj2 (negotiation_without_offers
                  (answering_api (json_agent 1000) [] running_contract_utc [] no_yard None)
                  clock_0 (context_with 1000 [ship_at "SHIP-1" "X1-DF55-A1" 40]))
               running_contract_utc eq_refl).
  repeat constructor.
Defined.

(** ** Selection of the best contract *)







(** ** Degenerate cases of the capability filter *)

(** X15. With an empty fleet the capability filter keeps nothing, whatever
    the contracts and the configuration. With a fleet and no agent snapshot
    it keeps nothing either. With a fleet, a snapshot and no safety reserve
    configured, it raises KeyError as soon as a contract asks for no more
    units than the fleet holds, and keeps nothing when none does. What it
    keeps is always among the contracts given. *)
Theorem capability_filter_degenerate (ctx : AgentContext.t) (contracts : list Contract.t) :
  (AgentContext.ships ctx = [] ->
   NegotiateContractState._filter_contracts_by_capabilities ctx contracts = Py.Ok [])
  /\ (AgentContext.agent_data ctx = None ->
      NegotiateContractState._filter_contracts_by_capabilities ctx contracts = Py.Ok [])
  /\ (AgentContext.ships ctx <> [] ->
      AgentContext.agent_data ctx <> None ->
      AgentContext.strategy_config ctx !! "safety_credit_reserve" = None ->
      NegotiateContractState._filter_contracts_by_capabilities ctx contracts
      = if existsb (fun c => NegotiateContractState.units_required_total c
                             <=? AgentContext.get_total_cargo_capacity ctx) contracts
        then Py.Raise (Py.KeyError "safety_credit_reserve")
        else Py.Ok [])
  /\ (forall kept : list Contract.t,
        NegotiateContractState._filter_contracts_by_capabilities ctx contracts = Py.Ok kept ->
        forall c : Contract.t, In c kept -> In c contracts).
Proof.
  unfold NegotiateContractState._filter_contracts_by_capabilities.
  split; [intros ->; reflexivity | split; [| split]].
  - intros Hagent. destruct (AgentContext.ships ctx); [reflexivity |].
    generalize (AgentContext.get_total_cargo_capacity ctx). intros cap.
    induction contracts as [|c rest IH]; [reflexivity |].
    cbn [NegotiateContractState.filter_loop].
    unfold AgentContext.has_sufficient_credits. rewrite Hagent.
    cbn [mbind result_bind Py.bind negb].
    destruct (cap <? _); exact IH.
  - intros Hfleet Hagent Hreserve.
    destruct (AgentContext.ships ctx); [contradiction |].
    generalize (AgentContext.get_total_cargo_capacity ctx). intros cap.
    induction contracts as [|c rest IH]; [reflexivity |].
    cbn [NegotiateContractState.filter_loop existsb].
    rewrite (Z.leb_antisym cap).
    destruct (cap <? NegotiateContractState.units_required_total c);
      cbn [negb orb]; [exact IH |].
    unfold AgentContext.has_sufficient_credits.
    destruct (AgentContext.agent_data ctx); [| contradiction].
    rewrite Hreserve. reflexivity.
  - destruct (AgentContext.ships ctx) as [|ship fleet]; [intros kept [= <-] c [] |].
    generalize (AgentContext.get_total_cargo_capacity ctx). intros cap.
    assert (Hloop : forall l acc kept,
              NegotiateContractState.filter_loop ctx cap acc l = Py.Ok kept ->
              forall c, In c kept -> In c acc \/ In c l).
    { intros l. induction l as [|x l IH]; intros acc kept;
        cbn [NegotiateContractState.filter_loop].
      - intros [= <-] c Hc. left. exact Hc.
      - destruct (cap <? _).
        + intros H c Hc. destruct (IH _ _ H c Hc); [left | right; right]; assumption.
        + destruct (AgentContext.has_sufficient_credits ctx _) as [b| |];
            cbn [mbind result_bind Py.bind]; try discriminate.
          destruct (negb b);
            [intros H c Hc; destruct (IH _ _ H c Hc); [left | right; right]; assumption |].
          destruct (_ && _);
            intros H c Hc; destruct (IH _ _ H c Hc) as [Hacc | Hl];
            try (left; assumption); try (right; right; assumption).
          apply in_app_or in Hacc. destruct Hacc as [Hacc | [<- | []]];
            [left; assumption | right; left; reflexivity]. }
    intros kept H c Hc. destruct (Hloop _ _ _ H c Hc) as [[] | Hin]. exact Hin.
Qed.

(** ** The search for shipyards *)

Lemma fetch_waypoints_step (api : Api.client) (n : nat) (system : string) (page : Z)
    (all_waypoints : list Json.waypoint) (response : Api.waypoints_response) :
  Api.get_system_waypoints api system page 20 = Api.Answer response ->
  AcquireResourcesState.fetch_waypoints api (S n) system page all_waypoints
  = match Api.data response with
    | [] => Py.Ok all_waypoints
    | _ :: _ =>
        if (announced_pages response <=? page)
           || (Z.of_nat (length (Api.data response)) <? 20)
        then Py.Ok (all_waypoints ++ Api.data response)
        else AcquireResourcesState.fetch_waypoints api n system (page + 1)
               (all_waypoints ++ Api.data response)
    end.
Proof.
  intros H. cbn [AcquireResourcesState.fetch_waypoints]. rewrite H.
  cbn [Api.call mbind result_bind Py.bind].
  destruct (Api.data response); reflexivity.
Qed.

Lemma fetch_waypoints_bounded (api : Api.client) (system : string) (pages : Z) :
  (forall (page : Z) (response : Api.waypoints_response),
     Api.get_system_waypoints api system page 20 = Api.Answer response ->
     announced_pages response <= pages) ->
  forall (n : nat) (page : Z) (all_waypoints : list Json.waypoint),
    (1 <= n)%nat ->
    pages - page < Z.of_nat n ->
    (exists waypoints,
       AcquireResourcesState.fetch_waypoints api n system page all_waypoints
       = Py.Ok waypoints)
    \/ (exists e,
          AcquireResourcesState.fetch_waypoints api n system page all_waypoints
          = Py.Raise e).
Proof.
  intros Hpages n. induction n as [|n IH]; intros page acc Hn Hfuel; [lia |].
  destruct (Api.get_system_waypoints api system page 20) as [response|e] eqn:Eresponse.
  - rewrite (fetch_waypoints_step _ _ _ _ _ _ Eresponse).
    destruct (Api.data response) as [|w ws]; [left; eexists; reflexivity |].
    destruct (announced_pages response <=? page) eqn:Elast;
      [left; eexists; reflexivity |].
    destruct (_ <? 20); cbn [orb]; [left; eexists; reflexivity |].
    apply Z.leb_gt in Elast. specialize (Hpages page response Eresponse).
    apply IH; lia.
  - right. exists e. cbn [AcquireResourcesState.fetch_waypoints].
    rewrite Eresponse. reflexivity.
Qed.

(** X16. The loop that pages through the waypoints of a system ends
    within as many requests as the answers of the API announce pages, and
    within one request when they announce none: granted that many
    iterations, it returns the waypoints or raises the exception of a
    request that failed. *)
Theorem paging_ends_within_the_pages_announced
    (api : Api.client) (system : string) (pages : Z) (n : nat) :
  (forall (page : Z) (response : Api.waypoints_response),
     Api.get_system_waypoints api system page 20 = Api.Answer response ->
     announced_pages response <= pages) ->
  (1 <= n)%nat ->
  pages <= Z.of_nat n ->
  (exists waypoints,
     AcquireResourcesState.fetch_waypoints api n system 1 [] = Py.Ok waypoints)
  \/ (exists e,
        AcquireResourcesState.fetch_waypoints api n system 1 [] = Py.Raise e).
Proof.
  intros Hpages Hn Hfuel.
  apply (fetch_waypoints_bounded api system pages Hpages); [exact Hn | lia].
Qed.

(** X16, for a server of 45 waypoints and three iterations. *)
Lemma paging_45_waypoints_ends :
  (exists waypoints,
     AcquireResourcesState.fetch_waypoints
       (paging_api (json_agent 0) forty_five_waypoints no_yard) 3 "X1-DF55" 1 []
     = Py.Ok waypoints)
  \/ (exists e,
        AcquireResourcesState.fetch_waypoints
          (paging_api (json_agent 0) forty_five_waypoints no_yard) 3 "X1-DF55" 1 []
        = Py.Raise e).
Proof.
  apply (paging_ends_within_the_pages_announced
           (paging_api (json_agent 0) forty_five_waypoints no_yard) "X1-DF55" 3 3).
  - intros page response [= <-]. vm_compute. discriminate.
  - lia.
  - lia.
Defined.

Lemma firstn_add {A} (a b : nat) (l : list A) :
  firstn (a + b) l = firstn a l ++ firstn b (skipn a l).
Proof.
  revert l. induction a as [|a IH]; intros l; [reflexivity |].
  destruct l as [|x l]; cbn; [destruct b; reflexivity |].
  rewrite IH. reflexivity.
Qed.

Lemma announced_pages_of_served (waypoints : list Json.waypoint) (page k : Z) :
  announced_pages (served waypoints page) <= k
  <-> Z.of_nat (length waypoints) <= 20 * k.
Proof.
  unfold announced_pages, served, get.
  cbn -[Z.div Z.modulo Z.mul Z.of_nat Z.add Z.ltb].
  set (total := Z.of_nat (length waypoints)).
  pose proof (Z.div_mod total 20 ltac:(lia)) as Hdm.
  pose proof (Z.mod_pos_bound total 20 ltac:(lia)) as Hmod.
  destruct (0 <? total mod 20) eqn:E;
    [apply Z.ltb_lt in E | apply Z.ltb_ge in E]; cbv iota; lia.
Qed.

Lemma fetch_served (api : Api.client) (system : string)
    (waypoints : list Json.waypoint) :
  (forall page : Z,
     1 <= page ->
     Api.get_system_waypoints api system page 20 = Api.Answer (served waypoints page)) ->
  forall (n k : nat),
    (20 * k <= length waypoints)%nat ->
    (length waypoints - 20 * k < 20 * n)%nat ->
    AcquireResourcesState.fetch_waypoints api n system (Z.of_nat k + 1)
      (firstn (20 * k) waypoints)
    = Py.Ok waypoints.
Proof.
  intros Hserved n. induction n as [|n IH]; intros k Hk Hfuel; [lia |].
  rewrite (fetch_waypoints_step _ _ _ _ _ _ (Hserved (Z.of_nat k + 1) ltac:(lia))).
  pose proof (announced_pages_of_served waypoints (Z.of_nat k + 1) (Z.of_nat k + 1))
    as Hpages.
  destruct (announced_pages (served waypoints (Z.of_nat k + 1)) <=? Z.of_nat k + 1)
    eqn:Elast;
    [apply Z.leb_le in Elast; apply Hpages in Elast
    | apply Z.leb_gt in Elast;
      assert (Hmore : 20 * (Z.of_nat k + 1) < Z.of_nat (length waypoints))
        by (apply Z.nle_gt; intros H; apply Hpages in H; lia) ];
    clear Hpages.
  all: unfold served; cbn [Api.data].
  all: replace (Z.to_nat (Z.of_nat k + 1 - 1)) with k by lia.
  all: unfold page_of.
  all: pose proof (firstn_skipn (20 * k) waypoints) as Hsplit.
  all: pose proof (length_skipn (20 * k) waypoints) as Hrest.
  all: pose proof (length_firstn 20 (skipn (20 * k) waypoints)) as Hlen.
  all: destruct (firstn 20 (skipn (20 * k) waypoints)) as [|w ws] eqn:Epage.
  1, 3: f_equal; rewrite <- Hsplit at 2;
    assert (Hnil : skipn (20 * k) waypoints = [])
      by (destruct (skipn (20 * k) waypoints); [reflexivity | discriminate]);
    rewrite Hnil, app_nil_r; reflexivity.
  - cbn [orb]. rewrite <- Epage, <- firstn_add. f_equal. apply firstn_all2. lia.
  - cbn [orb]. rewrite <- Epage in *. rewrite <- firstn_add.
    destruct (Z.of_nat (length (firstn 20 (skipn (20 * k) waypoints))) <? 20) eqn:Eshort.
    + apply Z.ltb_lt in Eshort. f_equal. apply firstn_all2. lia.
    + replace (Z.of_nat k + 1 + 1) with (Z.of_nat (S k) + 1) by lia.
      replace (20 * k + 20)%nat with (20 * S k)%nat by lia.
      apply IH; lia.
Qed.

(** X17. From a server that holds a list of waypoints and serves it 20 to
    a page, announcing the length of the list, the paging loop returns the
    list, whole and in order, granted one iteration more than the twentieth
    of that length. *)
Theorem paging_returns_every_waypoint
    (api : Api.client) (system : string) (waypoints : list Json.waypoint) (n : nat) :
  (forall page : Z,
     1 <= page ->
     Api.get_system_waypoints api system page 20 = Api.Answer (served waypoints page)) ->
  (length waypoints / 20 + 1 <= n)%nat ->
  AcquireResourcesState.fetch_waypoints api n system 1 [] = Py.Ok waypoints.
Proof.
  intros Hserved Hn.
  apply (fetch_served api system waypoints Hserved n 0%nat); [lia |].
  pose proof (Nat.div_mod_eq (length waypoints) 20) as Hdm.
  pose proof (Nat.mod_upper_bound (length waypoints) 20 ltac:(lia)) as Hmod.
  lia.
Qed.

(** X17, for a server of 45 waypoints and three iterations. *)
Lemma paging_returns_45_waypoints :
  AcquireResourcesState.fetch_waypoints
    (paging_api (json_agent 0) forty_five_waypoints no_yard) 3 "X1-DF55" 1 []
  = Py.Ok forty_five_waypoints.
Proof.
  apply (paging_returns_every_waypoint
           (paging_api (json_agent 0) forty_five_waypoints no_yard)
           "X1-DF55" forty_five_waypoints 3).
  - intros page _. reflexivity.
  - vm_compute. lia.
Defined.

Lemma collect_shipyards_value (api : Api.client) (system : string)
    (waypoints : list Json.waypoint) (shipyards : list AcquireResourcesState.shipyard) :
  AcquireResourcesState.collect_shipyards api system shipyards waypoints
  = Py.Ok (shipyards ++ shipyards_at api system waypoints).
Proof.
  revert shipyards. induction waypoints as [|w ws IH]; intros shipyards;
    cbn [AcquireResourcesState.collect_shipyards shipyards_at flat_map].
  - rewrite app_nil_r. reflexivity.
  - fold (shipyards_at api system ws).
    destruct (AcquireResourcesState.has_shipyard w); [| apply IH].
    destruct (Api.get_shipyard api system (Json.waypoint_symbol w));
      cbn [Api.call mbind result_bind Py.bind Py.catch];
      rewrite IH, <- app_assoc; reflexivity.
Qed.

Lemma find_shipyards_returns (api : Api.client) (fuel : nat) (ctx : AgentContext.t) :
  (exists shipyards,
     AcquireResourcesState._find_shipyards api fuel ctx = Py.Ok shipyards)
  \/ AcquireResourcesState._find_shipyards api fuel ctx = Py.OutOfFuel.
Proof.
  unfold AcquireResourcesState._find_shipyards.
  destruct (AgentContext.agent_data ctx) as [agent|]; [| left; eexists; reflexivity].
  cbv zeta.
  destruct (AcquireResourcesState.fetch_waypoints api fuel _ 1 []) as [waypoints| e |];
    cbn [mbind result_bind Py.bind Py.catch].
  - rewrite collect_shipyards_value. left. eexists. reflexivity.
  - left. eexists. reflexivity.
  - right. reflexivity.
Qed.

(** X18. The search for shipyards never raises. Without an agent snapshot,
    and when a request for the waypoints of the system fails, it finds
    nothing. When the waypoints are fetched, it finds, in the order of the
    waypoints, one shipyard for each waypoint that has the trait SHIPYARD
    and whose details the API gives; a shipyard whose details cannot be
    fetched is left out and the search goes on. *)
Theorem shipyard_search_finds
    (api : Api.client) (fuel : nat) (ctx : AgentContext.t) :
  (AgentContext.agent_data ctx = None ->
   AcquireResourcesState._find_shipyards api fuel ctx = Py.Ok [])
  /\ (forall (agent : AgentData.t) (e : Py.exn),
        AgentContext.agent_data ctx = Some agent ->
        AcquireResourcesState.fetch_waypoints api fuel
          (Api.extract_system_from_waypoint api (AgentData.headquarters agent)) 1 []
        = Py.Raise e ->
        AcquireResourcesState._find_shipyards api fuel ctx = Py.Ok [])
  /\ (forall (agent : AgentData.t) (waypoints : list Json.waypoint),
        AgentContext.agent_data ctx = Some agent ->
        AcquireResourcesState.fetch_waypoints api fuel
          (Api.extract_system_from_waypoint api (AgentData.headquarters agent)) 1 []
        = Py.Ok waypoints ->
        AcquireResourcesState._find_shipyards api fuel ctx
        = Py.Ok (shipyards_at api
                   (Api.extract_system_from_waypoint api (AgentData.headquarters agent))
                   waypoints))
  /\ ((exists shipyards,
         AcquireResourcesState._find_shipyards api fuel ctx = Py.Ok shipyards)
      \/ AcquireResourcesState._find_shipyards api fuel ctx = Py.OutOfFuel).
Proof.
  unfold AcquireResourcesState._find_shipyards.
  split; [intros ->; reflexivity | split; [| split]].
  - intros agent e -> ->. reflexivity.
  - intros agent waypoints -> ->. cbn [mbind result_bind Py.bind].
    rewrite collect_shipyards_value. reflexivity.
  - apply find_shipyards_returns.
Qed.

(** ** The steps of the acquisition *)

Lemma fleet_and_agent_at_most_refl (w : World) : fleet_and_agent_at_most w w.
Proof. repeat split. Qed.

Lemma fleet_and_agent_at_most_trans (w1 w2 w3 : World) :
  fleet_and_agent_at_most w1 w2 -> fleet_and_agent_at_most w2 w3 ->
  fleet_and_agent_at_most w1 w3.
Proof.
  intros (H1 & H2 & H3 & H4) (K1 & K2 & K3 & K4).
  repeat split; congruence.
Qed.

Lemma purchase_and_record_returns (api : Api.client) (ship_info : Json.ship_offer)
    (wp : option string) (w : World) :
  exists (b : bool) (w' : World),
    try_except (AcquireResourcesState.purchase_and_record api ship_info wp)
               (fun e => mret false) w
    = (Py.Ok b, w')
    /\ fleet_and_agent_at_most w w'.
Proof.
  unfold AcquireResourcesState.purchase_and_record. unfold_monad.
  destruct (Api.purchase_ship api (Json.offer_type ship_info) wp) as [[data|]|e];
    cbn [Api.call];
    [| eexists; eexists; split; [reflexivity | apply fleet_and_agent_at_most_refl] ..].
  destruct (Json.purchase_ship data), (Json.purchase_agent data);
    cbn [context AgentContext.agent_data AgentContext.set_ships];
    try destruct (AgentContext.agent_data (context w));
    eexists; eexists; (split; [reflexivity | repeat split]).
Qed.

Lemma execute_ship_purchase_returns (api : Api.client) (ship_info : Json.ship_offer)
    (sy : AcquireResourcesState.shipyard) (w : World) :
  exists (b : bool) (w' : World),
    AcquireResourcesState._execute_ship_purchase api ship_info sy w = (Py.Ok b, w')
    /\ fleet_and_agent_at_most w w'.
Proof.
  destruct w as [ctx already].
  destruct (AcquireResourcesState._get_ship_at_waypoint ctx
              (AcquireResourcesState.waypoint_symbol sy)) as [ship|] eqn:Eship.
  - rewrite (purchase_with_ship_at_shipyard _ _ _ _ _ _ Eship).
    apply purchase_and_record_returns.
  - rewrite (no_purchase_without_ship_at_shipyard _ _ _ _ _ Eship).
    eexists; eexists. split; [reflexivity | apply fleet_and_agent_at_most_refl].
Qed.

Lemma purchase_cargo_ship_returns (api : Api.client)
    (shipyards : list AcquireResourcesState.shipyard) (min_cargo_needed : Z) (w : World) :
  exists (b : bool) (w' : World),
    AcquireResourcesState._purchase_cargo_ship api shipyards min_cargo_needed w
    = (Py.Ok b, w')
    /\ fleet_and_agent_at_most w w'.
Proof.
  unfold AcquireResourcesState._purchase_cargo_ship. unfold_monad.
  destruct (AgentContext.agent_data (context w));
    [| eexists; eexists; split; [reflexivity | apply fleet_and_agent_at_most_refl]].
  cbv zeta.
  destruct (AcquireResourcesState.best_ship _) as [[ship_info sy]|];
    [apply execute_ship_purchase_returns
    | eexists; eexists; split; [reflexivity | apply fleet_and_agent_at_most_refl]].
Qed.

(** Refuelling leaves the world as it is, whatever the API answers. *)
Lemma ensure_ships_fueled_returns (api : Api.client) (w : World) :
  AcquireResourcesState._ensure_ships_fueled api w = (Py.Ok tt, w).
Proof.
  unfold AcquireResourcesState._ensure_ships_fueled. unfold_monad.
  induction (AgentContext.ships (context w)) as [|ship rest IH]; [reflexivity |].
  cbn [AcquireResourcesState.for_each]. unfold_monad.
  destruct (_ && _); [| exact IH].
  destruct (Api.refuel_ship api (Ship.symbol ship)); cbn; exact IH.
Qed.

Lemma refresh_ship_data_returns (api : Api.client) (w : World) :
  AcquireResourcesState._refresh_ship_data api w
  = (Py.Ok tt,
     match Api.get_my_ships api with
     | Api.Answer ships_data =>
         {| context :=
              AgentContext.set_ships (map Ship.from_api_response ships_data) (context w);
            slept := slept w |}
     | Api.Failure _ => w
     end).
Proof.
  unfold AcquireResourcesState._refresh_ship_data. unfold_monad.
  destruct (Api.get_my_ships api); reflexivity.
Qed.

(** X19. Refuelling the fleet changes nothing of the context and does not
    fail, whatever the API answers. Refreshing the fleet does not fail
    either: it replaces the fleet of the context by the ships the API
    lists, and leaves the context as it is when the request fails. *)
Theorem refuelling_and_refreshing_do_not_fail (api : Api.client) (ctx : AgentContext.t) :
  run (AcquireResourcesState._ensure_ships_fueled api) ctx
  = (Py.Ok tt, {| context := ctx; slept := [] |})
  /\ (forall e : Py.exn,
        Api.get_my_ships api = Api.Failure e ->
        run (AcquireResourcesState._refresh_ship_data api) ctx
        = (Py.Ok tt, {| context := ctx; slept := [] |}))
  /\ (forall ships_data : list Json.ship,
        Api.get_my_ships api = Api.Answer ships_data ->
        run (AcquireResourcesState._refresh_ship_data api) ctx
        = (Py.Ok tt,
           {| context := AgentContext.set_ships (map Ship.from_api_response ships_data) ctx;
              slept := [] |})).
Proof.
  unfold run. split; [apply ensure_ships_fueled_returns | split].
  - intros e He. rewrite refresh_ship_data_returns, He. reflexivity.
  - intros ships_data Hs. rewrite refresh_ship_data_returns, Hs. reflexivity.
Qed.

Lemma acquisition_outcome
    (api : Api.client) (clock : Clock) (fuel : nat) (ctx : AgentContext.t) :
  let outcome := run (AcquireResourcesState.execute api clock fuel) ctx in
  let after := context (snd outcome) in
  (fst outcome = Py.Ok NEGOTIATE_CONTRACT
   /\ (slept (snd outcome) = [60] \/ slept (snd outcome) = [300]
       \/ slept (snd outcome) = [30] \/ slept (snd outcome) = [])
   /\ AgentContext.current_contract after = AgentContext.current_contract ctx
   /\ AgentContext.performance_metrics after = AgentContext.performance_metrics ctx
   /\ (AgentContext.strategy_config after = AgentContext.strategy_config ctx
       \/ after = AcquireResourcesState.mark_acquire_failed clock ctx))
  \/ (AcquireResourcesState._find_shipyards api fuel ctx = Py.OutOfFuel
      /\ outcome = (Py.OutOfFuel, {| context := ctx; slept := [] |})).
Proof.
  intros outcome after. subst after outcome. unfold run.
  rewrite execute_goes_on_to_acquire.
  set (needs := AcquireResourcesState._analyze_resource_needs ctx).
  unfold AcquireResourcesState.acquire. unfold_monad. cbn [context].
  destruct (find_shipyards_returns api fuel ctx) as [[shipyards ->] | ->];
    [| right; split; reflexivity].
  left.
  destruct shipyards as [|sy rest];
    [cbn; repeat split; [left; reflexivity | right; reflexivity] |].
  destruct (List.filter AcquireResourcesState.has_stock (sy :: rest)) as [|sy' stocked];
    [cbn; repeat split; [right; left; reflexivity | right; reflexivity] |].
  assert (Hbuy : exists (b : bool) (w' : World),
            (if AcquireResourcesState.need_cargo_capacity needs
             then AcquireResourcesState._purchase_cargo_ship api (sy' :: stocked)
                    (AcquireResourcesState.min_cargo_needed needs)
             else fun w => (Py.Ok true, w))
              {| context := ctx; slept := [] |}
            = (Py.Ok b, w')
            /\ fleet_and_agent_at_most {| context := ctx; slept := [] |} w').
  { destruct (AcquireResourcesState.need_cargo_capacity needs);
      [apply purchase_cargo_ship_returns
      | eexists; eexists; split; [reflexivity | apply fleet_and_agent_at_most_refl]]. }
  destruct Hbuy as (b & w' & Hbuy & Hslept & Hconfig & Hcontract & Hmetrics).
  cbv beta iota. unfold needs in Hbuy. rewrite Hbuy.
  cbn [slept context] in Hslept, Hconfig, Hcontract, Hmetrics.
  destruct b; cbn [negb].
  - rewrite ensure_ships_fueled_returns, refresh_ship_data_returns.
    destruct (Api.get_my_ships api); cbn;
      (split; [reflexivity |]);
      (split; [right; right; right; exact Hslept |]);
      (split; [exact Hcontract |]); (split; [exact Hmetrics |]); left; exact Hconfig.
  - cbn. split; [reflexivity |].
    split; [right; right; left; rewrite Hslept; reflexivity |].
    split; [exact Hcontract |]. split; [exact Hmetrics |]. left. exact Hconfig.
Qed.

(** X20. The acquisition never returns ERROR_RECOVERY, nor any state but
    NEGOTIATE_CONTRACT: granted the iterations its paging loop needs, it
    returns NEGOTIATE_CONTRACT after one sleep of 60, of 300 or of 30
    seconds or without sleeping. It leaves the current contract and the
    performance metrics as they were, and the strategy configuration as it
    was or with a failed acquisition recorded. *)
Theorem acquisition_returns_to_negotiation
    (api : Api.client) (clock : Clock) (fuel : nat) (ctx : AgentContext.t) :
  let outcome := run (AcquireResourcesState.execute api clock fuel) ctx in
  let after := context (snd outcome) in
  (fst outcome = Py.Ok NEGOTIATE_CONTRACT
   /\ (slept (snd outcome) = [60] \/ slept (snd outcome) = [300]
       \/ slept (snd outcome) = [30] \/ slept (snd outcome) = [])
   /\ AgentContext.current_contract after = AgentContext.current_contract ctx
   /\ AgentContext.performance_metrics after = AgentContext.performance_metrics ctx
   /\ (AgentContext.strategy_config after = AgentContext.strategy_config ctx
       \/ after = AcquireResourcesState.mark_acquire_failed clock ctx))
  \/ (AcquireResourcesState._find_shipyards api fuel ctx = Py.OutOfFuel
      /\ outcome = (Py.OutOfFuel, {| context := ctx; slept := [] |})).
Proof. apply acquisition_outcome. Qed.

(** ** The cooldown after a failed acquisition *)

Lemma analyze_in_cooldown (clock : Clock) (ctx : AgentContext.t)
    (contracts : list Contract.t) (next : AgentState) :
  NegotiateContractState.cooldown_over clock ctx = false ->
  NegotiateContractState._analyze_filtering_reasons clock ctx contracts = Py.Ok next ->
  next = NEGOTIATE_CONTRACT.
Proof.
  intros Hcool. unfold NegotiateContractState._analyze_filtering_reasons.
  destruct contracts as [|c rest]; [intros [= <-]; reflexivity |].
  destruct (NegotiateContractState.count_loop _ _ _ _) as [n| |];
    cbn [mbind result_bind Py.bind]; try discriminate.
  rewrite Hcool.
  destruct (_ || _); [| intros [= <-]; reflexivity].
  destruct (NegotiateContractState.can_afford_ship ctx); intros [= <-]; reflexivity.
Qed.

Lemma negotiation_in_cooldown (api : Api.client) (clock : Clock) (ctx : AgentContext.t) :
  NegotiateContractState.cooldown_over clock ctx = false ->
  fst (run (NegotiateContractState.execute api clock) ctx) = Py.Ok NEGOTIATE_CONTRACT
  \/ fst (run (NegotiateContractState.execute api clock) ctx) = Py.Ok ERROR_RECOVERY.
Proof.
  intros Hcool.
  unfold NegotiateContractState.execute, NegotiateContractState._get_available_contracts.
  unfold_monad.
  destruct (Api.get_my_contracts api) as [contracts_data|e]; cbn [Api.call];
    [| right; reflexivity].
  pose proof (available_contracts_terminate clock
                (map (Contract.from_api_response (datetime_parsed clock)) contracts_data))
    as Havailable.
  destruct (Py.filter _ _) as [available| e |]; [| right; reflexivity | contradiction].
  destruct available as [|c rest]; [left; reflexivity |].
  cbn [context].
  pose proof (filter_contracts_terminates ctx (c :: rest)) as Hsuitable.
  destruct (NegotiateContractState._filter_contracts_by_capabilities ctx (c :: rest))
    as [suitable| e |]; [| right; reflexivity | contradiction].
  destruct suitable as [|s others].
  - pose proof (analyze_filtering_reasons_terminates clock ctx (c :: rest)) as Hnext.
    destruct (NegotiateContractState._analyze_filtering_reasons clock ctx (c :: rest))
      as [next| e |] eqn:Enext; [| right; reflexivity | contradiction].
    rewrite (analyze_in_cooldown clock ctx _ next Hcool Enext). left. reflexivity.
  - pose proof (select_best_contract_terminates clock ctx (s :: others)) as Hbest.
    destruct (NegotiateContractState._select_best_contract clock ctx (s :: others))
      as [[best|]| e |] eqn:Ebest; [| left; reflexivity | right; reflexivity | contradiction].
    apply select_best_contract_has_local_deadline in Ebest.
    unfold NegotiateContractState._log_contract_details, datetime_sub.
    rewrite Ebest. right. reflexivity.
Qed.

(** X21. Once a failed acquisition is recorded at some time, the cooldown
    is over at a later reading of the clock exactly when more than 3600
    seconds have passed, and until then the negotiation does not return
    ACQUIRE_RESOURCES on that context: it returns NEGOTIATE_CONTRACT or
    ERROR_RECOVERY. The acquisition never clears the record: a context with
    a failed acquisition on record still has it after the acquisition has
    run. *)
Theorem failed_acquisition_starts_a_cooldown
    (clock later : Clock) (ctx : AgentContext.t) :
  let marked := AcquireResourcesState.mark_acquire_failed clock ctx in
  NegotiateContractState.cooldown_over later marked
  = Py.lt 3600 (time_time later - time_time clock)
  /\ (forall api : Api.client,
        (time_time later - time_time clock <= 3600)%Q ->
        fst (run (NegotiateContractState.execute api later) marked)
        = Py.Ok NEGOTIATE_CONTRACT
        \/ fst (run (NegotiateContractState.execute api later) marked)
           = Py.Ok ERROR_RECOVERY)
  /\ (forall (api : Api.client) (fuel : nat),
        AgentContext.strategy_config
          (context (snd (run (AcquireResourcesState.execute api later fuel) marked)))
          !! "acquire_failed"
        = Some (Py.VBool true)).
Proof.
  intros marked.
  destruct (mark_acquire_failed_records clock ctx) as (Hflag & Hlast & _).
  fold marked in Hflag, Hlast.
  assert (Hcool : NegotiateContractState.cooldown_over later marked
                  = Py.lt 3600 (time_time later - time_time clock)).
  { unfold NegotiateContractState.cooldown_over. cbv zeta.
    rewrite Hflag, Hlast. reflexivity. }
  split; [exact Hcool | split].
  - intros api Hearly. apply negotiation_in_cooldown.
    rewrite Hcool. apply lt_false. exact Hearly.
  - intros api fuel.
    destruct (acquisition_outcome api later fuel marked)
      as [(_ & _ & _ & _ & [Hsame | Hmarked]) | [_ Hout]].
    + rewrite Hsame. exact Hflag.
    + rewrite Hmarked. apply (mark_acquire_failed_records later marked).
    + rewrite Hout. exact Hflag.
Qed.

(** ** Purchases *)

Lemma offers_of_In (shipyards : list AcquireResourcesState.shipyard)
    (p : Json.ship_offer * AcquireResourcesState.shipyard) :
  In p (offers_of shipyards) -> In (snd p) shipyards.
Proof.
  unfold offers_of. intros H. apply in_flat_map in H.
  destruct H as (sy & Hsy & Hp). apply in_map_iff in Hp.
  destruct Hp as (o & <- & _). exact Hsy.
Qed.

(** The shipyard of the offer chosen is one of the shipyards given. *)
Lemma chosen_shipyard_is_given (spendable : Q) (min_cargo_needed : Z)
    (shipyards : list AcquireResourcesState.shipyard)
    (p : Json.ship_offer * AcquireResourcesState.shipyard) :
  AcquireResourcesState.best_ship
    (AcquireResourcesState.select_ship spendable min_cargo_needed shipyards) = Some p ->
  In (snd p) shipyards.
Proof.
  intros H.
  pose proof (select_ship_selects spendable min_cargo_needed shipyards) as Hsel.
  unfold selection_of in Hsel. rewrite H in Hsel.
  destruct Hsel as (_ & _ & before & after & Hsplit & _).
  apply offers_of_In. rewrite Hsplit. apply in_or_app. right. left. reflexivity.
Qed.

(** X22. When shipyards are found, some with a ship in stock, and no ship
    of the fleet is at the waypoint of any of them, the acquisition buys
    nothing, whatever the API would answer to a purchase and whether or not
    a ship can be sent to a shipyard: it sleeps 30 seconds and returns
    NEGOTIATE_CONTRACT, the context as it was. *)
Theorem no_purchase_unless_a_ship_is_at_a_shipyard
    (api : Api.client) (clock : Clock) (fuel : nat) (ctx : AgentContext.t)
    (shipyards : list AcquireResourcesState.shipyard) :
  AcquireResourcesState._find_shipyards api fuel ctx = Py.Ok shipyards ->
  Exists (fun sy => AcquireResourcesState.has_stock sy = true) shipyards ->
  Forall (fun sy =>
            AcquireResourcesState._get_ship_at_waypoint ctx
              (AcquireResourcesState.waypoint_symbol sy) = None)
         shipyards ->
  run (AcquireResourcesState.execute api clock fuel) ctx
  = (Py.Ok NEGOTIATE_CONTRACT, {| context := ctx; slept := [30] |}).
Proof.
  intros Hfound Hstock Hnone. unfold run.
  rewrite execute_goes_on_to_acquire.
  unfold AcquireResourcesState.acquire. unfold_monad. cbn [context].
  rewrite Hfound.
  destruct shipyards as [|sy rest]; [inversion Hstock |].
  destruct (List.filter AcquireResourcesState.has_stock (sy :: rest))
    as [|sy' stocked] eqn:Estocked.
  { exfalso. apply List.Exists_exists in Hstock. destruct Hstock as (x & Hx & Hs).
    assert (Hin : In x (List.filter AcquireResourcesState.has_stock (sy :: rest)))
      by (apply filter_In; split; assumption).
    rewrite Estocked in Hin. destruct Hin. }
  cbv beta iota.
  destruct (analysis_needs_capacity ctx) as (_ & -> & _).
  assert (Hbuy : AcquireResourcesState._purchase_cargo_ship api (sy' :: stocked)
                   (AcquireResourcesState.min_cargo_needed
                      (AcquireResourcesState._analyze_resource_needs ctx))
                   {| context := ctx; slept := [] |}
                 = (Py.Ok false, {| context := ctx; slept := [] |})).
  { unfold AcquireResourcesState._purchase_cargo_ship. unfold_monad. cbn [context].
    destruct (AgentContext.agent_data ctx); [| reflexivity]. cbv zeta.
    destruct (AcquireResourcesState.best_ship _) as [[ship_info chosen]|] eqn:Ebest;
      [| reflexivity].
    apply no_purchase_without_ship_at_shipyard.
    apply chosen_shipyard_is_given in Ebest. cbn [snd] in Ebest.
    rewrite <- Estocked in Ebest. apply filter_In in Ebest. destruct Ebest as [Hin _].
    rewrite List.Forall_forall in Hnone. apply Hnone. exact Hin. }
  rewrite Hbuy. reflexivity.
Qed.

(** X22, for a fleet of one ship at waypoint X1-DF55-A1 and a shipyard at
    X1-DF55-S1 that has a shuttle in stock, when every navigation and every
    purchase would succeed. *)
Lemma no_purchase_from_afar :
  run (AcquireResourcesState.execute
         (answering_api (json_agent 60000) [] [] [shipyard_waypoint]
            {| Json.ships := [shuttle] |} (Some answer_with_ship))
         clock_0 1)
      (context_with 60000 [ship_at "SHIP-1" "X1-DF55-A1" 40])
  = (Py.Ok NEGOTIATE_CONTRACT,
     {| context := context_with 60000 [ship_at "SHIP-1" "X1-DF55-A1" 40];
        slept := [30] |}).
Proof.
  apply (no_purchase_unless_a_ship_is_at_a_shipyard
           (answering_api (json_agent 60000) [] [] [shipyard_waypoint]
              {| Json.ships := [shuttle] |} (Some answer_with_ship))
           clock_0 1 (context_with 60000 [ship_at "SHIP-1" "X1-DF55-A1" 40])
           [shipyard_with [shuttle]] eq_refl).
  - constructor. reflexivity.
  - constructor; [reflexivity | constructor].
Defined.

(** X23. When a ship of the fleet is at the shipyard and the answer to the
    purchase carries the ship bought, that ship is added at the end of the
    fleet. With an agent snapshot in the context, the purchase is reported
    as successful and the snapshot is replaced by the one the answer
    describes, if it describes one. Without an agent payload in the answer
    the purchase is reported as successful, nothing else changed. With an
    agent payload and no snapshot in the context, reading the credits of
    the snapshot fails: the purchase is reported as failed although the
    ship has joined the fleet, and the context still has no snapshot. When
    the request for the purchase fails, the purchase is reported as failed
    and the context is as it was. *)
Theorem purchase_adds_the_ship
    (api : Api.client) (ctx : AgentContext.t) (ship_info : Json.ship_offer)
    (sy : AcquireResourcesState.shipyard) (ship : Ship.t) :
  AcquireResourcesState._get_ship_at_waypoint ctx
    (AcquireResourcesState.waypoint_symbol sy) = Some ship ->
  (forall (data : Json.purchase) (ship_data : Json.ship),
     Api.purchase_ship api (Json.offer_type ship_info)
       (AcquireResourcesState.waypoint_symbol sy) = Api.Answer (Some data) ->
     Json.purchase_ship data = Some ship_data ->
     let outcome := run (AcquireResourcesState._execute_ship_purchase api ship_info sy) ctx in
     let with_ship :=
       AgentContext.set_ships
         (AgentContext.ships ctx ++ [Ship.from_api_response ship_data]) ctx in
     AgentContext.ships (context (snd outcome))
     = AgentContext.ships ctx ++ [Ship.from_api_response ship_data]
     /\ (forall agent : AgentData.t,
           AgentContext.agent_data ctx = Some agent ->
           outcome
           = (Py.Ok true,
              {| context :=
                   AgentContext.update_agent_data (Json.purchase_agent data) with_ship;
                 slept := [] |}))
     /\ (Json.purchase_agent data = None ->
         outcome = (Py.Ok true, {| context := with_ship; slept := [] |}))
     /\ (forall agent_data : Json.agent,
           Json.purchase_agent data = Some agent_data ->
           AgentContext.agent_data ctx = None ->
           outcome = (Py.Ok false, {| context := with_ship; slept := [] |})
           /\ AgentContext.agent_data (context (snd outcome)) = None))
  /\ (forall e : Py.exn,
        Api.purchase_ship api (Json.offer_type ship_info)
          (AcquireResourcesState.waypoint_symbol sy) = Api.Failure e ->
        run (AcquireResourcesState._execute_ship_purchase api ship_info sy) ctx
        = (Py.Ok false, {| context := ctx; slept := [] |})).
Proof.
  intros Hship. unfold run.
  rewrite (purchase_with_ship_at_shipyard _ _ _ _ _ _ Hship).
  split.
  - intros data ship_data Hanswer Hdata.
    rewrite (purchase_and_record_value api ship_info _ ctx [] (Some data) Hanswer).
    rewrite Hdata. cbv zeta.
    destruct (Json.purchase_agent data) as [agent_data|] eqn:Eagent,
      (AgentContext.agent_data ctx) as [agent|] eqn:Esnapshot;
      cbn [fst snd context];
      (split; [reflexivity | split; [| split]]);
      try (intros a H; discriminate H);
      try (intros H; discriminate H);
      try (intros a H H'; first [discriminate H | discriminate H']).
    + intros a _. reflexivity.
    + intros a _ _. split; [reflexivity | exact Esnapshot].
    + intros a _. reflexivity.
    + intros _. reflexivity.
    + intros _. reflexivity.
  - intros e Hfailure.
    unfold AcquireResourcesState.purchase_and_record. unfold_monad.
    rewrite Hfailure. reflexivity.
Qed.

(** X23, for a fleet of one ship at the shipyard, an agent of 60000
    credits, and an answer with a ship of 40 units and an agent left with
    40000 credits. *)
Lemma purchase_at_the_shipyard :
  let ctx := context_with 60000 [ship_at "SHIP-1" "X1-DF55-S1" 40] in
  run (AcquireResourcesState._execute_ship_purchase
         (answering_api (json_agent 60000) [] [] [shipyard_waypoint]
            {| Json.ships := [shuttle] |} (Some answer_with_ship))
         shuttle (shipyard_with [shuttle]))
      ctx
  = (Py.Ok true,
     {| context :=
          AgentContext.update_agent_data (Json.purchase_agent answer_with_ship)
            (AgentContext.set_ships
               (AgentContext.ships ctx
                ++ [Ship.from_api_response (json_ship_at "SHIP-2" "X1-DF55-S1" 40)])
               ctx);
        slept := [] |}).
Proof.
  intros ctx.
  destruct (proj1 (purchase_adds_the_ship
                     (answering_api (json_agent 60000) [] [] [shipyard_waypoint]
                        {| Json.ships := [shuttle] |} (Some answer_with_ship))
                     ctx shuttle (shipyard_with [shuttle])
                     (ship_at "SHIP-1" "X1-DF55-S1" 40) eq_refl)
                  answer_with_ship (json_ship_at "SHIP-2" "X1-DF55-S1" 40)
                  eq_refl eq_refl) as (_ & Hsnapshot & _).
  exact (Hsnapshot _ eq_refl).
Defined.

(** ** Acceptance of a contract *)

(** What [_accept_contract] returns, case by case. *)
Lemma accept_contract_value
    (accept_contract : string -> Api.answer (option AcceptContractState.acceptance))
    (contract : Contract.t) (ctx : AgentContext.t) :
  AcceptContractState._accept_contract accept_contract contract ctx
  = match accept_contract (Contract.contract_id contract) with
    | Api.Answer (Some data) =>
        match AcceptContractState.acceptance_contract data,
              AcceptContractState.acceptance_agent data with
        | Some contract_data, Some agent_data =>
            let contract' :=
              match contract_data with
              | Some c =>
                  {| Contract.contract_id := Contract.contract_id contract;
                     Contract.faction_symbol := Contract.faction_symbol contract;
                     Contract.contract_type := Contract.contract_type contract;
                     Contract.terms := Contract.terms contract;
                     Contract.accepted := get (Json.contract_accepted c) false;
                     Contract.fulfilled := get (Json.contract_fulfilled c) false;
                     Contract.expiration := Contract.expiration contract |}
              | None => contract
              end in
            (Contract.accepted contract', contract',
             match agent_data with
             | Some a => AgentContext.update_agent_data (Some a) ctx
             | None => ctx
             end)
        | _, _ => (false, contract, ctx)
        end
    | _ => (false, contract, ctx)
    end.
Proof.
  unfold AcceptContractState._accept_contract.
  destruct (accept_contract (Contract.contract_id contract)) as [[data|]|e];
    cbn [Api.call mbind result_bind Py.bind]; try reflexivity.
  destruct (AcceptContractState.acceptance_contract data) as [contract_data|];
    cbn [AcceptContractState.subscript mbind result_bind Py.bind]; [| reflexivity].
  destruct (AcceptContractState.acceptance_agent data) as [agent_data|];
    cbn [AcceptContractState.subscript mbind result_bind Py.bind]; reflexivity.
Qed.

(** The call changes the agent snapshot of the context at most. *)
Lemma accept_contract_keeps
    (accept_contract : string -> Api.answer (option AcceptContractState.acceptance))
    (contract : Contract.t) (ctx : AgentContext.t) :
  let '(_, contract', ctx') :=
    AcceptContractState._accept_contract accept_contract contract ctx in
  AgentContext.current_contract ctx' = AgentContext.current_contract ctx
  /\ AgentContext.ships ctx' = AgentContext.ships ctx
  /\ AgentContext.strategy_config ctx' = AgentContext.strategy_config ctx
  /\ AgentContext.performance_metrics ctx' = AgentContext.performance_metrics ctx
  /\ Contract.terms contract' = Contract.terms contract
  /\ Contract.contract_type contract' = Contract.contract_type contract
  /\ Contract.contract_id contract' = Contract.contract_id contract.
Proof.
  rewrite accept_contract_value.
  destruct (accept_contract (Contract.contract_id contract)) as [[data|]|e];
    try (repeat split; fail).
  destruct (AcceptContractState.acceptance_contract data) as [[c|]|],
    (AcceptContractState.acceptance_agent data) as [[a|]|];
    repeat split.
Qed.

(** X24. The acceptance returns NEGOTIATE_CONTRACT, PLAN_FULFILLMENT or
    ERROR_RECOVERY. Without a current contract it returns
    NEGOTIATE_CONTRACT, and with a current contract that is accepted
    already it returns PLAN_FULFILLMENT, in both cases with everything as
    it was and whatever the API would answer. Whenever it returns
    PLAN_FULFILLMENT the current contract is an accepted one, and whenever
    it returns NEGOTIATE_CONTRACT there is no current contract. It never
    changes the fleet, the performance metrics or the entries of the
    strategy configuration that hold numbers. *)
Theorem acceptance_outcomes
    (accept_contract : string -> Api.answer (option AcceptContractState.acceptance))
    (clock : Clock) (m : AcceptContractState.memory) :
  let outcome := AcceptContractState.execute accept_contract clock m in
  let after := AcceptContractState.context (snd outcome) in
  (AgentContext.current_contract (AcceptContractState.context m) = None ->
   outcome = (NEGOTIATE_CONTRACT, m))
  /\ (forall contract : Contract.t,
        AgentContext.current_contract (AcceptContractState.context m) = Some contract ->
        Contract.accepted contract = true ->
        outcome = (PLAN_FULFILLMENT, m))
  /\ (fst outcome = PLAN_FULFILLMENT
      /\ (exists contract : Contract.t,
            AgentContext.current_contract after = Some contract
            /\ Contract.accepted contract = true)
      \/ fst outcome = NEGOTIATE_CONTRACT
         /\ AgentContext.current_contract after = None
      \/ fst outcome = ERROR_RECOVERY)
  /\ AgentContext.ships after = AgentContext.ships (AcceptContractState.context m)
  /\ AgentContext.performance_metrics after
     = AgentContext.performance_metrics (AcceptContractState.context m)
  /\ AgentContext.strategy_config after
     = AgentContext.strategy_config (AcceptContractState.context m).
Proof.
  intros outcome after. subst after outcome.
  unfold AcceptContractState.execute.
  destruct (AgentContext.current_contract (AcceptContractState.context m))
    as [contract|] eqn:Ecurrent.
  2:{ split; [reflexivity |]. split; [discriminate |].
      split; [right; left; split; [reflexivity | exact Ecurrent] | repeat split]. }
  split; [discriminate |].
  destruct (Contract.accepted contract) eqn:Eaccepted.
  { split; [intros c [= <-] _; reflexivity |].
    split; [left; split; [reflexivity | exists contract; split; assumption] |].
    repeat split. }
  split; [intros c [= <-] H; rewrite H in Eaccepted; discriminate |].
  pose proof (accept_contract_keeps accept_contract contract (AcceptContractState.context m))
    as Hkeep.
  destruct (AcceptContractState._accept_contract accept_contract contract
              (AcceptContractState.context m)) as [[success contract'] ctx'].
  destruct Hkeep as (_ & Hships & Hconfig & Hmetrics & _).
  destruct success.
  - unfold AcceptContractState._record_contract_acceptance. cbn [AcceptContractState.context
      AcceptContractState.set_context AgentContext.current_contract
      AgentContext.set_current_contract].
    destruct (existsb _ _);
      destruct (AcceptContractState._log_acceptance_details clock
                  (AcceptContractState.mark_accepted contract'));
      cbn [fst snd AcceptContractState.context];
      (split;
       [ first [ left; split; [reflexivity | eexists; split; reflexivity]
               | right; right; reflexivity ]
       | repeat split; assumption ]).
  - cbn [fst snd AcceptContractState.context AcceptContractState.set_context].
    split; [right; left; split; reflexivity | repeat split; assumption].
Qed.

(** X25. When the current contract is not accepted yet and the answer to
    its acceptance cannot be used, because the request failed, the answer
    is empty or has no data, or its data lack the contract or the agent,
    the acceptance returns NEGOTIATE_CONTRACT and drops the current
    contract, everything else as it was. When the answer can be used and
    does not report the contract as accepted, it does the same, with the
    agent snapshot replaced by the one the answer describes, if it
    describes one. *)
Theorem failed_acceptance_drops_the_contract
    (accept_contract : string -> Api.answer (option AcceptContractState.acceptance))
    (clock : Clock) (m : AcceptContractState.memory) (contract : Contract.t) :
  AgentContext.current_contract (AcceptContractState.context m) = Some contract ->
  Contract.accepted contract = false ->
  (unusable (accept_contract (Contract.contract_id contract)) = true ->
   AcceptContractState.execute accept_contract clock m
   = (NEGOTIATE_CONTRACT,
      AcceptContractState.set_context
        (AgentContext.set_current_contract None (AcceptContractState.context m)) m))
  /\ (forall (data : AcceptContractState.acceptance)
             (contract_data : option Json.contract) (agent_data : option Json.agent),
        accept_contract (Contract.contract_id contract) = Api.Answer (Some data) ->
        AcceptContractState.acceptance_contract data = Some contract_data ->
        AcceptContractState.acceptance_agent data = Some agent_data ->
        match contract_data with
        | Some c => get (Json.contract_accepted c) false
        | None => false
        end = false ->
        AcceptContractState.execute accept_contract clock m
        = (NEGOTIATE_CONTRACT,
           AcceptContractState.set_context
             (AgentContext.set_current_contract None
                (AgentContext.update_agent_data agent_data
                   (AcceptContractState.context m))) m)).
Proof.
  intros Hcurrent Hnot. unfold AcceptContractState.execute.
  rewrite Hcurrent, Hnot, accept_contract_value.
  split.
  - unfold unusable.
    destruct (accept_contract (Contract.contract_id contract)) as [[data|]|e];
      try reflexivity.
    destruct (AcceptContractState.acceptance_contract data),
      (AcceptContractState.acceptance_agent data); try reflexivity; discriminate.
  - intros data contract_data agent_data -> -> -> Hrefused. cbv zeta.
    destruct contract_data as [c|]; cbn [Contract.accepted].
    + rewrite Hrefused. destruct agent_data; reflexivity.
    + rewrite Hnot. destruct agent_data; reflexivity.
Qed.

(** X25, when the request for the acceptance fails. *)
Lemma acceptance_fails_with_the_request :
  AcceptContractState.execute (fun _ => Api.Failure Py.ApiError) clock_0
    (memory_of (context_with_offer (utc (2 * day))))
  = (NEGOTIATE_CONTRACT,
     AcceptContractState.set_context
       (AgentContext.set_current_contract None (context_with_offer (utc (2 * day))))
       (memory_of (context_with_offer (utc (2 * day))))).
Proof.
  exact (proj1 (failed_acceptance_drops_the_contract
                  (fun _ => Api.Failure Py.ApiError) clock_0
                  (memory_of (context_with_offer (utc (2 * day))))
                  (offer (utc (2 * day)) None 1000 4000 [delivery_of 50 0])
                  eq_refl eq_refl)
               eq_refl).
Defined.

Lemma recorded_types (type : string) (old : list string) :
  let types := if existsb (String.eqb type) old then old else old ++ [type] in
  In type types /\ (exists added, types = old ++ added) /\ (NoDup old -> NoDup types).
Proof.
  cbv zeta. destruct (existsb (String.eqb type) old) eqn:Eknown.
  - split; [| split].
    + apply existsb_exists in Eknown. destruct Eknown as (x & Hx & Heq).
      apply String.eqb_eq in Heq. subst x. exact Hx.
    + exists []. rewrite app_nil_r. reflexivity.
    + intros H. exact H.
  - split; [| split].
    + apply in_or_app. right. left. reflexivity.
    + exists [type]. reflexivity.
    + intros H. apply NoDup_app. split; [exact H |]. split.
      * intros x Hx Hx'. apply list_elem_of_singleton in Hx'. subst x.
        apply list_elem_of_In in Hx.
        assert (Hex : existsb (String.eqb type) old = true)
          by (apply existsb_exists; exists type; split;
              [exact Hx | apply String.eqb_refl]).
        rewrite Hex in Eknown. discriminate.
      * apply NoDup_singleton.
Qed.

Lemma record_contract_acceptance_value (m : AcceptContractState.memory)
    (contract : Contract.t) :
  AgentContext.current_contract (AcceptContractState.context m) = Some contract ->
  let type := ContractType_value (Contract.contract_type contract) in
  let old := get (AcceptContractState.successful_contract_types m) [] in
  let m' := AcceptContractState._record_contract_acceptance m in
  AcceptContractState.context m' = AcceptContractState.context m
  /\ get (AcceptContractState.successful_contract_types m') []
     = if existsb (String.eqb type) old then old else old ++ [type].
Proof.
  intros Hcurrent. cbv zeta. unfold AcceptContractState._record_contract_acceptance.
  rewrite Hcurrent. destruct (existsb _ _); split; reflexivity.
Qed.

(** X26. When the current contract is not accepted yet and the answer to
    its acceptance reports it as accepted, the contract stays the current
    contract, marked as accepted and with the fulfilled flag of the answer;
    the agent snapshot is replaced by the one the answer describes, if it
    describes one; and the type of the contract is among the successful
    types on record, which keep the types they had, in their order, and
    hold no type twice if they held none twice. The next state is
    PLAN_FULFILLMENT when the deadline of the contract names a time zone;
    when it names none, the time to the deadline cannot be computed for the
    log and the next state is ERROR_RECOVERY. *)
Theorem accepted_contract_is_recorded
    (accept_contract : string -> Api.answer (option AcceptContractState.acceptance))
    (clock : Clock) (m : AcceptContractState.memory) (contract : Contract.t)
    (data : AcceptContractState.acceptance) (c : Json.contract)
    (agent_data : option Json.agent) :
  AgentContext.current_contract (AcceptContractState.context m) = Some contract ->
  Contract.accepted contract = false ->
  accept_contract (Contract.contract_id contract) = Api.Answer (Some data) ->
  AcceptContractState.acceptance_contract data = Some (Some c) ->
  AcceptContractState.acceptance_agent data = Some agent_data ->
  get (Json.contract_accepted c) false = true ->
  let outcome := AcceptContractState.execute accept_contract clock m in
  let after := AcceptContractState.context (snd outcome) in
  let before := get (AcceptContractState.successful_contract_types m) [] in
  let types := get (AcceptContractState.successful_contract_types (snd outcome)) [] in
  fst outcome
  = (if aware (ContractTerms.deadline (Contract.terms contract))
     then PLAN_FULFILLMENT else ERROR_RECOVERY)
  /\ AgentContext.current_contract after
     = Some (with_flags contract true (get (Json.contract_fulfilled c) false))
  /\ after
     = AgentContext.set_current_contract
         (Some (with_flags contract true (get (Json.contract_fulfilled c) false)))
         (AgentContext.update_agent_data agent_data (AcceptContractState.context m))
  /\ In (ContractType_value (Contract.contract_type contract)) types
  /\ (exists added, types = before ++ added)
  /\ (NoDup before -> NoDup types).
Proof.
  intros Hcurrent Hnot Hanswer Hcontract Hagent Haccepted outcome after before types.
  assert (Hout : outcome
                 = (if aware (ContractTerms.deadline (Contract.terms contract))
                    then PLAN_FULFILLMENT else ERROR_RECOVERY,
                    AcceptContractState._record_contract_acceptance
                      (AcceptContractState.set_context
                         (AgentContext.set_current_contract
                            (Some (with_flags contract true
                                     (get (Json.contract_fulfilled c) false)))
                            (AgentContext.update_agent_data agent_data
                               (AcceptContractState.context m))) m))).
  { subst outcome. unfold AcceptContractState.execute.
    rewrite Hcurrent, Hnot, accept_contract_value, Hanswer, Hcontract, Hagent.
    cbv zeta. cbn [Contract.accepted]. rewrite Haccepted.
    unfold AcceptContractState._log_acceptance_details, datetime_sub,
      AcceptContractState.mark_accepted.
    cbn [Contract.terms Contract.fulfilled Contract.contract_id Contract.faction_symbol
         Contract.contract_type Contract.expiration utc aware].
    fold (with_flags contract true (get (Json.contract_fulfilled c) false)).
    destruct (aware (ContractTerms.deadline (Contract.terms contract)));
      destruct agent_data; reflexivity. }
  subst types after before. rewrite Hout. cbn [fst snd].
  match goal with
  | |- context [AcceptContractState._record_contract_acceptance ?m0] =>
      destruct (record_contract_acceptance_value m0
                  (with_flags contract true (get (Json.contract_fulfilled c) false))
                  eq_refl) as [Hctx Htypes]
  end.
  cbv zeta in Hctx, Htypes.
  cbn [AcceptContractState.context AcceptContractState.set_context
       AcceptContractState.successful_contract_types with_flags
       Contract.contract_type] in Hctx, Htypes.
  rewrite Hctx, Htypes.
  split; [reflexivity | split; [reflexivity | split; [reflexivity |]]].
  apply recorded_types.
Qed.

(** X26, for the offer of scenario B accepted by the API: with its deadline
    written with a time zone the next state is PLAN_FULFILLMENT. *)
Lemma accepted_offer_is_planned :
  let m := memory_of (context_with_offer (utc (2 * day))) in
  let contract := offer (utc (2 * day)) None 1000 4000 [delivery_of 50 0] in
  let outcome := AcceptContractState.execute accepting clock_0 m in
  let after := AcceptContractState.context (snd outcome) in
  let types := get (AcceptContractState.successful_contract_types (snd outcome)) [] in
  fst outcome = PLAN_FULFILLMENT
  /\ AgentContext.current_contract after = Some (with_flags contract true false)
  /\ after
     = AgentContext.set_current_contract (Some (with_flags contract true false))
         (AgentContext.update_agent_data (Some (json_agent 2000))
            (context_with_offer (utc (2 * day))))
  /\ In "PROCUREMENT" types
  /\ (exists added, types = [] ++ added)
  /\ (NoDup (@nil string) -> NoDup types).
Proof.
  exact (accepted_contract_is_recorded accepting clock_0
           (memory_of (context_with_offer (utc (2 * day))))
           (offer (utc (2 * day)) None 1000 4000 [delivery_of 50 0])
           _ _ _ eq_refl eq_refl eq_refl eq_refl eq_refl eq_refl).
Defined.

(** ** Contracts that name no deadline *)

(** X29. A contract that names no expiration and whose terms name no
    deadline is due at the instant its answer is parsed: once the clock has
    moved on, the contract is expired. When every contract fetched is such
    a one, none is available: the negotiation sleeps 10 seconds and returns
    NEGOTIATE_CONTRACT, the context as it was, whatever the contracts ask
    for and whatever the fleet and the credits. *)
Theorem offers_without_deadline_are_expired
    (api : Api.client) (clock : Clock) (ctx : AgentContext.t)
    (contracts_data : list Json.contract) :
  datetime_parsed clock < datetime_now clock ->
  Api.get_my_contracts api = Api.Answer contracts_data ->
  Forall (fun data =>
            Json.contract_expiration data = None
            /\ Json.terms_deadline (get (Json.contract_terms data) Contract.empty_terms)
               = None)
         contracts_data ->
  Forall (fun c => Contract.is_expired (datetime_now clock) c = Py.Ok true)
         (map (Contract.from_api_response (datetime_parsed clock)) contracts_data)
  /\ run (NegotiateContractState.execute api clock) ctx
     = (Py.Ok NEGOTIATE_CONTRACT, {| context := ctx; slept := [10] |}).
Proof.
  intros Hlater Hcontracts Hnone.
  assert (Hexpired :
            Forall (fun c => Contract.is_expired (datetime_now clock) c = Py.Ok true)
                   (map (Contract.from_api_response (datetime_parsed clock))
                        contracts_data)).
  { apply List.Forall_forall. intros c Hin. apply in_map_iff in Hin.
    destruct Hin as (data & <- & Hin).
    rewrite List.Forall_forall in Hnone. destruct (Hnone data Hin) as [Hexpiration Hdeadline].
    rewrite is_expired_by_instant.
    unfold expiry_datetime, Contract.from_api_response, ContractTerms.from_api_response.
    cbn [Contract.expiration Contract.terms ContractTerms.deadline].
    rewrite Hexpiration, Hdeadline. cbn [get naive aware timestamp].
    f_equal. apply Z.ltb_lt. exact Hlater. }
  split; [exact Hexpired |].
  unfold NegotiateContractState.execute, NegotiateContractState._get_available_contracts.
  unfold_monad. rewrite Hcontracts. cbn [Api.call].
  rewrite (filter_returns _ (fun _ => false)).
  - assert (Hnil : forall cs : list Contract.t, List.filter (fun _ => false) cs = [])
      by (induction cs as [|c cs IH]; [reflexivity | exact IH]).
    rewrite Hnil. reflexivity.
  - eapply Forall_impl; [exact Hexpired |]. intros c Hc. cbn beta in Hc.
    unfold NegotiateContractState.is_available. rewrite Hc.
    destruct (Contract.accepted c), (Contract.fulfilled c); reflexivity.
Qed.

(** X29, for a fleet of one ship of 40 units and an agent of 60000 credits,
    when the API lists one offer of 50 units without a deadline, parsed a
    moment before the clock is read. *)
Lemma offer_without_deadline_is_not_negotiated :
  Forall (fun c => Contract.is_expired (datetime_now clock_0) c = Py.Ok true)
         (map (Contract.from_api_response (datetime_parsed clock_0))
              [offer_without_deadline])
  /\ run (NegotiateContractState.execute
            (answering_api (json_agent 60000) [] [offer_without_deadline] [] no_yard None)
            clock_0)
         (context_with 60000 [ship_at "SHIP-1" "X1-DF55-A1" 40])
     = (Py.Ok NEGOTIATE_CONTRACT,
        {| context := context_with 60000 [ship_at "SHIP-1" "X1-DF55-A1" 40];
           slept := [10] |}).
Proof.
  apply (offers_without_deadline_are_expired
           (answering_api (json_agent 60000) [] [offer_without_deadline] [] no_yard None)
           clock_0 (context_with 60000 [ship_at "SHIP-1" "X1-DF55-A1" 40])
           [offer_without_deadline]).
  - reflexivity.
  - reflexivity.
  - repeat constructor.
Defined.

(** ** The system of a waypoint *)

Lemma split_cons (sep : ascii) (c : ascii) (rest : string) :
  split sep (String c rest)
  = if Ascii.eqb c sep then EmptyString :: split sep rest
    else match split sep rest with
         | part :: parts => String c part :: parts
         | [] => [String c EmptyString]
         end.
Proof. reflexivity. Qed.

Lemma append_cons (c : ascii) (a b : string) :
  (String c a ++ b = String c (a ++ b))%string.
Proof. reflexivity. Qed.

Lemma split_no_hyphen (s : string) :
  no_hyphen s = true -> split "-" s = [s].
Proof.
  induction s as [|c rest IH]; [reflexivity |].
  cbn [no_hyphen]. rewrite andb_true_iff, negb_true_iff. intros [Hc Hrest].
  rewrite split_cons, Hc, (IH Hrest). reflexivity.
Qed.

Lemma split_at_hyphen (a rest : string) :
  no_hyphen a = true ->
  split "-" (a ++ String "-" rest) = a :: split "-" rest.
Proof.
  induction a as [|c a IH]; [reflexivity |].
  cbn [no_hyphen]. rewrite andb_true_iff, negb_true_iff. intros [Hc Ha].
  rewrite append_cons, split_cons, Hc, (IH Ha). reflexivity.
Qed.

(** Every string is a part without hyphen, alone or followed by a hyphen
    and the rest. *)
Lemma first_part (s : string) :
  exists a : string,
    no_hyphen a = true /\ (s = a \/ exists rest : string, s = (a ++ String "-" rest)%string).
Proof.
  induction s as [|c s (a & Ha & IH)].
  - exists EmptyString. split; [reflexivity | left; reflexivity].
  - destruct (Ascii.eqb c "-") eqn:Ec.
    + apply Ascii.eqb_eq in Ec. subst c.
      exists EmptyString. split; [reflexivity |]. right. exists s. reflexivity.
    + exists (String c a). split; [cbn [no_hyphen]; rewrite Ec, Ha; reflexivity |].
      destruct IH as [-> | [rest ->]]; [left | right; exists rest]; reflexivity.
Qed.

Lemma append_empty (a : string) : (a ++ EmptyString = a)%string.
Proof.
  induction a as [|x a IH]; [reflexivity |]. rewrite append_cons, IH. reflexivity.
Qed.

Lemma append_assoc (a b c : string) : ((a ++ b) ++ c = a ++ (b ++ c))%string.
Proof.
  induction a as [|x a IH]; [reflexivity |]. rewrite !append_cons, IH. reflexivity.
Qed.

(** The system of a waypoint symbol, by the shape of the symbol. *)
Lemma extract_system_cases (s : string) :
  (exists a : string,
     no_hyphen a = true /\ s = a
     /\ SpaceTradersAPIClient.extract_system_from_waypoint s = a
     /\ SpaceTraderClient.system_symbol s = a)
  \/ (exists a b : string,
        no_hyphen a = true /\ no_hyphen b = true
        /\ (s = (a ++ "-" ++ b)%string
            \/ exists rest : string, s = (a ++ "-" ++ b ++ String "-" rest)%string)
        /\ SpaceTradersAPIClient.extract_system_from_waypoint s = (a ++ "-" ++ b)%string
        /\ SpaceTraderClient.system_symbol s = (a ++ "-" ++ b)%string).
Proof.
  unfold SpaceTradersAPIClient.extract_system_from_waypoint,
    SpaceTraderClient.system_symbol.
  destruct (first_part s) as (a & Ha & [-> | [rest ->]]).
  - left. exists a. rewrite (split_no_hyphen a Ha). repeat split. exact Ha.
  - right. destruct (first_part rest) as (b & Hb & [-> | [rest' ->]]).
    + exists a, b. rewrite (split_at_hyphen a b Ha), (split_no_hyphen b Hb).
      repeat split; try assumption. left. reflexivity.
    + exists a, b.
      rewrite (split_at_hyphen a _ Ha), (split_at_hyphen b rest' Hb).
      split; [exact Ha | split; [exact Hb |]].
      split; [right; exists rest'; reflexivity |].
      destruct (split "-" rest'); split; reflexivity.
Qed.

(** X27. The system of a waypoint symbol is the symbol itself when it
    holds no hyphen or one, and what precedes its second hyphen otherwise.
    It is a prefix of the symbol; taking the system of a system gives the
    system again; and the two clients of the repository compute the same
    system for every symbol. *)
Theorem system_of_a_waypoint (s : string) :
  SpaceTradersAPIClient.extract_system_from_waypoint s
  = SpaceTraderClient.system_symbol s
  /\ (exists rest : string,
        s = (SpaceTradersAPIClient.extract_system_from_waypoint s ++ rest)%string)
  /\ SpaceTradersAPIClient.extract_system_from_waypoint
       (SpaceTradersAPIClient.extract_system_from_waypoint s)
     = SpaceTradersAPIClient.extract_system_from_waypoint s
  /\ (no_hyphen s = true ->
      SpaceTradersAPIClient.extract_system_from_waypoint s = s)
  /\ (forall a b : string,
        no_hyphen a = true ->
        no_hyphen b = true ->
        (s = (a ++ "-" ++ b)%string
         \/ exists rest : string, s = (a ++ "-" ++ b ++ String "-" rest)%string) ->
        SpaceTradersAPIClient.extract_system_from_waypoint s = (a ++ "-" ++ b)%string).
Proof.
  assert (Htwo : forall a b : string,
            no_hyphen a = true -> no_hyphen b = true ->
            SpaceTradersAPIClient.extract_system_from_waypoint (a ++ "-" ++ b)
            = (a ++ "-" ++ b)%string).
  { intros a b Ha Hb. unfold SpaceTradersAPIClient.extract_system_from_waypoint.
    change (a ++ "-" ++ b)%string with (a ++ String "-" b)%string.
    rewrite (split_at_hyphen a b Ha), (split_no_hyphen b Hb). reflexivity. }
  assert (Hone : forall a : string,
            no_hyphen a = true ->
            SpaceTradersAPIClient.extract_system_from_waypoint a = a).
  { intros a Ha. unfold SpaceTradersAPIClient.extract_system_from_waypoint.
    rewrite (split_no_hyphen a Ha). reflexivity. }
  split; [| split; [| split; [| split]]].
  - destruct (extract_system_cases s)
      as [(a & _ & _ & -> & ->) | (a & b & _ & _ & _ & -> & ->)]; reflexivity.
  - destruct (extract_system_cases s)
      as [(a & _ & -> & -> & _) | (a & b & _ & _ & [-> | [rest ->]] & -> & _)].
    + exists EmptyString. symmetry. apply append_empty.
    + exists EmptyString. symmetry. apply append_empty.
    + exists (String "-" rest).
      change (a ++ "-" ++ b ++ String "-" rest)%string
        with (a ++ (String "-" b ++ String "-" rest))%string.
      change (a ++ "-" ++ b)%string with (a ++ String "-" b)%string.
      rewrite append_assoc. reflexivity.
  - destruct (extract_system_cases s)
      as [(a & Ha & _ & -> & _) | (a & b & Ha & Hb & _ & -> & _)].
    + apply Hone. exact Ha.
    + apply Htwo; assumption.
  - apply Hone.
  - intros a b Ha Hb [-> | [rest ->]]; [apply Htwo; assumption |].
    unfold SpaceTradersAPIClient.extract_system_from_waypoint.
    change (a ++ "-" ++ b ++ String "-" rest)%string
      with (a ++ String "-" (b ++ String "-" rest))%string.
    rewrite (split_at_hyphen a _ Ha), (split_at_hyphen b rest Hb).
    destruct (split "-" rest); reflexivity.
Qed.

(** ** The loop of the agent *)

(** One round from a state other than ERROR_RECOVERY. *)
Lemma round_value (st : AgentState) (completed earned errors : Z) (run : bool)
    (naps : list Z) :
  st <> ERROR_RECOVERY ->
  SpaceTradersAgent.round
    {| SpaceTradersAgent.current_state := st;
       SpaceTradersAgent.contracts_completed := completed;
       SpaceTradersAgent.total_credits_earned := earned;
       SpaceTradersAgent.errors_encountered := errors;
       SpaceTradersAgent.running := run;
       SpaceTradersAgent.slept := naps |}
  = {| SpaceTradersAgent.current_state :=
         fst (SpaceTradersAgent.execute_current_state
                {| SpaceTradersAgent.current_state := st;
                   SpaceTradersAgent.contracts_completed := completed;
                   SpaceTradersAgent.total_credits_earned := earned;
                   SpaceTradersAgent.errors_encountered := errors;
                   SpaceTradersAgent.running := run;
                   SpaceTradersAgent.slept := naps |});
       SpaceTradersAgent.contracts_completed :=
         match st with COMPLETE_CONTRACT => completed + 1 | _ => completed end;
       SpaceTradersAgent.total_credits_earned := earned;
       SpaceTradersAgent.errors_encountered := errors;
       SpaceTradersAgent.running := run;
       SpaceTradersAgent.slept := naps ++ [1] |}.
Proof.
  intros Hst. unfold SpaceTradersAgent.round.
  destruct st; try contradiction;
    cbn [SpaceTradersAgent.execute_current_state SpaceTradersAgent.current_state
         SpaceTradersAgent.state_complete_contract fst
         SpaceTradersAgent.contracts_completed SpaceTradersAgent.total_credits_earned
         SpaceTradersAgent.errors_encountered SpaceTradersAgent.running
         SpaceTradersAgent.slept];
    rewrite bool_decide_eq_false_2 by discriminate; reflexivity.
Qed.

(** Eight rounds from a state of the cycle lead back to it, one contract
    more counted as completed. *)
Lemma eight_rounds (st : AgentState) (completed earned errors : Z) (run : bool)
    (naps : list Z) :
  In st [ASSESS_SITUATION; NEGOTIATE_CONTRACT; ACCEPT_CONTRACT; PLAN_FULFILLMENT;
         EXECUTE_CONTRACT; DELIVER_GOODS; COMPLETE_CONTRACT; EVALUATE_PERFORMANCE] ->
  SpaceTradersAgent.rounds 8
    {| SpaceTradersAgent.current_state := st;
       SpaceTradersAgent.contracts_completed := completed;
       SpaceTradersAgent.total_credits_earned := earned;
       SpaceTradersAgent.errors_encountered := errors;
       SpaceTradersAgent.running := run;
       SpaceTradersAgent.slept := naps |}
  = {| SpaceTradersAgent.current_state := st;
       SpaceTradersAgent.contracts_completed := completed + 1;
       SpaceTradersAgent.total_credits_earned := earned;
       SpaceTradersAgent.errors_encountered := errors;
       SpaceTradersAgent.running := run;
       SpaceTradersAgent.slept := naps ++ repeat 1 8 |}.
Proof.
  intros Hst. unfold SpaceTradersAgent.rounds, Nat.iter. cbn [nat_rect In repeat] in *.
  repeat (destruct Hst as [<- | Hst]); try contradiction;
    repeat (rewrite round_value by discriminate;
            cbn [SpaceTradersAgent.execute_current_state
                 SpaceTradersAgent.state_complete_contract
                 SpaceTradersAgent.current_state fst]);
    rewrite <- !app_assoc; reflexivity.
Qed.

Lemma state_after_cycle (n : nat) :
  (1 <= n)%nat ->
  In (state_after n)
     [ASSESS_SITUATION; NEGOTIATE_CONTRACT; ACCEPT_CONTRACT; PLAN_FULFILLMENT;
      EXECUTE_CONTRACT; DELIVER_GOODS; COMPLETE_CONTRACT; EVALUATE_PERFORMANCE]
  /\ state_after (8 + n) = state_after n.
Proof.
  intros Hn. destruct n as [|k]; [lia |]. split.
  - unfold state_after. apply nth_In. cbn [length].
    apply Nat.mod_upper_bound. lia.
  - replace (8 + S k)%nat with (S (k + 1 * 8))%nat by lia.
    unfold state_after. rewrite Nat.Div0.mod_add. reflexivity.
Qed.

Lemma rounds_add (a b : nat) (self : SpaceTradersAgent.t) :
  SpaceTradersAgent.rounds (a + b) self
  = SpaceTradersAgent.rounds a (SpaceTradersAgent.rounds b self).
Proof. apply Nat.iter_add. Qed.

Lemma rounds_value (n : nat) :
  SpaceTradersAgent.rounds n SpaceTradersAgent.initial
  = {| SpaceTradersAgent.current_state := state_after n;
       SpaceTradersAgent.contracts_completed := Z.of_nat (n / 8);
       SpaceTradersAgent.total_credits_earned := 0;
       SpaceTradersAgent.errors_encountered := 0;
       SpaceTradersAgent.running := true;
       SpaceTradersAgent.slept := repeat 1 n |}.
Proof.
  induction n as [n IH] using (well_founded_induction lt_wf).
  destruct (Nat.lt_ge_cases n 9) as [Hsmall | Hlarge].
  - do 9 (destruct n as [|n]; [vm_compute; reflexivity |]). lia.
  - replace n with (8 + (n - 8))%nat by lia.
    rewrite rounds_add.
    rewrite (IH (n - 8)%nat ltac:(lia)).
    destruct (state_after_cycle (n - 8) ltac:(lia)) as [Hin Hsame].
    rewrite (eight_rounds _ _ _ _ _ _ Hin), Hsame.
    f_equal.
    + replace (8 + (n - 8))%nat with ((n - 8) + 1 * 8)%nat by lia.
      rewrite Nat.div_add by lia. lia.
    + rewrite <- repeat_app. f_equal. lia.
Qed.

(** X28. Started as [__init__] leaves it, and as long as nothing interrupts
    it, the loop of the agent goes from INITIALIZE to ASSESS_SITUATION and
    then round and round through NEGOTIATE_CONTRACT, ACCEPT_CONTRACT,
    PLAN_FULFILLMENT, EXECUTE_CONTRACT, DELIVER_GOODS, COMPLETE_CONTRACT
    and EVALUATE_PERFORMANCE back to ASSESS_SITUATION, never to
    ACQUIRE_RESOURCES nor to ERROR_RECOVERY. After any number of rounds it
    has slept one second a round, counted no error, and counted a contract
    as completed for every eight rounds. *)
Theorem agent_loop_cycles (n : nat) :
  let agent := SpaceTradersAgent.rounds n SpaceTradersAgent.initial in
  SpaceTradersAgent.current_state agent = state_after n
  /\ SpaceTradersAgent.contracts_completed agent = Z.of_nat (n / 8)
  /\ SpaceTradersAgent.errors_encountered agent = 0
  /\ SpaceTradersAgent.slept agent = repeat 1 n
  /\ SpaceTradersAgent.running agent = true.
Proof. rewrite rounds_value. repeat split. Qed.
